(** * Digital-twin dashboard: the telemetry simulator

    A shallow embedding of the simulation logic of the dashboard, covering
    the three implementation variants found in the repository:

    - [TS]  : [main.ts], 5 Hz tick with the cascading seconds/minutes/hours
              aggregation;
    - [JsA] : first [main.js], 5 Hz tick that scrolls the displayed series;
    - [JsB] : second [main.js], 1 Hz tick, six motion states, no chart update.

    Conventions of the embedding.

    - JavaScript numbers are modelled by exact rationals ([Q]); the rounding
      of IEEE doubles is not represented, except in the status figures
      (ping, CPU, memory, temperature), whose largest values depend on it.
      Timestamps ([Date.now()]) are integers ([Z]).
    - [Math.random()] is an input: a tape of draws for the series generator,
      named draws for a tick.  [Math.sin] is a parameter of the development.
    - DOM and Chart.js operations are external calls.  Their visual effect is
      not represented; whether such a call returns or throws is decided by
      the environment of the tick, which lets the [try]/[catch] structure of
      the tick be stated.  The calls made by a [catch] block are external
      calls as well; [console.error] and [console.log] are taken to
      succeed.  What the browser's timer does with an exception that
      leaves [updateTime] is outside the code and not represented. *)

From Stdlib Require Import ZArith QArith Qabs Qminmax Qround Lqa Lia.
From Stdlib Require Import List String Bool.
Import ListNotations.

Set Implicit Arguments.

(* ------------------------------------------------------------------ *)
(** * JavaScript primitives *)

Module Js.
Local Open Scope Q_scope.

Definition Math_max (a b : Q) : Q := Qmax a b.
Definition Math_min (a b : Q) : Q := Qmin a b.
Definition Math_abs (a : Q) : Q := Qabs a.

(** [a < b] on numbers, as a boolean. *)
Definition ltb (a b : Q) : bool := negb (Qle_bool b a).

(** [Number.prototype.toFixed(2)], as the number its result denotes.
    ECMAScript: a negative [x] is formatted as ["-"] followed by the
    digits of [-x]; the digits are those of the integer [n] for which
    [n / 100 - x] is closest to zero, the larger [n] on a tie; from
    [10^21] on the plain [ToString] of [x] is returned. *)
Definition toFixed2 (x : Q) : Q :=
  let a := Qabs x in
  if Qle_bool (inject_Z (10 ^ 21)) a then x
  else
    let n := Qfloor (a * 100 + 1 / 2) in
    if ltb x 0 then - (inject_Z n / 100) else inject_Z n / 100.

(** [parseFloat] applied to a decimal string reads the number back. *)
Definition parseFloat (x : Q) : Q := x.

(** Truthiness of a value used as a number: [None] stands for
    [undefined], [null] and [NaN]; [0] is falsy as well. *)
Definition truthy (v : option Q) : bool :=
  match v with
  | Some q => negb (Qeq_bool q 0)
  | None => false
  end.

(** [v || d] *)
Definition or_else (v : option Q) (d : Q) : Q :=
  match v with
  | Some q => if truthy v then q else d
  | None => d
  end.

(** [arr.push(v)] and [arr.shift()] on an array held by value. *)
Definition push (arr : list Q) (v : Q) : list Q := arr ++ [v].
Definition shift (arr : list Q) : list Q := tl arr.

(** [arr.reduce((a, b) => a + b, 0)] *)
Definition sum (arr : list Q) : Q := fold_left Qplus arr 0.

(** A number with at most two decimals: a multiple of 0.01. *)
Definition twoDecimals (q : Q) : Prop :=
  exists m : Z, q == inject_Z m / 100.

(** The arithmetic mean of a list of numbers, as the specification words
    it: the sum of the values over their count. *)
Definition arithmeticMean (xs : list Q) : Q :=
  fold_right Qplus 0 xs / inject_Z (Z.of_nat (List.length xs)).
End Js.

(* ------------------------------------------------------------------ *)
(** * The pseudo-random source *)

Module Rng.
(** The results of the successive calls of [Math.random()], and the
    number of calls made so far. *)
Record t := mk { tape : nat -> Q; pos : nat }.

Definition Math_random (g : t) : Q * t :=
  (tape g (pos g), mk (tape g) (S (pos g))).

(** [Math.random()] returns a number in [[0, 1)]. *)
Definition valid_draw (r : Q) : Prop := (0 <= r /\ r < 1)%Q.
Definition valid (g : t) : Prop := forall i, valid_draw (tape g i).
End Rng.

(* ------------------------------------------------------------------ *)
(** * Chart data and the dense-series generator (all variants) *)

Module Chart.
Import Js.
Local Open Scope Q_scope.

(** One step of the loop body of [generateDenseData]: the walk term, the
    jitter term, the clamp.  Returns the new [val]. *)
Definition walkStep (min max val r1 r2 : Q) : Q :=
  let val := val + (r1 - 0.5) * (max - min) * 0.1 in
  let val := val + (r2 - 0.5) * (max - min) * 0.05 in
  Math_max min (Math_min max val).

(** The [for] loop of [generateDenseData], [n] iterations from [val]. *)
Fixpoint walk (n : nat) (min max val : Q) (g : Rng.t) : list Q * Rng.t :=
  match n with
  | O => ([], g)
  | S n' =>
      let (r1, g1) := Rng.Math_random g in
      let (r2, g2) := Rng.Math_random g1 in
      let val := walkStep min max val r1 r2 in
      let (rest, g') := walk n' min max val g2 in
      (parseFloat (toFixed2 val) :: rest, g')
  end.

(** [let val = initialValue || (min + max) / 2] *)
Definition startValue (min max : Q) (initialValue : option Q) : Q :=
  or_else initialValue ((min + max) / 2).

Definition generateDenseData (points : Z) (min max : Q)
    (initialValue : option Q) (g : Rng.t) : list Q * Rng.t :=
  walk (Z.to_nat points) min max (startValue min max initialValue) g.

Inductive Range := Seconds | Minutes | Hours.
Inductive Mode := Power | Voltage | Current | Torque.

Record Ranges (A : Type) := mkRanges
  { seconds : A; minutes : A; hours : A }.

(** Single-line mode: the chart band [min]..[max] and one series per
    range. *)
Record SingleModeData := mkSingle
  { s_min : Q; s_max : Q; s_ranges : Ranges (list Q) }.

Record MultiLineDataset := mkDataset
  { ds_label : string; ds_data : list Q }.

Record MultiModeData := mkMulti
  { m_min : Q; m_max : Q; m_ranges : Ranges (list MultiLineDataset) }.

Record ChartDataConfig := mkChart
  { power : SingleModeData;
    voltage : SingleModeData;
    current : SingleModeData;
    torque : MultiModeData }.

Definition getRange {A} (r : Range) (rs : Ranges A) : A :=
  match r with
  | Seconds => seconds rs
  | Minutes => minutes rs
  | Hours => hours rs
  end.

Definition setRange {A} (r : Range) (v : A) (rs : Ranges A) : Ranges A :=
  match r with
  | Seconds => mkRanges v (minutes rs) (hours rs)
  | Minutes => mkRanges (seconds rs) v (hours rs)
  | Hours => mkRanges (seconds rs) (minutes rs) v
  end.

Record ValueRange := mkVR { vr_min : Q; vr_max : Q; vr_init : Q }.

Definition createModeData (min max : Q) (valSec valMin valHour : ValueRange)
    (g : Rng.t) : SingleModeData * Rng.t :=
  let (sec, g) :=
    generateDenseData 60 (vr_min valSec) (vr_max valSec)
      (Some (vr_init valSec)) g in
  let (mi, g) :=
    generateDenseData 60 (vr_min valMin) (vr_max valMin)
      (Some (vr_init valMin)) g in
  let (ho, g) :=
    generateDenseData 25 (vr_min valHour) (vr_max valHour)
      (Some (vr_init valHour)) g in
  (mkSingle min max (mkRanges sec mi ho), g).

(** The four wheel datasets of one range of the torque mode. *)
Definition torqueDatasets (points : Z) (fl fr rl rr : ValueRange)
    (g : Rng.t) : list MultiLineDataset * Rng.t :=
  let gen v g :=
    generateDenseData points (vr_min v) (vr_max v) (Some (vr_init v)) g in
  let (dfl, g) := gen fl g in
  let (dfr, g) := gen fr g in
  let (drl, g) := gen rl g in
  let (drr, g) := gen rr g in
  ([mkDataset "FL" dfl; mkDataset "FR" dfr;
    mkDataset "RL" drl; mkDataset "RR" drr], g).

(** The object literal [chartData], evaluated in source order. *)
Definition initialChartData (g : Rng.t) : ChartDataConfig * Rng.t :=
  let (p, g) :=
    createModeData 0 400
      (mkVR 240 290 264) (mkVR 255 275 260) (mkVR 240 290 265) g in
  let (v, g) :=
    createModeData 20 24
      (mkVR 21.5 22.5 22.0) (mkVR 21.8 22.4 22.1) (mkVR 21.0 23.0 21.5) g in
  let (c, g) :=
    createModeData 10 15
      (mkVR 11 13 11.5) (mkVR 11.5 12.5 12.0) (mkVR 11.0 13.0 11.2) g in
  let (ts, g) :=
    torqueDatasets 60 (mkVR 0.1 0.2 0.13) (mkVR 0.3 0.4 0.35)
      (mkVR (-0.3) (-0.2) (-0.28)) (mkVR 0.15 0.25 0.18) g in
  let (tm, g) :=
    torqueDatasets 60 (mkVR 0.12 0.16 0.14) (mkVR 0.32 0.38 0.35)
      (mkVR (-0.32) (-0.25) (-0.29)) (mkVR 0.18 0.23 0.20) g in
  let (th, g) :=
    torqueDatasets 25 (mkVR 0.1 0.18 0.15) (mkVR 0.3 0.4 0.32)
      (mkVR (-0.35) (-0.22) (-0.25)) (mkVR 0.15 0.25 0.17) g in
  (mkChart p v c (mkMulti (-0.5) 0.5 (mkRanges ts tm th)), g).

(** Access to a single-line mode by name; the torque entry is not one. *)
Definition getSingle (m : Mode) (cd : ChartDataConfig)
  : option SingleModeData :=
  match m with
  | Power => Some (power cd)
  | Voltage => Some (voltage cd)
  | Current => Some (current cd)
  | Torque => None
  end.

Definition setSingle (m : Mode) (d : SingleModeData) (cd : ChartDataConfig)
  : ChartDataConfig :=
  match m with
  | Power => mkChart d (voltage cd) (current cd) (torque cd)
  | Voltage => mkChart (power cd) d (current cd) (torque cd)
  | Current => mkChart (power cd) (voltage cd) d (torque cd)
  | Torque => cd
  end.

(** The series of a single-line mode at a range ([[]] for torque). *)
Definition series (m : Mode) (r : Range) (cd : ChartDataConfig) : list Q :=
  match getSingle m cd with
  | Some d => getRange r (s_ranges d)
  | None => []
  end.

(** [dataArr.push(value); dataArr.shift()] on the array of a single-line
    mode at a range. *)
Definition pushShiftSingle (m : Mode) (r : Range) (value : Q)
    (cd : ChartDataConfig) : ChartDataConfig :=
  match getSingle m cd with
  | Some d =>
      let dataArr := getRange r (s_ranges d) in
      setSingle m
        (mkSingle (s_min d) (s_max d)
           (setRange r (shift (push dataArr value)) (s_ranges d)))
        cd
  | None => cd
  end.

(** The fixed capacity of the series of a range. *)
Definition capacity (r : Range) : nat :=
  match r with
  | Seconds => 60
  | Minutes => 60
  | Hours => 25
  end%nat.
End Chart.

(* ------------------------------------------------------------------ *)
(** * Exceptions and external calls *)

Module Exc.
(** A thrown value, by its message. *)
Definition Exn := string.

(** The result of running a statement: it completes or throws; the
    mutations made up to that point persist in both cases. *)
Inductive Outcome (St A : Type) :=
| Normal (a : A) (s : St)
| Throw (e : Exn) (s : St).
Arguments Normal {St A} a s.
Arguments Throw {St A} e s.

Definition M (St A : Type) := St -> Outcome St A.

Definition ret {St A} (a : A) : M St A := fun s => Normal a s.

Definition bind {St A B} (m : M St A) (k : A -> M St B) : M St B :=
  fun s =>
    match m s with
    | Normal a s' => k a s'
    | Throw e s' => Throw e s'
    end.

Definition throw {St A} (e : Exn) : M St A := fun s => Throw e s.
Definition get {St} : M St St := fun s => Normal s s.
Definition modify {St} (f : St -> St) : M St unit :=
  fun s => Normal tt (f s).

(** [try { body } catch (err) { handler(err) }] *)
Definition try_catch {St} (body : M St unit) (handler : Exn -> M St unit)
  : M St unit :=
  fun s =>
    match body s with
    | Normal a s' => Normal a s'
    | Throw e s' => handler e s'
    end.

(** The state a statement leaves behind. *)
Definition final {St A} (o : Outcome St A) : St :=
  match o with
  | Normal _ s => s
  | Throw _ s => s
  end.

(** The groups of DOM and Chart.js calls made by a tick. *)
Inductive ExtCall :=
| DomClock | DomStatus | DomSystem | DomElectrical
| DomWheels | DomDirection | ChartUpdate.

(** The environment decides which external calls throw, and what. *)
Definition Faults := ExtCall -> option Exn.

Definition noFaults : Faults := fun _ => None.

Definition ext {St} (f : Faults) (c : ExtCall) : M St unit :=
  match f c with
  | Some e => throw e
  | None => ret tt
  end.

(** No DOM call throws (the chart refresh still may). *)
Definition domQuiet (f : Faults) : Prop :=
  forall c, c <> ChartUpdate -> f c = None.
End Exc.

Notation "c1 ;; c2" := (Exc.bind c1 (fun _ => c2))
  (at level 61, right associativity).
Notation "x <- c1 ;; c2" := (Exc.bind c1 (fun x => c2))
  (at level 61, c1 at next level, right associativity).

(* ------------------------------------------------------------------ *)
(** * Motion commands, wheels and samples (shared types) *)

Module Robot.
Record Motion := mkMotion { drive : Q; strafe : Q; turn : Q }.
Record Wheels := mkWheels { fl : Q; fr : Q; rl : Q; rr : Q }.

(** The draws of [Math.random()] that reach the telemetry of one tick, in
    source order.  The draws used only by DOM widgets (ping, RPM jitter)
    are left out. *)
Record Draws := mkDraws
  { rnd_drive : Q; rnd_strafe : Q; rnd_turn : Q;
    rnd_voltage : Q; rnd_current : Q }.

Definition validDraws (d : Draws) : Prop :=
  Rng.valid_draw (rnd_drive d) /\ Rng.valid_draw (rnd_strafe d) /\
  Rng.valid_draw (rnd_turn d) /\ Rng.valid_draw (rnd_voltage d) /\
  Rng.valid_draw (rnd_current d).

Record Sample := mkSample
  { simVoltage : Q; simCurrent : Q; simPower : Q }.

Local Open Scope Q_scope.

(** [Math.max(a, b, c, d, e)] *)
Definition Math_max5 (a b c d e : Q) : Q :=
  Js.Math_max (Js.Math_max (Js.Math_max (Js.Math_max a b) c) d) e.

(** Every wheel output has magnitude at most 1. *)
Definition unitWheels (w : Wheels) : Prop :=
  Qabs (fl w) <= 1 /\ Qabs (fr w) <= 1 /\
  Qabs (rl w) <= 1 /\ Qabs (rr w) <= 1.

(** A motion command within [b] of the origin on each axis. *)
Definition withinOfZero (b : Q) (m : Motion) : Prop :=
  Qabs (drive m) <= b /\ Qabs (strafe m) <= b /\ Qabs (turn m) <= b.
End Robot.

(* ------------------------------------------------------------------ *)
(** * Sections 3 and 4 of the tick of [main.ts] and of the first [main.js]
      (the two texts are identical) *)

Module Sim.
Import Js Robot.
Local Open Scope Q_scope.

Section WithSin.
Variable Math_sin : Q -> Q.

Definition cycleDuration : Z := 4000.
Definition stateCount : Z := 5.

(** [Math.floor(nowMs / cycleDuration) % 5]; [%] truncates. *)
Definition cycleIndex (nowMs : Z) : Z :=
  Z.rem (nowMs / cycleDuration) stateCount.

(** The [switch]: the setpoint before noise.  When no case matches the
    variables keep their initial value 0. *)
Definition setpoint (nowMs : Z) : Motion :=
  match cycleIndex nowMs with
  | 0%Z => mkMotion 0 0 0
  | 1%Z => mkMotion 0.8 0 0
  | 2%Z => mkMotion (-0.5) 0 0
  | 3%Z => mkMotion 0 (-0.7) 0
  | 4%Z => mkMotion 0 0 (Math_sin (inject_Z nowMs / 500) * 0.8)
  | _ => mkMotion 0 0 0
  end.

(** [x += (Math.random() - 0.5) * 0.05] on the three axes. *)
Definition addNoise (m : Motion) (d : Draws) : Motion :=
  mkMotion (drive m + (rnd_drive d - 0.5) * 0.05)
           (strafe m + (rnd_strafe d - 0.5) * 0.05)
           (turn m + (rnd_turn d - 0.5) * 0.05).

Definition motion (nowMs : Z) (d : Draws) : Motion :=
  addNoise (setpoint nowMs) d.

Definition baseVoltage : Q := 24.8.
Definition voltageLoad (m : Motion) : Q :=
  (Math_abs (drive m) + Math_abs (strafe m)) * 1.5.
Definition voltageNoise (d : Draws) : Q := (rnd_voltage d - 0.5) * 0.1.
Definition voltageOf (m : Motion) (d : Draws) : Q :=
  baseVoltage - voltageLoad m + voltageNoise d.

Definition baseCurrent : Q := 1.2.
Definition currentLoad (m : Motion) : Q :=
  (Math_abs (drive m) + Math_abs (strafe m) + Math_abs (turn m)) * 20.
Definition currentOf (m : Motion) (d : Draws) : Q :=
  baseCurrent + currentLoad m + (rnd_current d - 0.5) * 0.5.

Definition sample (m : Motion) (d : Draws) : Sample :=
  let v := voltageOf m d in
  let c := currentOf m d in
  mkSample v c (v * c).
End WithSin.
End Sim.

(* ------------------------------------------------------------------ *)
(** * [main.ts] *)

Module TS.
Import Js Robot Chart Exc.
Local Open Scope Q_scope.

(** Section 6: inverse kinematics and normalisation. *)
Definition L : Q := 0.208.
Definition r_wheel : Q := 0.06.
Definition sin_a : Q := 0.7071.
Definition cos_a : Q := 0.7071.

Definition w1_FR (m : Motion) : Q :=
  (- cos_a * strafe m + sin_a * drive m + L * turn m) / r_wheel.
Definition w2_FL (m : Motion) : Q :=
  (- cos_a * strafe m - sin_a * drive m + L * turn m) / r_wheel.
Definition w3_RL (m : Motion) : Q :=
  (cos_a * strafe m - sin_a * drive m + L * turn m) / r_wheel.
Definition w4_RR (m : Motion) : Q :=
  (cos_a * strafe m + sin_a * drive m + L * turn m) / r_wheel.

Definition maxVel (m : Motion) : Q :=
  Math_max5 (Math_abs (w1_FR m)) (Math_abs (w2_FL m))
            (Math_abs (w3_RL m)) (Math_abs (w4_RR m)) 10.0.

Definition wheels (m : Motion) : Wheels :=
  mkWheels (w2_FL m / maxVel m) (w1_FR m / maxVel m)
           (w3_RL m / maxVel m) (w4_RR m / maxVel m).

(** The aggregation buffers. *)
Record DataBuffer := mkBuffer
  { buf_power : list Q; buf_voltage : list Q; buf_current : list Q }.

Definition emptyBuffer : DataBuffer := mkBuffer [] [] [].

Record State := mkState
  { chartData : ChartDataConfig;
    secBuffer : DataBuffer;
    minBuffer : DataBuffer;
    lastSecondUpdate : Z;
    console : list (string * Exn) }.

Definition initialState (g : Rng.t) : State :=
  mkState (fst (initialChartData g)) emptyBuffer emptyBuffer 0 [].

(** What one tick reads from its surroundings: the three readings of
    [Date.now()] (state machine, gate, stamp), the draws, and the
    behaviour of the external calls. *)
Record Env := mkEnv
  { now_sim : Z; now_gate : Z; now_stamp : Z;
    draws : Draws; faults : Faults }.

Definition withChart (cd : ChartDataConfig) (s : State) : State :=
  mkState cd (secBuffer s) (minBuffer s) (lastSecondUpdate s) (console s).
Definition withSec (b : DataBuffer) (s : State) : State :=
  mkState (chartData s) b (minBuffer s) (lastSecondUpdate s) (console s).
Definition withMin (b : DataBuffer) (s : State) : State :=
  mkState (chartData s) (secBuffer s) b (lastSecondUpdate s) (console s).
Definition withLast (t : Z) (s : State) : State :=
  mkState (chartData s) (secBuffer s) (minBuffer s) t (console s).
Definition console_error (msg : string) (err : Exn) (s : State) : State :=
  mkState (chartData s) (secBuffer s) (minBuffer s) (lastSecondUpdate s)
          (console s ++ [(msg, err)]).

(** [updateModeData]: multi-line modes are skipped, a single-line series
    gets the value pushed and its oldest element shifted out. *)
Definition updateModeData (mode : Mode) (range : Range) (value : Q)
    (cd : ChartDataConfig) : ChartDataConfig :=
  match mode with
  | Torque => cd
  | _ => pushShiftSingle mode range value cd
  end.

Definition updateAll (range : Range) (p v c : Q) (s : State) : State :=
  withChart
    (updateModeData Current range c
       (updateModeData Voltage range v
          (updateModeData Power range p (chartData s)))) s.

Definition pushBuffer (b : DataBuffer) (p v c : Q) : DataBuffer :=
  mkBuffer (push (buf_power b) p) (push (buf_voltage b) v)
           (push (buf_current b) c).

(** [arr.reduce((a, b) => a + b, 0) / 60] *)
Definition avg60 (arr : list Q) : Q := Js.sum arr / 60.

(** A. seconds series and collection for the minutes. *)
Definition stageSeconds (smp : Sample) (s : State) : State :=
  let s := updateAll Seconds (simPower smp) (simVoltage smp)
                     (simCurrent smp) s in
  withSec (pushBuffer (secBuffer s) (simPower smp) (simVoltage smp)
                      (simCurrent smp)) s.

(** B. minutes series, every 60 collected seconds. *)
Definition stageMinutes (s : State) : State :=
  if (60 <=? List.length (buf_power (secBuffer s)))%nat then
    let avgPower := avg60 (buf_power (secBuffer s)) in
    let avgVoltage := avg60 (buf_voltage (secBuffer s)) in
    let avgCurrent := avg60 (buf_current (secBuffer s)) in
    let s := updateAll Minutes avgPower avgVoltage avgCurrent s in
    let s := withMin (pushBuffer (minBuffer s) avgPower avgVoltage
                                 avgCurrent) s in
    withSec emptyBuffer s
  else s.

(** C. hours series, every 60 collected minutes. *)
Definition stageHours (s : State) : State :=
  if (60 <=? List.length (buf_power (minBuffer s)))%nat then
    let avgPower := avg60 (buf_power (minBuffer s)) in
    let avgVoltage := avg60 (buf_voltage (minBuffer s)) in
    let avgCurrent := avg60 (buf_current (minBuffer s)) in
    let s := updateAll Hours avgPower avgVoltage avgCurrent s in
    withMin emptyBuffer s
  else s.

(** The body of [if (Date.now() - lastSecondUpdate >= 1000)], up to the
    chart refresh. *)
Definition cascade (stamp : Z) (smp : Sample) (s : State) : State :=
  stageHours (stageMinutes (stageSeconds smp (withLast stamp s))).

Definition gate (now : Z) (s : State) : bool :=
  (1000 <=? now - lastSecondUpdate s)%Z.

(** Two states that differ at most by their console. *)
Definition sameData (s1 s2 : State) : Prop :=
  chartData s1 = chartData s2 /\ secBuffer s1 = secBuffer s2
  /\ minBuffer s1 = minBuffer s2
  /\ lastSecondUpdate s1 = lastSecondUpdate s2.

(** All three arrays of a buffer hold [n] values. *)
Definition bufferHolds (n : nat) (b : DataBuffer) : Prop :=
  List.length (buf_power b) = n /\ List.length (buf_voltage b) = n /\
  List.length (buf_current b) = n.

Section WithSin.
Variable Math_sin : Q -> Q.

Definition sampleOf (env : Env) : Sample :=
  Sim.sample (Sim.motion Math_sin (now_sim env) (draws env)) (draws env).

(** The statements inside [try]. *)
Definition body (env : Env) : M State unit :=
  let f := faults env in
  ext f DomClock ;;
  ext f DomStatus ;;
  let smp := sampleOf env in
  ext f DomElectrical ;;
  ext f DomWheels ;;
  ext f DomDirection ;;
  s <- get ;;
  (if gate (now_gate env) s
   then modify (cascade (now_stamp env) smp) ;; ext f ChartUpdate
   else ret tt) ;;
  ext f ChartUpdate.

Definition updateTime (env : Env) : M State unit :=
  try_catch (body env)
    (fun err => modify (console_error "Simulation Error:" err)).

(** The timer: one call of [updateTime] per period, each on the state
    the previous one left. *)
Definition run (envs : list Env) (s : State) : State :=
  fold_left (fun s env => final (updateTime env s)) envs s.
End WithSin.
End TS.

(* ------------------------------------------------------------------ *)
(** * First [main.js] *)

Module JsA.
Import Js Robot Chart Exc.
Local Open Scope Q_scope.

(** Section 6: kinematics and normalisation. *)
Definition mix (m : Motion) : Wheels :=
  mkWheels (drive m + strafe m + turn m) (drive m - strafe m - turn m)
           (drive m - strafe m + turn m) (drive m + strafe m - turn m).

Definition maxM (w : Wheels) : Q :=
  Math_max5 (Math_abs (fl w)) (Math_abs (fr w))
            (Math_abs (rl w)) (Math_abs (rr w)) 1.0.

Definition wheels (m : Motion) : Wheels :=
  let w := mix m in
  let maxM := maxM w in
  mkWheels (fl w / maxM) (fr w / maxM) (rl w / maxM) (rr w / maxM).

(** The [data] arrays handed to the chart are the arrays of [chartData]
    themselves: a dataset of the chart is a reference into [chartData]. *)
Inductive DataRef :=
| RefSingle (m : Mode) (r : Range)
| RefMulti (r : Range) (i : nat).

Definition getDatasetForMode (mode : Mode) (range : Range)
    (cd : ChartDataConfig) : list DataRef :=
  match mode with
  | Torque =>
      map (RefMulti range)
          (seq 0 (List.length (getRange range (m_ranges (torque cd)))))
  | _ => [RefSingle mode range]
  end.

Fixpoint updateNth {A} (i : nat) (f : A -> A) (l : list A) : list A :=
  match l, i with
  | [], _ => []
  | x :: l', O => f x :: l'
  | x :: l', S i' => x :: updateNth i' f l'
  end.

(** [dataArr.push(newVal); dataArr.shift()] through a reference. *)
Definition pushShiftRef (ref : DataRef) (v : Q) (cd : ChartDataConfig)
  : ChartDataConfig :=
  match ref with
  | RefSingle m r => pushShiftSingle m r v cd
  | RefMulti r i =>
      let t := torque cd in
      let upd ds := mkDataset (ds_label ds) (shift (push (ds_data ds) v)) in
      mkChart (power cd) (voltage cd) (current cd)
        (mkMulti (m_min t) (m_max t)
           (setRange r (updateNth i upd (getRange r (m_ranges t)))
                     (m_ranges t)))
  end.

Record State := mkState
  { chartData : ChartDataConfig;
    currentMode : Mode;
    currentTimeRange : Range;
    datasets : list DataRef;
    console : list (string * Exn);
    terminal : list string }.

Definition initialState (g : Rng.t) : State :=
  let cd := fst (initialChartData g) in
  mkState cd Power Seconds (getDatasetForMode Power Seconds cd) [] [].

(** [updateChart] and the two click handlers of the segmented controls. *)
Definition updateChart (s : State) : State :=
  mkState (chartData s) (currentMode s) (currentTimeRange s)
    (getDatasetForMode (currentMode s) (currentTimeRange s) (chartData s))
    (console s) (terminal s).

Definition selectMode (m : Mode) (s : State) : State :=
  updateChart
    (mkState (chartData s) m (currentTimeRange s) (datasets s)
             (console s) (terminal s)).

Definition selectTimeRange (r : Range) (s : State) : State :=
  updateChart
    (mkState (chartData s) (currentMode s) r (datasets s)
             (console s) (terminal s)).

(** The chart shows what the current selection designates. *)
Definition synced (s : State) : Prop :=
  datasets s
  = getDatasetForMode (currentMode s) (currentTimeRange s) (chartData s).

(** The chart shows the current selection, and the torque mode has its
    four wheel datasets at every range. *)
Definition wellFormed (s : State) : Prop :=
  synced s
  /\ forall r,
       List.length (getRange r (m_ranges (torque (chartData s)))) = 4%nat.

(** The calls of the [catch] block that may throw, in the order in which
    they are made: the query for the log panel and, when the page has
    one, the read of its [innerHTML], the read of [err.message] and the
    write of [innerHTML]. *)
Inductive CatchCall := PanelQuery | PanelRead | ErrMessage | PanelWrite.

Record Env := mkEnv
  { now_sim : Z; draws : Draws; faults : Faults; has_terminal : bool;
    catch_faults : CatchCall -> option Exn }.

(** No call of the [catch] block throws. *)
Definition catchQuiet (env : Env) : Prop :=
  catch_faults env PanelQuery = None
  /\ (has_terminal env = true ->
      catch_faults env PanelRead = None
      /\ catch_faults env ErrMessage = None
      /\ catch_faults env PanelWrite = None).

Definition withChart (cd : ChartDataConfig) (s : State) : State :=
  mkState cd (currentMode s) (currentTimeRange s) (datasets s)
          (console s) (terminal s).

Definition console_error (msg : string) (err : Exn) (s : State) : State :=
  mkState (chartData s) (currentMode s) (currentTimeRange s) (datasets s)
          (console s ++ [(msg, err)]) (terminal s).

(** [terminal.innerHTML += ...] with the message of the error. *)
Definition terminal_append (err : Exn) (s : State) : State :=
  mkState (chartData s) (currentMode s) (currentTimeRange s) (datasets s)
          (console s) (terminal s ++ [("ERROR: " ++ err)%string]).

Definition ext_catch (f : CatchCall -> option Exn) (c : CatchCall)
  : M State unit :=
  match f c with
  | Some e => throw e
  | None => ret tt
  end.

Definition newVal (mode : Mode) (smp : Sample) : Q :=
  match mode with
  | Power => simPower smp
  | Voltage => simVoltage smp
  | Current => simCurrent smp
  | Torque => 0
  end.

Section WithSin.
Variable Math_sin : Q -> Q.

Definition sampleOf (env : Env) : Sample :=
  Sim.sample (Sim.motion Math_sin (now_sim env) (draws env)) (draws env).

(** Section 7: only when the chart shows exactly one dataset. *)
Definition graphUpdate (env : Env) : M State unit :=
  s <- get ;;
  match datasets s with
  | [ref] =>
      modify (fun s =>
        withChart (pushShiftRef ref (newVal (currentMode s)
                                            (sampleOf env))
                                (chartData s)) s) ;;
      ext (faults env) ChartUpdate
  | _ => ret tt
  end.

Definition body (env : Env) : M State unit :=
  let f := faults env in
  ext f DomClock ;;
  ext f DomStatus ;;
  ext f DomElectrical ;;
  ext f DomWheels ;;
  ext f DomDirection ;;
  graphUpdate env.

(** The [catch] block: [console.error], then
    [document.querySelector('.terminal-logs')] and, when the page has the
    panel, [terminal.innerHTML += ... err.message ...].  The block is not
    itself inside a [try]: what one of its calls throws leaves
    [updateTime], and the panel is not written. *)
Definition handler (env : Env) (err : Exn) : M State unit :=
  let f := catch_faults env in
  modify (console_error "Simulation Error:" err) ;;
  ext_catch f PanelQuery ;;
  (if has_terminal env then
     ext_catch f PanelRead ;;
     ext_catch f ErrMessage ;;
     ext_catch f PanelWrite ;;
     modify (terminal_append err)
   else ret tt).

Definition updateTime (env : Env) : M State unit :=
  try_catch (body env) (handler env).

(** What happens to the page: a period of the timer elapses, or one of
    the segmented controls is clicked. *)
Inductive Event :=
| Tick (env : Env)
| ClickMode (m : Mode)
| ClickRange (r : Range).

Definition step (s : State) (ev : Event) : State :=
  match ev with
  | Tick env => final (updateTime env s)
  | ClickMode m => selectMode m s
  | ClickRange r => selectTimeRange r s
  end.

Definition run (evs : list Event) (s : State) : State :=
  fold_left step evs s.
End WithSin.
End JsA.

(* ------------------------------------------------------------------ *)
(** * Second [main.js] *)

Module JsB.
Import Js Robot Chart Exc.
Local Open Scope Q_scope.

Definition cycleDuration : Z := 3000.
Definition stateCount : Z := 6.

Definition cycleIndex (nowMs : Z) : Z :=
  Z.rem (nowMs / cycleDuration) stateCount.

(** The [switch]; the last state turns one way during the first half of
    its 3000 ms and the other way during the second half. *)
Definition setpoint (nowMs : Z) : Motion :=
  match cycleIndex nowMs with
  | 0%Z => mkMotion 0 0 0
  | 1%Z => mkMotion 0.8 0 0
  | 2%Z => mkMotion (-0.6) 0 0
  | 3%Z => mkMotion 0 (-0.8) 0
  | 4%Z => mkMotion 0 0.8 0
  | 5%Z =>
      if (Z.rem nowMs 3000 <? 1500)%Z
      then mkMotion 0 0 0.9
      else mkMotion 0 0 (-0.9)
  | _ => mkMotion 0 0 0
  end.

Definition addNoise (m : Motion) (d : Draws) : Motion :=
  mkMotion (drive m + (rnd_drive d - 0.5) * 0.1)
           (strafe m + (rnd_strafe d - 0.5) * 0.1)
           (turn m + (rnd_turn d - 0.5) * 0.1).

Definition motion (nowMs : Z) (d : Draws) : Motion :=
  addNoise (setpoint nowMs) d.

Definition mix (m : Motion) : Wheels :=
  mkWheels (drive m + strafe m + turn m) (drive m - strafe m - turn m)
           (drive m - strafe m + turn m) (drive m + strafe m - turn m).

Definition maxVal (w : Wheels) : Q :=
  Math_max5 (Math_abs (fl w)) (Math_abs (fr w))
            (Math_abs (rl w)) (Math_abs (rr w)) 1.0.

Definition wheels (m : Motion) : Wheels :=
  let w := mix m in
  let maxVal := maxVal w in
  mkWheels (fl w / maxVal) (fr w / maxVal) (rl w / maxVal) (rr w / maxVal).

(** Battery model: the voltage does not depend on the motion. *)
Definition batteryPercent : Q := 92.
Definition voltageOf (d : Draws) : Q :=
  19.0 + batteryPercent * 0.062 + (rnd_voltage d - 0.5) * 0.1.

Definition totalDrive (m : Motion) : Q :=
  Math_abs (drive m) + Math_abs (strafe m) + Math_abs (turn m).

Definition currentOf (m : Motion) (d : Draws) : Q :=
  let baseCurrent :=
    if ltb 0.1 (totalDrive m) then 5 + totalDrive m * 20 else 1.0 in
  baseCurrent + (rnd_current d - 0.5) * 1.5.

(** The tick writes to the DOM only: nothing of the page state below is
    assigned by it. *)
Record State := mkState
  { chartData : ChartDataConfig;
    console : list (string * Exn) }.

Definition initialState (g : Rng.t) : State :=
  mkState (fst (initialChartData g)) [].

Record Env := mkEnv { now_sim : Z; draws : Draws; faults : Faults }.

(** No [try] in this variant. *)
Definition updateTime (env : Env) : M State unit :=
  let f := faults env in
  ext f DomClock ;;
  ext f DomStatus ;;
  ext f DomSystem ;;
  ext f DomWheels ;;
  ext f DomDirection ;;
  ext f DomElectrical.

Definition run (envs : list Env) (s : State) : State :=
  fold_left (fun s env => final (updateTime env s)) envs s.
End JsB.

(* ------------------------------------------------------------------ *)
(** * Concrete inputs *)

Module Examples.
Import Robot Chart Exc.
Local Open Scope Q_scope.

(** A source whose every draw is 0.5: no walk, no jitter, no noise. *)
Definition steady : Rng.t := Rng.mk (fun _ => 0.5) 0.
Definition calm : Draws := mkDraws 0.5 0.5 0.5 0.5 0.5.

(** A stand-in for [Math.sin]. *)
Definition flat : Q -> Q := fun _ => 0.

Definition chart0 : ChartDataConfig := fst (initialChartData steady).

(** A page state of [main.ts] one sample short of a full minute and one
    minute short of a full hour, and a tick whose gate is open. *)
Definition almostFull : TS.DataBuffer :=
  TS.mkBuffer (repeat 260 59) (repeat 22 59) (repeat 12 59).
Definition tsState : TS.State :=
  TS.mkState chart0 almostFull almostFull 0 [].
Definition tsEnv : TS.Env := TS.mkEnv 0 1000 1000 calm noFaults.

Definition jsaEnv : JsA.Env :=
  JsA.mkEnv 0 calm noFaults true (fun _ => None).
Definition jsbEnv : JsB.Env := JsB.mkEnv 0 calm noFaults.

(** An environment in which the first DOM call of a tick throws. *)
Definition clockFault : Faults :=
  fun c => match c with DomClock => Some "TypeError"%string | _ => None end.
Definition tsBroken : TS.Env := TS.mkEnv 0 1000 1000 calm clockFault.
Definition jsbBroken : JsB.Env := JsB.mkEnv 0 calm clockFault.
Definition jsbState : JsB.State := JsB.mkState chart0 [].

(** The first [main.js] with the same failing call: once with a [catch]
    block that succeeds, once on a page whose log panel cannot be
    written. *)
Definition panelFault : JsA.CatchCall -> option Exn :=
  fun c =>
    match c with
    | JsA.PanelWrite => Some "NoModificationAllowedError"%string
    | _ => None
    end.
Definition jsaBroken : JsA.Env :=
  JsA.mkEnv 0 calm clockFault true (fun _ => None).
Definition jsaBrokenCatch : JsA.Env :=
  JsA.mkEnv 0 calm clockFault true panelFault.
Definition jsaState : JsA.State :=
  JsA.mkState chart0 Power Seconds [JsA.RefSingle Power Seconds] [] [].
End Examples.

From Stdlib Require Import Ascii DecimalString.

(* ------------------------------------------------------------------ *)
(** * The running-time display (all variants) *)

Module Clock.
Local Open Scope Z_scope.

(** [String(n)] for an integer [n]; the decimal notation JavaScript uses
    below [10^21]. *)
Definition String_of (n : Z) : string :=
  DecimalString.NilZero.string_of_int (Z.to_int n).

Fixpoint zeros (n : nat) : string :=
  match n with
  | O => EmptyString
  | S n' => String "0" (zeros n')
  end.

(** [s.padStart(2, '0')] *)
Definition padStart2 (s : string) : string :=
  (zeros (2 - String.length s) ++ s)%string.

Record RunningTime := mkRunning { hours : Z; minutes : Z; seconds : Z }.

(** [Math.floor(diff / 3600000)], [Math.floor((diff % 3600000) / 60000)],
    [Math.floor((diff % 60000) / 1000)]. *)
Definition runningTime (diff : Z) : RunningTime :=
  mkRunning (diff / 3600000)
            (Z.rem diff 3600000 / 60000)
            (Z.rem diff 60000 / 1000).

(** The text of the running-time element, also copied to the uptime
    element. *)
Definition runningText (diff : Z) : string :=
  let t := runningTime diff in
  (padStart2 (String_of (hours t)) ++ ":"
   ++ padStart2 (String_of (minutes t)) ++ ":"
   ++ padStart2 (String_of (seconds t)))%string.

(** The decimal digit of a number below ten, and the two digits of a
    number below a hundred. *)
Definition digitChar (n : Z) : ascii := ascii_of_nat (48 + Z.to_nat n).
Definition twoDigits (n : Z) : string :=
  String (digitChar (n / 10)) (String (digitChar (n mod 10)) EmptyString).
End Clock.

(* ------------------------------------------------------------------ *)
(** * Status widgets: ping, system figures, current colour, wheel RPM *)

Module Widgets.
Import Js Robot.
Local Open Scope Q_scope.

(** The product and the sum of the status figures are operations on
    doubles: each gives the exact result rounded to a double, by [fl]
    below.  Of the rounding only this is used: it is monotone, and an
    integer of magnitude at most 2^53 is a double.  (The differences of
    the integer constants are exact.) *)
Definition rounding (fl : Q -> Q) : Prop :=
  (forall x y, x <= y -> fl x <= fl y)
  /\ (forall n : Z, (Z.abs n <= 2 ^ 53)%Z -> fl (inject_Z n) == inject_Z n).

Section WithRounding.
Variable fl : Q -> Q.

(** [Math.floor(Math.random() * (40 - 15 + 1) + 15)] *)
Definition ping (r : Q) : Z := Qfloor (fl (fl (r * (40 - 15 + 1)) + 15)).

(** [ping < 50 ? '#4ADE80' : (ping < 100 ? '#FACC15' : '#EF4444')] *)
Definition pingColor (ping : Z) : string :=
  if (ping <? 50)%Z then "#4ADE80"
  else if (ping <? 100)%Z then "#FACC15" else "#EF4444".

(** [main.ts] and the first [main.js]: the ping is refreshed when the
    element exists and a first draw exceeds 0.8.  The result is the new
    number and colour, if any. *)
Definition pingUpdate (has_ping : bool) (r_gate r : Q) : option (Z * string) :=
  if has_ping && ltb 0.8 r_gate
  then Some (ping r, pingColor (ping r)) else None.

(** The second [main.js] refreshes it on every tick. *)
Definition pingUpdateB (has_ping : bool) (r : Q) : option (Z * string) :=
  if has_ping then Some (ping r, pingColor (ping r)) else None.

(** The second [main.js]: simulated CPU, memory and temperature. *)
Definition sysCpu (r : Q) : Z := Qfloor (fl (fl (r * (30 - 5)) + 5)).
Definition sysMem (r : Q) : Z := Qfloor (fl (fl (r * (40 - 20)) + 20)).
Definition sysTemp (r : Q) : Z := Qfloor (fl (fl (r * (55 - 35)) + 35)).
End WithRounding.

(** [simCurrent < 10 ? '#4ADE80' : (simCurrent < 20 ? '#FACC15' : '#EF4444')] *)
Definition currentColor (simCurrent : Q) : string :=
  if ltb simCurrent 10 then "#4ADE80"
  else if ltb simCurrent 20 then "#FACC15" else "#EF4444".

(** [setWheel] of [main.ts] and of the first [main.js]: the RPM written
    for a wheel value, 0 when the elements of the wheel are missing. *)
Definition setWheel (present : bool) (val r : Q) : Z :=
  if present then
    let abs := Math_abs val in
    (Qfloor (abs * 4000) + (if ltb 0 abs then Qfloor (r * 50) else 0))%Z
  else 0%Z.

(** [main.ts]: [Math.min((rpm / 250) * 100, 100)], the width of the
    progress bar in percent. *)
Definition progress (rpm : Z) : Q :=
  Math_min ((inject_Z rpm / 250) * 100) 100.

(** [updateWheel] of the second [main.js]. *)
Definition updateWheel (val r : Q) : Z :=
  let absVal := Math_abs val in
  (Qfloor (absVal * 5000) + (if ltb 0.1 absVal then Qfloor (r * 20) else 0))%Z.

(** [Math.floor((rpm1 + rpm2 + rpm3 + rpm4) / 4)] *)
Definition avgRPM (rpm1 rpm2 rpm3 rpm4 : Z) : Z :=
  ((rpm1 + rpm2 + rpm3 + rpm4) / 4)%Z.

(** Which wheels have their elements, and the draw of each wheel. *)
Record WheelDom := mkWheelDom
  { el_FL : bool; el_FR : bool; el_RL : bool; el_RR : bool }.
Record WheelDraws := mkWheelDraws
  { rnd_FL : Q; rnd_FR : Q; rnd_RL : Q; rnd_RR : Q }.

Definition validWheelDraws (d : WheelDraws) : Prop :=
  Rng.valid_draw (rnd_FL d) /\ Rng.valid_draw (rnd_FR d) /\
  Rng.valid_draw (rnd_RL d) /\ Rng.valid_draw (rnd_RR d).

(** The four calls of [setWheel] of a tick of [main.ts], in source order
    (FL, FR, RL, RR), and the average written to the RPM element. *)
Definition wheelRPMs (dom : WheelDom) (m : Motion) (d : WheelDraws)
  : Z * Z * Z * Z :=
  let w := TS.wheels m in
  (setWheel (el_FL dom) (fl w) (rnd_FL d),
   setWheel (el_FR dom) (fr w) (rnd_FR d),
   setWheel (el_RL dom) (rl w) (rnd_RL d),
   setWheel (el_RR dom) (rr w) (rnd_RR d)).

Definition tickAvgRPM (dom : WheelDom) (m : Motion) (d : WheelDraws) : Z :=
  let '(rpm1, rpm2, rpm3, rpm4) := wheelRPMs dom m d in
  avgRPM rpm1 rpm2 rpm3 rpm4.
End Widgets.

(* ------------------------------------------------------------------ *)
(** * The rotation display of the second [main.js] *)

Module Direction.
Import Js Robot.
Local Open Scope Q_scope.

Section WithSqrt.
Variable Math_sqrt : Q -> Q.

(** [(fl + rl) - (fr + rr)] on the normalised wheel values. *)
Definition yawMoment (w : Wheels) : Q := (fl w + rl w) - (fr w + rr w).

Definition turnThreshold : Q := 0.5.

Definition magnitude (m : Motion) : Q :=
  Math_sqrt (drive m * drive m + strafe m * strafe m).

(** The class of the icon inside the central arrow. *)
Definition resIcon (m : Motion) : string :=
  let yawMoment := yawMoment (JsB.wheels m) in
  if ltb turnThreshold (Math_abs yawMoment) && ltb (magnitude m) 0.3 then
    if ltb 0 yawMoment then "bx bx-rotate-left" else "bx bx-rotate-right"
  else "bx bx-up-arrow-alt".

(** The two rotation indicators after the tick: whether [rotCW] carries
    [active-cw] and whether [rotCCW] carries [active-ccw].  Every branch
    sets or clears both classes. *)
Record Indicators := mkIndicators { active_cw : bool; active_ccw : bool }.

Definition rotIndicators (m : Motion) : Indicators :=
  let yawMoment := yawMoment (JsB.wheels m) in
  if ltb turnThreshold yawMoment then mkIndicators true false
  else if ltb yawMoment (- turnThreshold) then mkIndicators false true
  else mkIndicators false false.
End WithSqrt.
End Direction.

(* ------------------------------------------------------------------ *)
(** * Colour parsing: [createGradient] and [hexToRgba] *)

Module Colour.
Local Open Scope Z_scope.

(** Strings are ASCII texts here, one character per code unit. *)

(** The value of a hexadecimal digit. *)
Definition hexDigit (c : ascii) : option Z :=
  let n := Z.of_nat (nat_of_ascii c) in
  if (48 <=? n) && (n <=? 57) then Some (n - 48)
  else if (97 <=? n) && (n <=? 102) then Some (n - 87)
  else if (65 <=? n) && (n <=? 70) then Some (n - 55)
  else None.

(** The characters that are hexadecimal digits. *)
Definition hexChars : list ascii :=
  list_ascii_of_string "0123456789abcdefABCDEF".

Definition isHexDigit (c : ascii) : bool :=
  match hexDigit c with Some _ => true | None => false end.

(** White space skipped by [parseInt]: TAB, LF, VT, FF, CR, SP. *)
Definition isWhite (c : ascii) : bool :=
  let n := nat_of_ascii c in
  ((9 <=? n)%nat && (n <=? 13)%nat) || (n =? 32)%nat.

Fixpoint trimStart (s : string) : string :=
  match s with
  | String c r => if isWhite c then trimStart r else s
  | EmptyString => s
  end.

(** The value of the longest prefix of hexadecimal digits; [None] when it
    is empty. *)
Fixpoint digitsPrefix (s : string) (acc : option Z) : option Z :=
  match s with
  | String c r =>
      match hexDigit c with
      | Some d =>
          digitsPrefix r
            (Some (16 * (match acc with Some a => a | None => 0 end) + d))
      | None => acc
      end
  | EmptyString => acc
  end.

(** [parseInt(s, 16)]: leading white space, an optional sign, an optional
    [0x] or [0X], then the longest prefix of digits; [None] is [NaN]. *)
Definition parseInt16 (s : string) : option Z :=
  let s := trimStart s in
  let '(sign, s) :=
    match s with
    | String c r =>
        if (c =? "-")%char then (-1, r)
        else if (c =? "+")%char then (1, r) else (1, s)
    | EmptyString => (1, s)
    end in
  let s :=
    match s with
    | String c0 (String c1 r) =>
        if (c0 =? "0")%char && ((c1 =? "x")%char || (c1 =? "X")%char)
        then r else s
    | _ => s
    end in
  option_map (Z.mul sign) (digitsPrefix s None).

Record Rgb := mkRgb { red : option Z; green : option Z; blue : option Z }.

(** The [r], [g], [b] computed by [createGradient] ([main.ts], and the
    second, effective declaration in [main.js]) and put into its two
    colour stops.  With length 4 the indices 1..3 exist. *)
Definition rgbOf (hexColor : string) : Rgb :=
  let h (i : nat) := substring i 1 hexColor in
  if (String.length hexColor =? 4)%nat then
    mkRgb (parseInt16 (h 1%nat ++ h 1%nat)%string)
          (parseInt16 (h 2%nat ++ h 2%nat)%string)
          (parseInt16 (h 3%nat ++ h 3%nat)%string)
  else if (String.length hexColor =? 7)%nat then
    mkRgb (parseInt16 (substring 1 2 hexColor))
          (parseInt16 (substring 3 2 hexColor))
          (parseInt16 (substring 5 2 hexColor))
  else mkRgb (Some 0) (Some 0) (Some 0).

(** [/^#([A-Fa-f0-9]{3}){1,2}$/.test(hex)] *)
Definition isHexColor (hex : string) : bool :=
  match hex with
  | String c rest =>
      (c =? "#")%char
      && ((String.length rest =? 3)%nat || (String.length rest =? 6)%nat)
      && forallb isHexDigit (list_ascii_of_string rest)
  | EmptyString => false
  end.

(** The number denoted by ['0x' + digits]; [None] is [NaN]. *)
Fixpoint hexValue (cs : list ascii) (acc : Z) : option Z :=
  match cs with
  | [] => Some acc
  | c :: r =>
      match hexDigit c with
      | Some d => hexValue r (16 * acc + d)
      | None => None
      end
  end.

Definition ToNumber0x (cs : list ascii) : option Z :=
  match cs with
  | [] => None
  | _ => hexValue cs 0
  end.

(** [ToInt32], applied by [>>] and [&] to their operands. *)
Definition ToInt32 (v : option Z) : Z :=
  match v with
  | Some n => (n + 2 ^ 31) mod 2 ^ 32 - 2 ^ 31
  | None => 0
  end.

(** The result of [hexToRgba]: the text ['rgba(r,g,b,alpha)'], given by
    its four fields, or the argument itself. *)
Inductive Css :=
| Rgba (r g b : Z) (alpha : Q)
| Literal (s : string).

(** [hexToRgba] of [main.js]. *)
Definition hexToRgba (hex : string) (alpha : Q) : Css :=
  if isHexColor hex then
    let c := list_ascii_of_string
               (substring 1 (String.length hex - 1)%nat hex) in
    let c :=
      match c with
      | [c0; c1; c2] => [c0; c0; c1; c1; c2; c2]
      | _ => c
      end in
    let n := ToInt32 (ToNumber0x c) in
    Rgba (Z.land (Z.shiftr n 16) 255) (Z.land (Z.shiftr n 8) 255)
         (Z.land n 255) alpha
  else Literal hex.
End Colour.

(* ------------------------------------------------------------------ *)
(** * The confirmation dialog and the Start and Reset buttons ([main.ts]) *)

Module Dialog.

(** The closures handed to [showConfirmation]. *)
Inductive Action := StartProgram | StopProgram | ResetTwin.

(** Which elements of the dialog the page has. *)
Record Dom := mkDom
  { has_modal : bool; has_title : bool; has_message : bool }.

Definition fullDom : Dom := mkDom true true true.

Record Ui := mkUi
  { isRunning : bool;
    pendingAction : option Action;
    modalShown : bool;
    modalTitle : string;
    modalMessage : string;
    btnStartText : string;
    btnStartStopped : bool;
    log : list string }.

(** [showConfirmation] of [main.ts], guarded by
    [modal && modalTitle && modalMessage].  The two [main.js] guard with
    [modal] alone: they do the same when the title and the message
    element exist, and throw on the missing one otherwise. *)
Definition showConfirmation (dom : Dom) (title message : string)
    (action : Action) (u : Ui) : Ui :=
  if has_modal dom && has_title dom && has_message dom then
    mkUi (isRunning u) (Some action) true title message
         (btnStartText u) (btnStartStopped u) (log u)
  else u.

Definition closeConfirmation (dom : Dom) (u : Ui) : Ui :=
  if has_modal dom then
    mkUi (isRunning u) None false (modalTitle u) (modalMessage u)
         (btnStartText u) (btnStartStopped u) (log u)
  else u.

(** Running a pending closure. *)
Definition runAction (a : Action) (u : Ui) : Ui :=
  match a with
  | StartProgram =>
      mkUi true (pendingAction u) (modalShown u) (modalTitle u)
           (modalMessage u) "Stop Program" true
           (log u ++ ["Program Started"%string])
  | StopProgram =>
      mkUi false (pendingAction u) (modalShown u) (modalTitle u)
           (modalMessage u) "Start Program" false
           (log u ++ ["Program Stopped"%string])
  | ResetTwin =>
      mkUi (isRunning u) (pendingAction u) (modalShown u) (modalTitle u)
           (modalMessage u) (btnStartText u) (btnStartStopped u)
           (log u ++ ["Digital Twin Reset"%string])
  end.

Inductive Click := ClickStart | ClickReset | ClickCancel | ClickConfirm.

(** The four click listeners. *)
Definition click (dom : Dom) (u : Ui) (c : Click) : Ui :=
  match c with
  | ClickStart =>
      if isRunning u then
        showConfirmation dom "Stop Program"
          "Are you sure you want to stop the program?" StopProgram u
      else
        showConfirmation dom "Start Program"
          "Are you sure you want to start the program?" StartProgram u
  | ClickReset =>
      showConfirmation dom "Reset Digital Twin"
        "Are you sure you want to reset the Digital Twin? This will clear all current data."
        ResetTwin u
  | ClickCancel => closeConfirmation dom u
  | ClickConfirm =>
      let u :=
        match pendingAction u with
        | Some a => runAction a u
        | None => u
        end in
      closeConfirmation dom u
  end.

Definition clicks (dom : Dom) (cs : list Click) (u : Ui) : Ui :=
  fold_left (click dom) cs u.

(** The label and the style of the Start button say whether the program
    runs, and a pending start or stop is the opposite of the current
    state. *)
Definition consistent (u : Ui) : Prop :=
  btnStartStopped u = isRunning u
  /\ btnStartText u
     = (if isRunning u then "Stop Program" else "Start Program")%string
  /\ match pendingAction u with
     | Some StartProgram => isRunning u = false
     | Some StopProgram => isRunning u = true
     | _ => True
     end.
End Dialog.

(* ------------------------------------------------------------------ *)
(** * Runs of accepted ticks, and steps of a series *)

Module Runs.
Import Robot Chart Exc.
Local Open Scope Q_scope.

(** No external call throws. *)
Definition silent (f : Faults) : Prop := forall c, f c = None.

(** Every tick of the list finds the gate open, [last] being the stamp of
    the previous accepted tick, and none of its external calls throws. *)
Fixpoint accepted (last : Z) (envs : list TS.Env) : Prop :=
  match envs with
  | [] => True
  | env :: rest =>
      silent (TS.faults env)
      /\ (1000 <= TS.now_gate env - last)%Z
      /\ accepted (TS.now_stamp env) rest
  end.

(** No external call of any tick of the list throws. *)
Definition quiet (envs : list JsA.Env) : Prop :=
  Forall (fun env => silent (JsA.faults env)) envs.

(** The component of a sample that a single-line mode charts. *)
Definition component (m : Mode) (smp : Sample) : Q :=
  match m with
  | Power => simPower smp
  | Voltage => simVoltage smp
  | Current => simCurrent smp
  | Torque => 0
  end.

(** The bounds of a value range lie between two multiples of 0.01 that
    the band [lo]..[hi] contains. *)
Definition onGrid (lo hi : Q) (v : ValueRange) : Prop :=
  exists a b : Z,
    vr_min v <= vr_max v
    /\ lo <= inject_Z a / 100 /\ inject_Z a / 100 <= vr_min v
    /\ vr_max v <= inject_Z b / 100 /\ inject_Z b / 100 <= hi.

(** The aggregation buffer that holds the figures of the given samples,
    oldest first. *)
Definition bufferOf (smps : list Sample) : TS.DataBuffer :=
  TS.mkBuffer (map simPower smps) (map simVoltage smps)
              (map simCurrent smps).

(** Neighbouring values of a series differ by at most [b]. *)
Definition stepsWithin (b : Q) (l : list Q) : Prop :=
  forall i x y,
    nth_error l i = Some x -> nth_error l (S i) = Some y ->
    Qabs (y - x) <= b.
End Runs.

Module MoreExamples.
Import Robot Chart Exc.
Local Open Scope Q_scope.

Definition closedEnv : TS.Env := TS.mkEnv 0 500 500 Examples.calm noFaults.

(** Two ticks one second apart. *)
Definition twoTicks : list TS.Env :=
  [TS.mkEnv 0 1000 1000 Examples.calm noFaults;
   TS.mkEnv 4000 2000 2000 Examples.calm noFaults].

Definition stopped : Dialog.Ui :=
  Dialog.mkUi false None false EmptyString EmptyString "Start Program"
    false [].

Definition wheelDraws : Widgets.WheelDraws :=
  Widgets.mkWheelDraws 0.5 0.5 0.5 0.5.
Definition allWheels : Widgets.WheelDom :=
  Widgets.mkWheelDom true true true true.

(** Sixty ticks one second apart, the first at 1000 ms. *)
Definition minuteOfTicks : list TS.Env :=
  map (fun k =>
         let t := (1000 * Z.of_nat (S k))%Z in
         TS.mkEnv 0 t t Examples.calm noFaults)
      (seq 0 60).

(** A rounding to the nearest multiple of 2^-47, the spacing of the
    doubles between 32 and 64, halves upwards; and the largest draw,
    [1 - 2^-53]. *)
Definition toGrid (x : Q) : Q :=
  inject_Z (Qfloor (x * inject_Z (2 ^ 47) + 1 / 2)) / inject_Z (2 ^ 47).
Definition lastDraw : Q := 1 - 1 / inject_Z (2 ^ 53).

(** A sine stand-in of magnitude at most 1. *)
Definition unitSine : Q -> Q := fun _ => 1.
End MoreExamples.

(* ================================================================== *)
(** * Properties *)

Unset Implicit Arguments.
Import Chart Robot Exc.
Local Open Scope Q_scope.

(** Division by a numeric literal, put in the form [lra] understands. *)
Ltac qconst :=
  unfold Qdiv in *;
  repeat match goal with
  | |- context [Qinv (Qmake ?n ?d)] =>
      let v := eval cbv in (Qinv (Qmake n d)) in
      change (Qinv (Qmake n d)) with v
  | H : context [Qinv (Qmake ?n ?d)] |- _ =>
      let v := eval cbv in (Qinv (Qmake n d)) in
      change (Qinv (Qmake n d)) with v in H
  end.
Ltac qlra := qconst; lra.

(** Split a conjunction into its conjuncts, and nothing else. *)
Ltac splits := repeat match goal with |- _ /\ _ => split end.

(* ------------------------------------------------------------------ *)
(** * Rounding to two decimals *)

Lemma ltb_true_iff (x y : Q) : Js.ltb x y = true <-> x < y.
Proof.
  unfold Js.ltb. rewrite negb_true_iff. split; intros H.
  - apply Qnot_le_lt. intros Hle. apply Qle_bool_iff in Hle. congruence.
  - destruct (Qle_bool y x) eqn:E; [|reflexivity].
    apply Qle_bool_iff in E. lra.
Qed.

Lemma ltb_false_iff (x y : Q) : Js.ltb x y = false <-> y <= x.
Proof.
  unfold Js.ltb. rewrite negb_false_iff. apply Qle_bool_iff.
Qed.

(** The three shapes of a [toFixed2] result. *)
Lemma toFixed2_cases (x : Q) :
  Js.toFixed2 x = x
  \/ (0 <= x /\ Js.toFixed2 x = inject_Z (Qfloor (x * 100 + 1 / 2)) / 100)
  \/ (x < 0 /\ Js.toFixed2 x = - (inject_Z (Qfloor (- x * 100 + 1 / 2)) / 100)).
Proof.
  unfold Js.toFixed2.
  destruct (Qle_bool (inject_Z (10 ^ 21)) (Qabs x)); [now left | right].
  destruct (Js.ltb x 0) eqn:E.
  - right. apply ltb_true_iff in E. split; [exact E|].
    assert (Hq : Qabs x * 100 + 1 / 2 == - x * 100 + 1 / 2)
      by (rewrite Qabs_neg by lra; reflexivity).
    now rewrite (Qfloor_comp _ _ Hq).
  - left. apply ltb_false_iff in E. split; [exact E|].
    assert (Hq : Qabs x * 100 + 1 / 2 == x * 100 + 1 / 2)
      by (rewrite Qabs_pos by lra; reflexivity).
    now rewrite (Qfloor_comp _ _ Hq).
Qed.

Lemma floor_bounds (y : Q) :
  inject_Z (Qfloor y) <= y /\ y < inject_Z (Qfloor y) + 1.
Proof.
  split; [apply Qfloor_le|].
  pose proof (Qlt_floor y) as H. rewrite inject_Z_plus in H. exact H.
Qed.

(** Rounding moves a value by at most half a hundredth. *)
Lemma toFixed2_close (x : Q) :
  x - 1 / 200 <= Js.toFixed2 x <= x + 1 / 200.
Proof.
  destruct (toFixed2_cases x) as [E | [[Hx E] | [Hx E]]]; rewrite E.
  - qlra.
  - destruct (floor_bounds (x * 100 + 1 / 2)). qlra.
  - destruct (floor_bounds (- x * 100 + 1 / 2)). qlra.
Qed.

Lemma floor_le_int (y : Q) (m : Z) :
  y < inject_Z m + 1 -> (Qfloor y <= m)%Z.
Proof.
  intros H. destruct (floor_bounds y) as [Hl _].
  assert (Hlt : inject_Z (Qfloor y) < inject_Z (m + 1))
    by (rewrite inject_Z_plus; change (inject_Z 1) with 1; lra).
  rewrite <- Zlt_Qlt in Hlt. lia.
Qed.

Lemma floor_ge_int (y : Q) (m : Z) :
  inject_Z m <= y -> (m <= Qfloor y)%Z.
Proof.
  intros H. destruct (floor_bounds y) as [_ Hu].
  assert (Hlt : inject_Z m < inject_Z (Qfloor y + 1))
    by (rewrite inject_Z_plus; change (inject_Z 1) with 1; lra).
  rewrite <- Zlt_Qlt in Hlt. lia.
Qed.

(** Rounding does not cross a multiple of 0.01. *)
Lemma toFixed2_le_grid (x : Q) (m : Z) :
  x <= inject_Z m / 100 -> Js.toFixed2 x <= inject_Z m / 100.
Proof.
  intros H.
  destruct (toFixed2_cases x) as [E | [[Hx E] | [Hx E]]]; rewrite E.
  - exact H.
  - assert (Hz : (Qfloor (x * 100 + 1 / 2) <= m)%Z)
      by (apply floor_le_int; qlra).
    rewrite Zle_Qle in Hz. qlra.
  - assert (Hz : (- m <= Qfloor (- x * 100 + 1 / 2))%Z)
      by (apply floor_ge_int; rewrite inject_Z_opp; qlra).
    rewrite Zle_Qle, inject_Z_opp in Hz. qlra.
Qed.

Lemma toFixed2_ge_grid (x : Q) (m : Z) :
  inject_Z m / 100 <= x -> inject_Z m / 100 <= Js.toFixed2 x.
Proof.
  intros H.
  destruct (toFixed2_cases x) as [E | [[Hx E] | [Hx E]]]; rewrite E.
  - exact H.
  - assert (Hz : (m <= Qfloor (x * 100 + 1 / 2))%Z)
      by (apply floor_ge_int; qlra).
    rewrite Zle_Qle in Hz. qlra.
  - assert (Hz : (Qfloor (- x * 100 + 1 / 2) <= - m)%Z)
      by (apply floor_le_int; rewrite inject_Z_opp; qlra).
    rewrite Zle_Qle, inject_Z_opp in Hz. qlra.
Qed.

(* ------------------------------------------------------------------ *)
(** * The dense-series generator *)


Lemma walkStep_clamped (min max val r1 r2 : Q) :
  min <= max -> min <= walkStep min max val r1 r2 <= max.
Proof.
  intros H. unfold walkStep, Js.Math_max, Js.Math_min. split.
  - apply Q.le_max_l.
  - apply Q.max_lub; [exact H | apply Q.le_min_l].
Qed.

Lemma walk_length (n : nat) (min max val : Q) (g : Rng.t) :
  List.length (fst (walk n min max val g)) = n.
Proof.
  revert val g. induction n as [|n IH]; intros val g; simpl; [reflexivity|].
  destruct (walk n min max _ _) as [rest g'] eqn:E.
  simpl. f_equal. specialize (IH (walkStep min max val (Rng.tape g (Rng.pos g))
    (Rng.tape g (S (Rng.pos g)))) (Rng.mk (Rng.tape g) (S (S (Rng.pos g))))).
  simpl in E. rewrite E in IH. exact IH.
Qed.

(** Every recorded value is the two-decimal rounding of a clamped one. *)
Lemma walk_rounded_clamped (n : nat) (min max val : Q) (g : Rng.t) :
  min <= max ->
  Forall (fun v => exists x, (min <= x <= max) /\ v = Js.toFixed2 x)
         (fst (walk n min max val g)).
Proof.
  intros H. revert val g.
  induction n as [|n IH]; intros val g; simpl; [constructor|].
  set (val' := walkStep min max val _ _).
  set (g2 := Rng.mk _ _).
  specialize (IH val' g2).
  destruct (walk n min max val' g2) as [rest g'].
  simpl in *. constructor; [|exact IH].
  exists val'. split; [apply walkStep_clamped; exact H | reflexivity].
Qed.


(** C8 (as amended).  For a point count [n >= 0] and bounds [min <= max] the
    generator returns exactly [n] values; each is the two-decimal rounding
    of a value clamped to [[min, max]], hence within 0.005 of that interval,
    and inside the interval when [min] and [max] are multiples of 0.01. *)
Theorem generateDenseData_count_and_bounds
    (points : Z) (min max : Q) (initialValue : option Q) (g : Rng.t) :
  (0 <= points)%Z -> min <= max ->
  let data := fst (generateDenseData points min max initialValue g) in
  Z.of_nat (List.length data) = points
  /\ Forall (fun v => exists x, (min <= x <= max) /\ v = Js.toFixed2 x) data
  /\ Forall (fun v => min - 1 / 200 <= v <= max + 1 / 200) data
  /\ (Js.twoDecimals min -> Js.twoDecimals max ->
      Forall (fun v => min <= v <= max) data).
Proof.
  intros Hp Hmm data. subst data. unfold generateDenseData.
  pose proof (walk_rounded_clamped (Z.to_nat points) min max
                (startValue min max initialValue) g Hmm) as HF.
  repeat split.
  - rewrite walk_length. apply Z2Nat.id. exact Hp.
  - exact HF.
  - eapply Forall_impl; [|exact HF]. cbv beta.
    intros v [x [[Hl Hu] ->]].
    pose proof (toFixed2_close x) as [Hc1 Hc2]. qlra.
  - intros [a Ha] [b Hb]. eapply Forall_impl; [|exact HF]. cbv beta.
    intros v [x [[Hl Hu] ->]]. split.
    + rewrite Ha. apply toFixed2_ge_grid. rewrite <- Ha. exact Hl.
    + rewrite Hb. apply toFixed2_le_grid. rewrite <- Hb. exact Hu.
Qed.

Lemma generateDenseData_count_and_bounds_witness :
  (0 <= 2)%Z /\ 0.1 <= 0.2 /\
  let data :=
    fst (generateDenseData 2 0.1 0.2 (Some 0.13) Examples.steady) in
  Z.of_nat (List.length data) = 2%Z
  /\ Forall (fun v => exists x, (0.1 <= x <= 0.2) /\ v = Js.toFixed2 x) data
  /\ Forall (fun v => 0.1 - 1 / 200 <= v <= 0.2 + 1 / 200) data
  /\ (Js.twoDecimals 0.1 -> Js.twoDecimals 0.2 ->
      Forall (fun v => 0.1 <= v <= 0.2) data).
Proof.
  assert (H1 : (0 <= 2)%Z) by lia.
  assert (H2 : 0.1 <= 0.2) by lra.
  split; [exact H1 | split; [exact H2 |]].
  exact (generateDenseData_count_and_bounds 2 0.1 0.2 (Some 0.13)
           Examples.steady H1 H2).
Defined.

(** C8 as stated fails: with bounds that are not multiples of 0.01 the
    recorded value is rounded out of the interval. *)
Lemma generateDenseData_rounds_out_of_bounds :
  0.001 <= 0.004 /\
  exists v,
    In v (fst (generateDenseData 1 0.001 0.004 (Some 0.002) Examples.steady))
    /\ ~ (0.001 <= v <= 0.004).
Proof.
  split; [lra|].
  eexists. split; [left; reflexivity|].
  vm_compute. intros [H _]. apply H. reflexivity.
Qed.

(** C10.  A falsy initial value (0, or a missing or not-a-number one) is
    replaced by the midpoint of the range: the walk starts from
    [(min + max) / 2]. *)
Theorem generateDenseData_falsy_initial_value
    (points : Z) (min max : Q) (initialValue : option Q) (g : Rng.t) :
  Js.truthy initialValue = false ->
  startValue min max initialValue = (min + max) / 2
  /\ generateDenseData points min max initialValue g
     = walk (Z.to_nat points) min max ((min + max) / 2) g.
Proof.
  intros H. assert (E : startValue min max initialValue = (min + max) / 2).
  { unfold startValue, Js.or_else. destruct initialValue as [q|]; [|reflexivity].
    rewrite H. reflexivity. }
  split; [exact E|]. unfold generateDenseData. rewrite E. reflexivity.
Qed.

Lemma generateDenseData_falsy_initial_value_witness :
  Js.truthy (Some 0) = false
  /\ startValue 240 290 (Some 0) = (240 + 290) / 2
  /\ generateDenseData 60 240 290 (Some 0) Examples.steady
     = walk (Z.to_nat 60) 240 290 ((240 + 290) / 2) Examples.steady.
Proof.
  assert (H : Js.truthy (Some 0) = false) by reflexivity.
  split; [exact H|].
  exact (generateDenseData_falsy_initial_value 60 240 290 (Some 0)
           Examples.steady H).
Defined.

(* ------------------------------------------------------------------ *)
(** * Kinematics *)


Lemma Math_max5_bounds (a b c d e : Q) :
  let M := Math_max5 a b c d e in
  a <= M /\ b <= M /\ c <= M /\ d <= M /\ e <= M.
Proof.
  cbv zeta. unfold Math_max5, Js.Math_max.
  pose proof (Q.le_max_l a b). pose proof (Q.le_max_r a b).
  pose proof (Q.le_max_l (Qmax a b) c). pose proof (Q.le_max_r (Qmax a b) c).
  pose proof (Q.le_max_l (Qmax (Qmax a b) c) d).
  pose proof (Q.le_max_r (Qmax (Qmax a b) c) d).
  pose proof (Q.le_max_l (Qmax (Qmax (Qmax a b) c) d) e).
  pose proof (Q.le_max_r (Qmax (Qmax (Qmax a b) c) d) e).
  repeat split; lra.
Qed.

(** Dividing by a positive bound of the magnitude lands in [[-1, 1]]. *)
Lemma normalized_le_1 (x m : Q) :
  Qabs x <= m -> 0 < m -> Qabs (x / m) <= 1.
Proof.
  intros Hx Hm. apply Qabs_Qle_condition in Hx. destruct Hx as [Hl Hu].
  apply Qabs_Qle_condition. split.
  - apply Qle_shift_div_l; [exact Hm | lra].
  - apply Qle_shift_div_r; [exact Hm | lra].
Qed.

Lemma normalized_by_max5 (a b c d e : Q) :
  0 < e ->
  let M := Math_max5 (Qabs a) (Qabs b) (Qabs c) (Qabs d) e in
  Qabs (a / M) <= 1 /\ Qabs (b / M) <= 1 /\
  Qabs (c / M) <= 1 /\ Qabs (d / M) <= 1.
Proof.
  intros He M.
  destruct (Math_max5_bounds (Qabs a) (Qabs b) (Qabs c) (Qabs d) e)
    as (Ha & Hb & Hc & Hd & Hfloor).
  fold M in Ha, Hb, Hc, Hd, Hfloor.
  assert (HM : 0 < M) by lra.
  repeat split; apply normalized_le_1; assumption.
Qed.

(** C4.  In each variant the four normalised wheel outputs have magnitude
    at most 1, whatever the motion command. *)
Theorem wheels_within_unit (m : Motion) :
  unitWheels (TS.wheels m) /\ unitWheels (JsA.wheels m)
  /\ unitWheels (JsB.wheels m).
Proof.
  unfold unitWheels. split; [|split].
  - unfold TS.wheels, TS.maxVel, Js.Math_abs. cbv zeta. cbn [fl fr rl rr].
    destruct (normalized_by_max5 (TS.w1_FR m) (TS.w2_FL m) (TS.w3_RL m)
                (TS.w4_RR m) 10.0) as (H1 & H2 & H3 & H4); [lra|].
    repeat split; assumption.
  - unfold JsA.wheels, JsA.maxM, Js.Math_abs. cbv zeta. cbn [fl fr rl rr].
    destruct (normalized_by_max5 (fl (JsA.mix m)) (fr (JsA.mix m))
                (rl (JsA.mix m)) (rr (JsA.mix m)) 1.0)
      as (H1 & H2 & H3 & H4); [lra|].
    repeat split; assumption.
  - unfold JsB.wheels, JsB.maxVal, Js.Math_abs. cbv zeta. cbn [fl fr rl rr].
    destruct (normalized_by_max5 (fl (JsB.mix m)) (fr (JsB.mix m))
                (rl (JsB.mix m)) (rr (JsB.mix m)) 1.0)
      as (H1 & H2 & H3 & H4); [lra|].
    repeat split; assumption.
Qed.

(* ------------------------------------------------------------------ *)
(** * The motion cycle *)

Lemma cycleIndex_as_floor (now : Z) :
  Sim.cycleIndex now
  = Z.rem (Qfloor (inject_Z now / inject_Z Sim.cycleDuration)) Sim.stateCount.
Proof. unfold Sim.cycleIndex. now rewrite Zdiv_Qdiv. Qed.

Lemma cycleIndex_nonneg (now : Z) :
  (0 <= now)%Z ->
  Sim.cycleIndex now = ((now / Sim.cycleDuration) mod Sim.stateCount)%Z
  /\ (0 <= Sim.cycleIndex now < Sim.stateCount)%Z.
Proof.
  intros H. unfold Sim.cycleIndex, Sim.cycleDuration, Sim.stateCount.
  assert (Hq : (0 <= now / 4000)%Z) by (apply Z.div_pos; lia).
  rewrite Z.rem_mod_nonneg by lia.
  split; [reflexivity | apply Z.mod_pos_bound; lia].
Qed.

Lemma JsB_cycleIndex_nonneg (now : Z) :
  (0 <= now)%Z ->
  JsB.cycleIndex now = ((now / JsB.cycleDuration) mod JsB.stateCount)%Z
  /\ (0 <= JsB.cycleIndex now < JsB.stateCount)%Z.
Proof.
  intros H. unfold JsB.cycleIndex, JsB.cycleDuration, JsB.stateCount.
  assert (Hq : (0 <= now / 3000)%Z) by (apply Z.div_pos; lia).
  rewrite Z.rem_mod_nonneg by lia.
  split; [reflexivity | apply Z.mod_pos_bound; lia].
Qed.

(** The rows of the [switch] of [main.ts] and of the first [main.js]. *)
Lemma setpoint_rows (Math_sin : Q -> Q) (now : Z) :
  (Sim.cycleIndex now = 0%Z -> Sim.setpoint Math_sin now = mkMotion 0 0 0)
  /\ (Sim.cycleIndex now = 1%Z -> Sim.setpoint Math_sin now = mkMotion 0.8 0 0)
  /\ (Sim.cycleIndex now = 2%Z ->
      Sim.setpoint Math_sin now = mkMotion (-0.5) 0 0)
  /\ (Sim.cycleIndex now = 3%Z ->
      Sim.setpoint Math_sin now = mkMotion 0 (-0.7) 0)
  /\ (Sim.cycleIndex now = 4%Z ->
      Sim.setpoint Math_sin now
      = mkMotion 0 0 (Math_sin (inject_Z now / 500) * 0.8)).
Proof.
  unfold Sim.setpoint. repeat split; intros ->; reflexivity.
Qed.

(** The rows of the [switch] of the second [main.js]. *)
Lemma JsB_setpoint_rows (now : Z) :
  (JsB.cycleIndex now = 0%Z -> JsB.setpoint now = mkMotion 0 0 0)
  /\ (JsB.cycleIndex now = 1%Z -> JsB.setpoint now = mkMotion 0.8 0 0)
  /\ (JsB.cycleIndex now = 2%Z -> JsB.setpoint now = mkMotion (-0.6) 0 0)
  /\ (JsB.cycleIndex now = 3%Z -> JsB.setpoint now = mkMotion 0 (-0.8) 0)
  /\ (JsB.cycleIndex now = 4%Z -> JsB.setpoint now = mkMotion 0 0.8 0)
  /\ (JsB.cycleIndex now = 5%Z ->
      JsB.setpoint now
      = if (Z.rem now 3000 <? 1500)%Z
        then mkMotion 0 0 0.9 else mkMotion 0 0 (-0.9)).
Proof.
  unfold JsB.setpoint. repeat split; intros ->; reflexivity.
Qed.

(** Whatever the state, the setpoint has one of four shapes. *)
Lemma setpoint_shapes (Math_sin : Q -> Q) (now : Z) :
  let sp := Sim.setpoint Math_sin now in
  (exists t, sp = mkMotion 0 0 t) \/ sp = mkMotion 0.8 0 0
  \/ sp = mkMotion (-0.5) 0 0 \/ sp = mkMotion 0 (-0.7) 0.
Proof.
  cbv zeta. unfold Sim.setpoint.
  destruct (Sim.cycleIndex now) as [|p|p]; [left; eexists; reflexivity | |
    left; eexists; reflexivity].
  repeat (destruct p as [p|p|];
          try (left; eexists; reflexivity);
          try (right; left; reflexivity);
          try (right; right; left; reflexivity);
          try (right; right; right; reflexivity)).
Qed.

Lemma noise_small (r s : Q) :
  Rng.valid_draw r -> 0 <= s -> Qabs ((r - 0.5) * s) <= 0.5 * s.
Proof.
  intros [H0 H1] Hs. apply Qabs_Qle_condition. split; nra.
Qed.


Lemma calm_valid : validDraws Examples.calm.
Proof. unfold validDraws, Rng.valid_draw, Examples.calm. simpl. lra. Qed.

Lemma abs_le (x b : Q) : - b <= x -> x <= b -> Qabs x <= b.
Proof. intros. apply Qabs_Qle_condition. split; assumption. Qed.

(** The load term of the voltage, over all states and draws. *)
Lemma load_bounds (Math_sin : Q -> Q) (now : Z) (d : Draws) :
  validDraws d ->
  let m := Sim.motion Math_sin now d in
  0 <= Qabs (drive m) + Qabs (strafe m) <= 0.85.
Proof.
  intros (Hd & Hs & _) m. subst m. unfold Rng.valid_draw in *.
  unfold Sim.motion, Sim.addNoise.
  pose proof (Qabs_nonneg
    (drive (Sim.setpoint Math_sin now) + (rnd_drive d - 0.5) * 0.05)).
  pose proof (Qabs_nonneg
    (strafe (Sim.setpoint Math_sin now) + (rnd_strafe d - 0.5) * 0.05)).
  split; [cbn [drive strafe turn]; lra|].
  destruct (setpoint_shapes Math_sin now) as [[t E] | [E | [E | E]]];
    rewrite E; cbn [drive strafe turn].
  - assert (Qabs (0 + (rnd_drive d - 0.5) * 0.05) <= 0.025)
      by (apply abs_le; lra).
    assert (Qabs (0 + (rnd_strafe d - 0.5) * 0.05) <= 0.025)
      by (apply abs_le; lra).
    lra.
  - assert (Qabs (0.8 + (rnd_drive d - 0.5) * 0.05) <= 0.825)
      by (apply abs_le; lra).
    assert (Qabs (0 + (rnd_strafe d - 0.5) * 0.05) <= 0.025)
      by (apply abs_le; lra).
    lra.
  - assert (Qabs (-0.5 + (rnd_drive d - 0.5) * 0.05) <= 0.525)
      by (apply abs_le; lra).
    assert (Qabs (0 + (rnd_strafe d - 0.5) * 0.05) <= 0.025)
      by (apply abs_le; lra).
    lra.
  - assert (Qabs (0 + (rnd_drive d - 0.5) * 0.05) <= 0.025)
      by (apply abs_le; lra).
    assert (Qabs (-0.7 + (rnd_strafe d - 0.5) * 0.05) <= 0.725)
      by (apply abs_le; lra).
    lra.
Qed.

Lemma createModeData_band (min max : Q) (a b c : ValueRange) (g : Rng.t) :
  s_min (fst (createModeData min max a b c g)) = min
  /\ s_max (fst (createModeData min max a b c g)) = max.
Proof.
  unfold createModeData.
  destruct (generateDenseData 60 (vr_min a) _ _ _) as [sec g1].
  destruct (generateDenseData 60 (vr_min b) _ _ _) as [mi g2].
  destruct (generateDenseData 25 (vr_min c) _ _ _) as [ho g3].
  split; reflexivity.
Qed.

(** The chart band of the voltage mode is 20 .. 24. *)
Lemma voltage_band (g : Rng.t) :
  s_min (voltage (fst (initialChartData g))) = 20
  /\ s_max (voltage (fst (initialChartData g))) = 24.
Proof.
  unfold initialChartData.
  destruct (createModeData 0 400 _ _ _ g) as [p g1].
  pose proof (createModeData_band 20 24 (mkVR 21.5 22.5 22.0)
                (mkVR 21.8 22.4 22.1) (mkVR 21.0 23.0 21.5) g1) as Hb.
  destruct (createModeData 20 24 _ _ _ g1) as [v g2].
  destruct (createModeData 10 15 _ _ _ g2) as [c g3].
  destruct (torqueDatasets 60 _ _ _ _ g3) as [t1 g4].
  destruct (torqueDatasets 60 _ _ _ _ g4) as [t2 g5].
  destruct (torqueDatasets 25 _ _ _ _ g5) as [t3 g6].
  exact Hb.
Qed.

(** C6 (as amended).  The simulated voltage is the base voltage 24.8 minus
    1.5 times the load [|drive| + |strafe|] plus a noise term of magnitude
    at most 0.05; it lies between 23.475 and 24.85, so never below the
    minimum 20 of the chart band of the voltage mode; the maximum 24 of that
    band does not bound it. *)
Theorem voltage_formula_and_range
    (Math_sin : Q -> Q) (now : Z) (d : Draws) (g : Rng.t) :
  validDraws d ->
  let m := Sim.motion Math_sin now d in
  let v := simVoltage (Sim.sample m d) in
  v == Sim.baseVoltage - 1.5 * (Qabs (drive m) + Qabs (strafe m))
       + Sim.voltageNoise d
  /\ Sim.baseVoltage == 24.8
  /\ Qabs (Sim.voltageNoise d) <= 0.05
  /\ 23.475 <= v <= 24.85
  /\ s_min (voltage (fst (initialChartData g))) <= v.
Proof.
  intros Hd m v.
  pose proof (load_bounds Math_sin now d Hd) as Hload. cbv zeta in Hload.
  fold m in Hload.
  assert (Hn : Qabs (Sim.voltageNoise d) <= 0.05).
  { destruct Hd as (_ & _ & _ & Hv & _). unfold Sim.voltageNoise.
    pose proof (noise_small (rnd_voltage d) 0.1 Hv). lra. }
  assert (Hv : v == Sim.baseVoltage
                    - 1.5 * (Qabs (drive m) + Qabs (strafe m))
                    + Sim.voltageNoise d).
  { subst v. unfold Sim.sample, Sim.voltageOf, Sim.voltageLoad, Js.Math_abs.
    simpl. ring. }
  assert (Hr : 23.475 <= v <= 24.85).
  { apply Qabs_Qle_condition in Hn. rewrite Hv. unfold Sim.baseVoltage. lra. }
  repeat split; try assumption; try reflexivity; try tauto.
  destruct (voltage_band g) as [-> _]. lra.
Qed.

Lemma voltage_formula_and_range_witness :
  validDraws Examples.calm /\
  let m := Sim.motion Examples.flat 4000 Examples.calm in
  let v := simVoltage (Sim.sample m Examples.calm) in
  v == Sim.baseVoltage - 1.5 * (Qabs (drive m) + Qabs (strafe m))
       + Sim.voltageNoise Examples.calm
  /\ Sim.baseVoltage == 24.8
  /\ Qabs (Sim.voltageNoise Examples.calm) <= 0.05
  /\ 23.475 <= v <= 24.85
  /\ s_min (voltage (fst (initialChartData Examples.steady))) <= v.
Proof.
  split; [exact calm_valid|].
  exact (voltage_formula_and_range Examples.flat 4000 Examples.calm
           Examples.steady calm_valid).
Defined.

(** C6 as stated fails: in the idle state the voltage is 24.8, above the
    maximum of the chart band. *)
Lemma idle_voltage_above_chart_band :
  validDraws Examples.calm /\
  Sim.cycleIndex 0 = 0%Z /\
  let v := simVoltage (Sim.sample (Sim.motion Examples.flat 0 Examples.calm)
                                  Examples.calm) in
  v == 24.8
  /\ ~ (s_min (voltage (fst (initialChartData Examples.steady))) <= v
        <= s_max (voltage (fst (initialChartData Examples.steady)))).
Proof.
  split; [exact calm_valid|]. split; [reflexivity|].
  cbv zeta. split; [reflexivity|].
  destruct (voltage_band Examples.steady) as [-> ->].
  intros [_ H]. vm_compute in H. apply H. reflexivity.
Qed.

(** C3 (as amended).  The setpoint before noise is a function of the
    timestamp alone.  For a timestamp [now >= 0] the cycle index is
    [floor (now / cycleDuration) mod stateCount] and the setpoint is the row
    of that index.  In [main.ts] and the first [main.js] (4000 ms, five
    states) the last row turns by [0.8 * sin (now / 500)]; in the second
    [main.js] (3000 ms, six states) the last row turns by 0.9 during the
    first half of the state and by -0.9 during the second half, no sine
    being involved. *)
Theorem setpoint_function_of_timestamp (Math_sin : Q -> Q) (now : Z) :
  (0 <= now)%Z ->
  (Sim.cycleIndex now
   = (Qfloor (inject_Z now / inject_Z Sim.cycleDuration) mod Sim.stateCount)%Z
   /\ (0 <= Sim.cycleIndex now < 5)%Z
   /\ (Sim.cycleIndex now = 0%Z -> Sim.setpoint Math_sin now = mkMotion 0 0 0)
   /\ (Sim.cycleIndex now = 1%Z ->
       Sim.setpoint Math_sin now = mkMotion 0.8 0 0)
   /\ (Sim.cycleIndex now = 2%Z ->
       Sim.setpoint Math_sin now = mkMotion (-0.5) 0 0)
   /\ (Sim.cycleIndex now = 3%Z ->
       Sim.setpoint Math_sin now = mkMotion 0 (-0.7) 0)
   /\ (Sim.cycleIndex now = 4%Z ->
       Sim.setpoint Math_sin now
       = mkMotion 0 0 (Math_sin (inject_Z now / 500) * 0.8))
   /\ (forall now' : Z, now' = now ->
       Sim.setpoint Math_sin now' = Sim.setpoint Math_sin now))
  /\
  (JsB.cycleIndex now
   = (Qfloor (inject_Z now / inject_Z JsB.cycleDuration) mod JsB.stateCount)%Z
   /\ (0 <= JsB.cycleIndex now < 6)%Z
   /\ (JsB.cycleIndex now = 0%Z -> JsB.setpoint now = mkMotion 0 0 0)
   /\ (JsB.cycleIndex now = 1%Z -> JsB.setpoint now = mkMotion 0.8 0 0)
   /\ (JsB.cycleIndex now = 2%Z -> JsB.setpoint now = mkMotion (-0.6) 0 0)
   /\ (JsB.cycleIndex now = 3%Z -> JsB.setpoint now = mkMotion 0 (-0.8) 0)
   /\ (JsB.cycleIndex now = 4%Z -> JsB.setpoint now = mkMotion 0 0.8 0)
   /\ (JsB.cycleIndex now = 5%Z ->
       JsB.setpoint now
       = if (now mod 3000 <? 1500)%Z
         then mkMotion 0 0 0.9 else mkMotion 0 0 (-0.9))
   /\ (forall now' : Z, now' = now -> JsB.setpoint now' = JsB.setpoint now)).
Proof.
  intros H. split.
  - destruct (cycleIndex_nonneg now H) as [Hm Hr].
    destruct (setpoint_rows Math_sin now) as (R0 & R1 & R2 & R3 & R4).
    split; [rewrite Hm; now rewrite Zdiv_Qdiv|].
    split; [exact Hr|].
    repeat split; try assumption. intros now' ->. reflexivity.
  - destruct (JsB_cycleIndex_nonneg now H) as [Hm Hr].
    destruct (JsB_setpoint_rows now) as (R0 & R1 & R2 & R3 & R4 & R5).
    split; [rewrite Hm; now rewrite Zdiv_Qdiv|].
    split; [exact Hr|].
    repeat split; try assumption.
    + intros E. rewrite (R5 E). rewrite Z.rem_mod_nonneg by lia. reflexivity.
    + intros now' ->. reflexivity.
Qed.

Lemma setpoint_function_of_timestamp_witness :
  (0 <= 17000)%Z
  /\ Sim.cycleIndex 17000 = 4%Z
  /\ Sim.setpoint Examples.flat 17000
     = mkMotion 0 0 (Examples.flat (inject_Z 17000 / 500) * 0.8)
  /\ JsB.cycleIndex 17000 = 5%Z
  /\ JsB.setpoint 17000 = mkMotion 0 0 (-0.9).
Proof.
  assert (H : (0 <= 17000)%Z) by lia.
  destruct (setpoint_function_of_timestamp Examples.flat 17000 H)
    as [(_ & _ & _ & _ & _ & _ & R4 & _) (_ & _ & _ & _ & _ & _ & _ & R5 & _)].
  split; [exact H|]. split; [reflexivity|]. split; [apply R4; reflexivity|].
  split; [reflexivity|]. rewrite R5; reflexivity.
Defined.

(** C3 as stated fails on the second [main.js]: its last state turns by a
    constant 0.9, which no sine scaled by 0.8 can yield. *)
Lemma JsB_rotation_is_not_a_sine :
  JsB.cycleIndex 15000 = 5%Z
  /\ JsB.setpoint 15000 = mkMotion 0 0 0.9
  /\ JsB.setpoint 15700 = mkMotion 0 0 0.9
  /\ ~ (exists s : Q -> Q,
          (forall x, Qabs (s x) <= 1)
          /\ turn (JsB.setpoint 15000) == s (inject_Z 15000 / 500) * 0.8).
Proof.
  split; [reflexivity|]. split; [reflexivity|]. split; [reflexivity|].
  intros [s [Hb He]]. specialize (Hb (inject_Z 15000 / 500)).
  apply Qabs_Qle_condition in Hb.
  change (turn (JsB.setpoint 15000)) with 0.9 in He. lra.
Qed.

(** C5 (as amended).  At the timestamp [k * cycleDuration] the cycle index
    is [k mod stateCount]; when [k] is a multiple of the state count the
    state is IDLE and the emitted drive, strafe and turn are within 0.05
    of 0.  Both for [main.ts] and the first [main.js] (4000 ms, five
    states) and for the second [main.js] (3000 ms, six states). *)
Theorem cycle_boundary_state (Math_sin : Q -> Q) (k : nat) (d : Draws) :
  validDraws d ->
  (Sim.cycleIndex (Z.of_nat k * Sim.cycleDuration) = (Z.of_nat k mod 5)%Z
   /\ ((Z.of_nat k mod 5 = 0)%Z ->
       Sim.setpoint Math_sin (Z.of_nat k * Sim.cycleDuration) = mkMotion 0 0 0
       /\ withinOfZero 0.05
            (Sim.motion Math_sin (Z.of_nat k * Sim.cycleDuration) d)))
  /\
  (JsB.cycleIndex (Z.of_nat k * JsB.cycleDuration) = (Z.of_nat k mod 6)%Z
   /\ ((Z.of_nat k mod 6 = 0)%Z ->
       JsB.setpoint (Z.of_nat k * JsB.cycleDuration) = mkMotion 0 0 0
       /\ withinOfZero 0.05
            (JsB.motion (Z.of_nat k * JsB.cycleDuration) d))).
Proof.
  intros (Hd & Hs & Ht & _). unfold Rng.valid_draw in *.
  assert (EA : Sim.cycleIndex (Z.of_nat k * Sim.cycleDuration)
               = (Z.of_nat k mod 5)%Z).
  { unfold Sim.cycleIndex, Sim.stateCount.
    rewrite Z.div_mul by (unfold Sim.cycleDuration; lia).
    apply Z.rem_mod_nonneg; lia. }
  assert (EB : JsB.cycleIndex (Z.of_nat k * JsB.cycleDuration)
               = (Z.of_nat k mod 6)%Z).
  { unfold JsB.cycleIndex, JsB.stateCount.
    rewrite Z.div_mul by (unfold JsB.cycleDuration; lia).
    apply Z.rem_mod_nonneg; lia. }
  split; (split; [assumption|]); intros E.
  - assert (ES : Sim.setpoint Math_sin (Z.of_nat k * Sim.cycleDuration)
                 = mkMotion 0 0 0)
      by (unfold Sim.setpoint; rewrite EA, E; reflexivity).
    split; [exact ES|].
    unfold withinOfZero, Sim.motion, Sim.addNoise. rewrite ES.
    cbn [drive strafe turn]. repeat split; apply abs_le; lra.
  - assert (ES : JsB.setpoint (Z.of_nat k * JsB.cycleDuration)
                 = mkMotion 0 0 0)
      by (unfold JsB.setpoint; rewrite EB, E; reflexivity).
    split; [exact ES|].
    unfold withinOfZero, JsB.motion, JsB.addNoise. rewrite ES.
    cbn [drive strafe turn]. repeat split; apply abs_le; lra.
Qed.

Lemma cycle_boundary_state_witness :
  validDraws Examples.calm
  /\ Sim.cycleIndex (Z.of_nat 5 * Sim.cycleDuration) = (Z.of_nat 5 mod 5)%Z
  /\ withinOfZero 0.05
       (Sim.motion Examples.flat (Z.of_nat 5 * Sim.cycleDuration)
                   Examples.calm).
Proof.
  destruct (cycle_boundary_state Examples.flat 5 Examples.calm calm_valid)
    as [[E H] _].
  split; [exact calm_valid|]. split; [exact E|].
  apply H. reflexivity.
Defined.

(** C5 as stated fails: at [1 * cycleDuration] the index is 1, the FORWARD
    state, and the emitted drive is 0.8. *)
Lemma cycle_boundary_not_always_idle :
  Sim.cycleIndex (Z.of_nat 1 * Sim.cycleDuration) = 1%Z
  /\ validDraws Examples.calm
  /\ drive (Sim.motion Examples.flat (Z.of_nat 1 * Sim.cycleDuration)
                       Examples.calm) == 0.8
  /\ ~ withinOfZero 0.05
         (Sim.motion Examples.flat (Z.of_nat 1 * Sim.cycleDuration)
                     Examples.calm).
Proof.
  split; [reflexivity|]. split; [exact calm_valid|]. split; [reflexivity|].
  intros [H _]. vm_compute in H. apply H. reflexivity.
Qed.

(* ------------------------------------------------------------------ *)
(** * The tick of [main.ts] *)



Lemma sum_fold_right (l : list Q) (a : Q) :
  fold_left Qplus l a == a + fold_right Qplus 0 l.
Proof.
  revert a. induction l as [|x l IH]; intros a; simpl.
  - ring.
  - rewrite IH. ring.
Qed.

(** Over 60 values, sum / 60 is the arithmetic mean. *)
Lemma avg60_is_mean (buf : list Q) :
  List.length buf = 60%nat -> TS.avg60 buf == Js.arithmeticMean buf.
Proof.
  intros H. unfold TS.avg60, Js.arithmeticMean, Js.sum. rewrite H.
  change (inject_Z (Z.of_nat 60)) with 60.
  unfold Qdiv. rewrite sum_fold_right. ring.
Qed.

Lemma push_length (arr : list Q) (v : Q) :
  List.length (Js.push arr v) = S (List.length arr).
Proof. unfold Js.push. rewrite length_app. simpl. lia. Qed.

Lemma shift_push_length (arr : list Q) (v : Q) :
  List.length (Js.shift (Js.push arr v)) = List.length arr.
Proof.
  unfold Js.shift, Js.push. destruct arr as [|x arr]; simpl; [reflexivity|].
  rewrite length_app. simpl. lia.
Qed.

Lemma pushBuffer_holds (n : nat) (b : TS.DataBuffer) (p v c : Q) :
  TS.bufferHolds n b -> TS.bufferHolds (S n) (TS.pushBuffer b p v c).
Proof.
  intros (Hp & Hv & Hc). unfold TS.bufferHolds, TS.pushBuffer. simpl.
  rewrite !push_length. lia.
Qed.

(** What the body of [try] leaves behind: either nothing was assigned, or
    the gate was open and the cascade ran. *)
Lemma TS_body_final (Math_sin : Q -> Q) (env : TS.Env) (s : TS.State) :
  final (TS.body Math_sin env s) = s
  \/ (TS.gate (TS.now_gate env) s = true
      /\ final (TS.body Math_sin env s)
         = TS.cascade (TS.now_stamp env) (TS.sampleOf Math_sin env) s).
Proof.
  unfold TS.body, bind, ext, get, modify, ret, throw.
  destruct (TS.faults env DomClock); [now left|].
  destruct (TS.faults env DomStatus); [now left|].
  destruct (TS.faults env DomElectrical); [now left|].
  destruct (TS.faults env DomWheels); [now left|].
  destruct (TS.faults env DomDirection); [now left|].
  destruct (TS.gate (TS.now_gate env) s) eqn:G.
  - right. split; [reflexivity|].
    destruct (TS.faults env ChartUpdate); reflexivity.
  - left. destruct (TS.faults env ChartUpdate); reflexivity.
Qed.

Lemma TS_body_final_quiet (Math_sin : Q -> Q) (env : TS.Env) (s : TS.State) :
  domQuiet (TS.faults env) ->
  TS.gate (TS.now_gate env) s = true ->
  final (TS.body Math_sin env s)
  = TS.cascade (TS.now_stamp env) (TS.sampleOf Math_sin env) s.
Proof.
  intros Hq G. unfold TS.body, bind, ext, get, modify, ret, throw.
  rewrite !Hq by discriminate. rewrite G.
  destruct (TS.faults env ChartUpdate); reflexivity.
Qed.

(** [updateTime] returns normally; its final state is that of the body,
    with one console entry more when the body threw. *)
Lemma TS_updateTime_outcome (Math_sin : Q -> Q) (env : TS.Env) (s : TS.State) :
  (exists s', TS.body Math_sin env s = Normal tt s'
              /\ TS.updateTime Math_sin env s = Normal tt s')
  \/ (exists e s', TS.body Math_sin env s = Throw e s'
        /\ TS.updateTime Math_sin env s
           = Normal tt (TS.console_error "Simulation Error:" e s')).
Proof.
  unfold TS.updateTime, try_catch, modify.
  destruct (TS.body Math_sin env s) as [[] s'|e s'].
  - left. exists s'. split; reflexivity.
  - right. exists e, s'. split; reflexivity.
Qed.

Lemma TS_updateTime_sameData (Math_sin : Q -> Q) (env : TS.Env) (s : TS.State) :
  TS.sameData (final (TS.updateTime Math_sin env s))
           (final (TS.body Math_sin env s)).
Proof.
  destruct (TS_updateTime_outcome Math_sin env s)
    as [(s' & -> & ->) | (e & s' & -> & ->)];
    simpl; repeat split; reflexivity.
Qed.

(** The seconds stage: the sample enters the three seconds series and the
    seconds buffer. *)
Lemma stageSeconds_fields (smp : Sample) (s : TS.State) :
  let s1 := TS.stageSeconds smp s in
  TS.secBuffer s1
  = TS.pushBuffer (TS.secBuffer s) (simPower smp) (simVoltage smp)
                  (simCurrent smp)
  /\ TS.minBuffer s1 = TS.minBuffer s
  /\ TS.lastSecondUpdate s1 = TS.lastSecondUpdate s
  /\ TS.console s1 = TS.console s
  /\ torque (TS.chartData s1) = torque (TS.chartData s)
  /\ (forall m, series m Minutes (TS.chartData s1)
                = series m Minutes (TS.chartData s))
  /\ (forall m, series m Hours (TS.chartData s1)
                = series m Hours (TS.chartData s))
  /\ (forall m, List.length (series m Seconds (TS.chartData s1))
                = List.length (series m Seconds (TS.chartData s))).
Proof.
  cbv zeta. unfold TS.stageSeconds, TS.updateAll. cbn.
  repeat split; try (intros []; reflexivity).
  intros []; cbn; try reflexivity; apply shift_push_length.
Qed.

Lemma stageMinutes_closed (s : TS.State) :
  (List.length (TS.buf_power (TS.secBuffer s)) < 60)%nat ->
  TS.stageMinutes s = s.
Proof.
  intros H. unfold TS.stageMinutes.
  destruct (Nat.leb_spec 60 (List.length (TS.buf_power (TS.secBuffer s))));
    [lia | reflexivity].
Qed.

Lemma stageHours_closed (s : TS.State) :
  (List.length (TS.buf_power (TS.minBuffer s)) < 60)%nat ->
  TS.stageHours s = s.
Proof.
  intros H. unfold TS.stageHours.
  destruct (Nat.leb_spec 60 (List.length (TS.buf_power (TS.minBuffer s))));
    [lia | reflexivity].
Qed.

(** The minutes stage when the seconds buffer is full. *)
Lemma stageMinutes_open (s : TS.State) :
  (60 <= List.length (TS.buf_power (TS.secBuffer s)))%nat ->
  let b := TS.secBuffer s in
  let s2 := TS.stageMinutes s in
  TS.secBuffer s2 = TS.emptyBuffer
  /\ TS.minBuffer s2
     = TS.pushBuffer (TS.minBuffer s) (TS.avg60 (TS.buf_power b))
         (TS.avg60 (TS.buf_voltage b)) (TS.avg60 (TS.buf_current b))
  /\ TS.lastSecondUpdate s2 = TS.lastSecondUpdate s
  /\ TS.console s2 = TS.console s
  /\ torque (TS.chartData s2) = torque (TS.chartData s)
  /\ series Power Minutes (TS.chartData s2)
     = Js.shift (Js.push (series Power Minutes (TS.chartData s))
                         (TS.avg60 (TS.buf_power b)))
  /\ series Voltage Minutes (TS.chartData s2)
     = Js.shift (Js.push (series Voltage Minutes (TS.chartData s))
                         (TS.avg60 (TS.buf_voltage b)))
  /\ series Current Minutes (TS.chartData s2)
     = Js.shift (Js.push (series Current Minutes (TS.chartData s))
                         (TS.avg60 (TS.buf_current b)))
  /\ (forall m, series m Seconds (TS.chartData s2)
                = series m Seconds (TS.chartData s))
  /\ (forall m, series m Hours (TS.chartData s2)
                = series m Hours (TS.chartData s)).
Proof.
  intros H. cbv zeta. unfold TS.stageMinutes.
  destruct (Nat.leb_spec 60 (List.length (TS.buf_power (TS.secBuffer s))));
    [|lia].
  unfold TS.updateAll. cbn.
  repeat split; try (intros []; reflexivity).
Qed.

(** The hours stage when the minutes buffer is full. *)
Lemma stageHours_open (s : TS.State) :
  (60 <= List.length (TS.buf_power (TS.minBuffer s)))%nat ->
  let b := TS.minBuffer s in
  let s3 := TS.stageHours s in
  TS.secBuffer s3 = TS.secBuffer s
  /\ TS.minBuffer s3 = TS.emptyBuffer
  /\ TS.lastSecondUpdate s3 = TS.lastSecondUpdate s
  /\ TS.console s3 = TS.console s
  /\ torque (TS.chartData s3) = torque (TS.chartData s)
  /\ series Power Hours (TS.chartData s3)
     = Js.shift (Js.push (series Power Hours (TS.chartData s))
                         (TS.avg60 (TS.buf_power b)))
  /\ series Voltage Hours (TS.chartData s3)
     = Js.shift (Js.push (series Voltage Hours (TS.chartData s))
                         (TS.avg60 (TS.buf_voltage b)))
  /\ series Current Hours (TS.chartData s3)
     = Js.shift (Js.push (series Current Hours (TS.chartData s))
                         (TS.avg60 (TS.buf_current b)))
  /\ (forall m, series m Seconds (TS.chartData s3)
                = series m Seconds (TS.chartData s))
  /\ (forall m, series m Minutes (TS.chartData s3)
                = series m Minutes (TS.chartData s)).
Proof.
  intros H. cbv zeta. unfold TS.stageHours.
  destruct (Nat.leb_spec 60 (List.length (TS.buf_power (TS.minBuffer s))));
    [|lia].
  unfold TS.updateAll. cbn.
  repeat split; try (intros []; reflexivity).
Qed.

(** C1.  A tick whose gate is open and whose DOM calls return pushes the
    sample into the seconds buffer.  While fewer than 60 samples are
    buffered nothing is aggregated.  With the 60th sample each single-line
    minutes series receives exactly one value (pushed, the oldest shifted
    out), the arithmetic mean of the 60 buffered samples, and the seconds
    buffer becomes empty; that mean also enters the minutes buffer, and
    with the 60th buffered minute the hours series receive the mean of the
    60 buffered minutes in the same way and the minutes buffer becomes
    empty. *)
Theorem aggregation_60_to_1
    (Math_sin : Q -> Q) (env : TS.Env) (s : TS.State) (n k : nat) :
  domQuiet (TS.faults env) ->
  TS.gate (TS.now_gate env) s = true ->
  TS.bufferHolds n (TS.secBuffer s) -> (n <= 59)%nat ->
  TS.bufferHolds k (TS.minBuffer s) -> (k <= 59)%nat ->
  let smp := TS.sampleOf Math_sin env in
  let s' := final (TS.updateTime Math_sin env s) in
  let cd := TS.chartData s in
  let cd' := TS.chartData s' in
  let sec := TS.pushBuffer (TS.secBuffer s) (simPower smp) (simVoltage smp)
                           (simCurrent smp) in
  let avgP := TS.avg60 (TS.buf_power sec) in
  let avgV := TS.avg60 (TS.buf_voltage sec) in
  let avgC := TS.avg60 (TS.buf_current sec) in
  let mins := TS.pushBuffer (TS.minBuffer s) avgP avgV avgC in
  ((n < 59)%nat ->
     TS.secBuffer s' = sec /\ TS.minBuffer s' = TS.minBuffer s
     /\ (forall m, series m Minutes cd' = series m Minutes cd)
     /\ (forall m, series m Hours cd' = series m Hours cd))
  /\
  (n = 59%nat ->
     TS.bufferHolds 60 sec
     /\ avgP == Js.arithmeticMean (TS.buf_power sec)
     /\ avgV == Js.arithmeticMean (TS.buf_voltage sec)
     /\ avgC == Js.arithmeticMean (TS.buf_current sec)
     /\ series Power Minutes cd'
        = Js.shift (Js.push (series Power Minutes cd) avgP)
     /\ series Voltage Minutes cd'
        = Js.shift (Js.push (series Voltage Minutes cd) avgV)
     /\ series Current Minutes cd'
        = Js.shift (Js.push (series Current Minutes cd) avgC)
     /\ TS.secBuffer s' = TS.emptyBuffer
     /\ ((k < 59)%nat ->
           TS.minBuffer s' = mins
           /\ (forall m, series m Hours cd' = series m Hours cd))
     /\ (k = 59%nat ->
           TS.bufferHolds 60 mins
           /\ TS.avg60 (TS.buf_power mins)
              == Js.arithmeticMean (TS.buf_power mins)
           /\ TS.avg60 (TS.buf_voltage mins)
              == Js.arithmeticMean (TS.buf_voltage mins)
           /\ TS.avg60 (TS.buf_current mins)
              == Js.arithmeticMean (TS.buf_current mins)
           /\ series Power Hours cd'
              = Js.shift (Js.push (series Power Hours cd)
                                  (TS.avg60 (TS.buf_power mins)))
           /\ series Voltage Hours cd'
              = Js.shift (Js.push (series Voltage Hours cd)
                                  (TS.avg60 (TS.buf_voltage mins)))
           /\ series Current Hours cd'
              = Js.shift (Js.push (series Current Hours cd)
                                  (TS.avg60 (TS.buf_current mins)))
           /\ TS.minBuffer s' = TS.emptyBuffer)).
Proof.
  intros Hq G Hn Hn59 Hk Hk59 smp s' cd cd' sec avgP avgV avgC mins.
  destruct (TS_updateTime_sameData Math_sin env s) as (Ec & Es & Em & _).
  rewrite (TS_body_final_quiet Math_sin env s Hq G) in Ec, Es, Em.
  fold s' in Ec, Es, Em. fold smp in Ec, Es, Em. fold cd' in Ec.
  unfold TS.cascade in Ec, Es, Em.
  set (s0 := TS.withLast (TS.now_stamp env) s) in *.
  destruct (stageSeconds_fields smp s0)
    as (S1 & S2 & _ & _ & _ & S6 & S7 & _).
  set (s1 := TS.stageSeconds smp s0) in *.
  change (TS.secBuffer s0) with (TS.secBuffer s) in S1. fold sec in S1.
  change (TS.minBuffer s0) with (TS.minBuffer s) in S2.
  change (TS.chartData s0) with cd in S6, S7.
  pose proof (pushBuffer_holds n (TS.secBuffer s) (simPower smp)
                (simVoltage smp) (simCurrent smp) Hn) as Hsec.
  fold sec in Hsec.
  assert (Hk' : List.length (TS.buf_power (TS.minBuffer s)) = k)
    by (destruct Hk as (H & _); exact H).
  split.
  - intros Hlt.
    assert (E2 : TS.stageMinutes s1 = s1).
    { apply stageMinutes_closed. rewrite S1.
      destruct Hsec as (H & _). rewrite H. lia. }
    assert (E3 : TS.stageHours s1 = s1).
    { apply stageHours_closed. rewrite S2, Hk'. lia. }
    rewrite E2, E3 in Ec, Es, Em. rewrite Ec, Es, Em.
    splits; assumption.
  - intros ->.
    assert (Hfull : (60 <= List.length (TS.buf_power (TS.secBuffer s1)))%nat).
    { rewrite S1. destruct Hsec as (H & _). rewrite H. lia. }
    destruct (stageMinutes_open s1 Hfull)
      as (M1 & M2 & _ & _ & _ & M6 & M7 & M8 & _ & M10).
    set (s2 := TS.stageMinutes s1) in *.
    rewrite S1 in M2, M6, M7, M8. rewrite S2 in M2.
    fold avgP avgV avgC in M2, M6, M7, M8. fold mins in M2.
    rewrite S6 in M6, M7, M8.
    destruct Hsec as (HsP & HsV & HsC).
    pose proof (pushBuffer_holds k (TS.minBuffer s) avgP avgV avgC Hk)
      as Hmins. fold mins in Hmins.
    assert (Hmin60 :
      (k < 59)%nat ->
      TS.minBuffer s' = mins
      /\ (forall m, series m Hours cd' = series m Hours cd)
      /\ (forall m, series m Minutes cd' = series m Minutes (TS.chartData s2))
      /\ TS.secBuffer s' = TS.emptyBuffer).
    { intros Hlt.
      assert (E3 : TS.stageHours s2 = s2).
      { apply stageHours_closed. rewrite M2.
        destruct Hmins as (H & _). rewrite H. lia. }
      rewrite E3 in Ec, Es, Em. rewrite Ec, Es, Em.
      splits; try assumption; try reflexivity.
      intros m. rewrite M10. apply S7. }
    assert (Hhour :
      k = 59%nat ->
      TS.minBuffer s' = TS.emptyBuffer
      /\ series Power Hours cd'
         = Js.shift (Js.push (series Power Hours cd)
                             (TS.avg60 (TS.buf_power mins)))
      /\ series Voltage Hours cd'
         = Js.shift (Js.push (series Voltage Hours cd)
                             (TS.avg60 (TS.buf_voltage mins)))
      /\ series Current Hours cd'
         = Js.shift (Js.push (series Current Hours cd)
                             (TS.avg60 (TS.buf_current mins)))
      /\ (forall m, series m Minutes cd' = series m Minutes (TS.chartData s2))
      /\ TS.secBuffer s' = TS.emptyBuffer).
    { intros E.
      assert (Hf2 : (60 <= List.length (TS.buf_power (TS.minBuffer s2)))%nat).
      { rewrite M2. destruct Hmins as (H & _). rewrite H. lia. }
      destruct (stageHours_open s2 Hf2)
        as (H1 & H2 & _ & _ & _ & H6 & H7 & H8 & _ & H10).
      rewrite M2 in H6, H7, H8. rewrite !M10, !S7 in H6, H7, H8.
      rewrite Ec, Es, Em. rewrite H1.
      splits; assumption. }
    assert (Hminutes : forall m,
              series m Minutes cd' = series m Minutes (TS.chartData s2)).
    { destruct (Nat.eq_dec k 59) as [E|E].
      - apply Hhour; exact E.
      - apply Hmin60; lia. }
    assert (Hempty : TS.secBuffer s' = TS.emptyBuffer).
    { destruct (Nat.eq_dec k 59) as [E|E].
      - apply Hhour; exact E.
      - apply Hmin60; lia. }
    split; [unfold TS.bufferHolds; splits; assumption|].
    split; [apply avg60_is_mean; exact HsP|].
    split; [apply avg60_is_mean; exact HsV|].
    split; [apply avg60_is_mean; exact HsC|].
    split; [rewrite Hminutes; exact M6|].
    split; [rewrite Hminutes; exact M7|].
    split; [rewrite Hminutes; exact M8|].
    split; [exact Hempty|].
    split.
    + intros Hlt. destruct (Hmin60 Hlt) as (A & B & _). split; assumption.
    + intros E. destruct (Hhour E) as (A & B & C & D & _).
      rewrite E in Hmins. destruct Hmins as (HmP & HmV & HmC).
      split; [unfold TS.bufferHolds; splits; assumption|].
      split; [apply avg60_is_mean; exact HmP|].
      split; [apply avg60_is_mean; exact HmV|].
      split; [apply avg60_is_mean; exact HmC|].
      splits; assumption.
Qed.


Lemma noFaults_quiet : domQuiet noFaults.
Proof. intros c _. reflexivity. Qed.

Lemma almostFull_holds : TS.bufferHolds 59 Examples.almostFull.
Proof. unfold TS.bufferHolds, Examples.almostFull. cbn. auto. Qed.

Lemma aggregation_60_to_1_witness :
  domQuiet (TS.faults Examples.tsEnv)
  /\ TS.gate (TS.now_gate Examples.tsEnv) Examples.tsState = true
  /\ TS.bufferHolds 59 (TS.secBuffer Examples.tsState)
  /\ TS.bufferHolds 59 (TS.minBuffer Examples.tsState)
  /\ (59 <= 59)%nat
  /\ let s' :=
       final (TS.updateTime Examples.flat Examples.tsEnv Examples.tsState)
     in
     TS.secBuffer s' = TS.emptyBuffer /\ TS.minBuffer s' = TS.emptyBuffer.
Proof.
  assert (H59 : (59 <= 59)%nat) by lia.
  assert (G : TS.gate (TS.now_gate Examples.tsEnv) Examples.tsState = true)
    by reflexivity.
  split; [exact noFaults_quiet|]. split; [exact G|].
  split; [exact almostFull_holds|]. split; [exact almostFull_holds|].
  split; [exact H59|].
  destruct (aggregation_60_to_1 Examples.flat Examples.tsEnv
              Examples.tsState 59 59 noFaults_quiet G almostFull_holds H59
              almostFull_holds H59) as [_ Hfull].
  destruct (Hfull eq_refl) as (_ & _ & _ & _ & _ & _ & _ & Hs & _ & Hh).
  destruct (Hh eq_refl) as (_ & _ & _ & _ & _ & _ & _ & Hm).
  split; [exact Hs | exact Hm].
Defined.

(** ** Lengths and the torque datasets under the cascade *)

Lemma updateAll_lengths (r : Range) (p v c : Q) (s : TS.State)
    (m : Mode) (r' : Range) :
  List.length (series m r' (TS.chartData (TS.updateAll r p v c s)))
  = List.length (series m r' (TS.chartData s)).
Proof.
  unfold TS.updateAll.
  destruct m, r, r'; cbn; try reflexivity; apply shift_push_length.
Qed.

Lemma updateAll_torque (r : Range) (p v c : Q) (s : TS.State) :
  torque (TS.chartData (TS.updateAll r p v c s)) = torque (TS.chartData s).
Proof. reflexivity. Qed.

Lemma stageSeconds_lengths (smp : Sample) (s : TS.State)
    (m : Mode) (r : Range) :
  List.length (series m r (TS.chartData (TS.stageSeconds smp s)))
  = List.length (series m r (TS.chartData s)).
Proof.
  unfold TS.stageSeconds.
  change (TS.chartData (TS.withSec ?b ?x)) with (TS.chartData x).
  apply updateAll_lengths.
Qed.

Lemma stageMinutes_lengths (s : TS.State) (m : Mode) (r : Range) :
  List.length (series m r (TS.chartData (TS.stageMinutes s)))
  = List.length (series m r (TS.chartData s)).
Proof.
  unfold TS.stageMinutes.
  destruct (60 <=? _)%nat; [|reflexivity].
  change (TS.chartData (TS.withSec ?b (TS.withMin ?b' ?x)))
    with (TS.chartData x).
  apply updateAll_lengths.
Qed.

Lemma stageHours_lengths (s : TS.State) (m : Mode) (r : Range) :
  List.length (series m r (TS.chartData (TS.stageHours s)))
  = List.length (series m r (TS.chartData s)).
Proof.
  unfold TS.stageHours.
  destruct (60 <=? _)%nat; [|reflexivity].
  change (TS.chartData (TS.withMin ?b ?x)) with (TS.chartData x).
  apply updateAll_lengths.
Qed.

Lemma cascade_lengths (stamp : Z) (smp : Sample) (s : TS.State)
    (m : Mode) (r : Range) :
  List.length (series m r (TS.chartData (TS.cascade stamp smp s)))
  = List.length (series m r (TS.chartData s)).
Proof.
  unfold TS.cascade.
  rewrite stageHours_lengths, stageMinutes_lengths, stageSeconds_lengths.
  reflexivity.
Qed.

Lemma cascade_torque (stamp : Z) (smp : Sample) (s : TS.State) :
  torque (TS.chartData (TS.cascade stamp smp s)) = torque (TS.chartData s).
Proof.
  unfold TS.cascade, TS.stageHours, TS.stageMinutes.
  repeat match goal with
         | |- context [if ?b then _ else _] => destruct b
         end; reflexivity.
Qed.

Lemma TS_updateTime_chart (Math_sin : Q -> Q) (env : TS.Env) (s : TS.State) :
  let cd' := TS.chartData (final (TS.updateTime Math_sin env s)) in
  cd' = TS.chartData s
  \/ cd' = TS.chartData
             (TS.cascade (TS.now_stamp env) (TS.sampleOf Math_sin env) s).
Proof.
  cbv zeta.
  destruct (TS_updateTime_sameData Math_sin env s) as (-> & _).
  destruct (TS_body_final Math_sin env s) as [-> | [_ ->]]; auto.
Qed.

Lemma TS_updateTime_lengths (Math_sin : Q -> Q) (env : TS.Env) (s : TS.State)
    (m : Mode) (r : Range) :
  List.length
    (series m r (TS.chartData (final (TS.updateTime Math_sin env s))))
  = List.length (series m r (TS.chartData s)).
Proof.
  destruct (TS_updateTime_chart Math_sin env s) as [-> | ->];
    [reflexivity | apply cascade_lengths].
Qed.

Lemma TS_updateTime_torque (Math_sin : Q -> Q) (env : TS.Env) (s : TS.State) :
  torque (TS.chartData (final (TS.updateTime Math_sin env s)))
  = torque (TS.chartData s).
Proof.
  destruct (TS_updateTime_chart Math_sin env s) as [-> | ->];
    [reflexivity | apply cascade_torque].
Qed.

(** A property kept by every step of a left fold holds at its end. *)
Lemma fold_left_invariant {S E : Type} (f : S -> E -> S) (P : S -> Prop) :
  (forall s e, P s -> P (f s e)) ->
  forall es s, P s -> P (fold_left f es s).
Proof.
  intros Hstep es. induction es as [|e es IH]; intros s Hs; simpl.
  - exact Hs.
  - apply IH, Hstep, Hs.
Qed.

(** ** The buffers on the pages reached from the initial one *)

(** The cascade keeps both buffers below 60 entries, their three arrays in
    step. *)
Lemma cascade_buffers (stamp : Z) (smp : Sample) (s : TS.State) (n k : nat) :
  TS.bufferHolds n (TS.secBuffer s) -> (n <= 59)%nat ->
  TS.bufferHolds k (TS.minBuffer s) -> (k <= 59)%nat ->
  exists n' k',
    (n' <= 59)%nat /\ (k' <= 59)%nat
    /\ TS.bufferHolds n' (TS.secBuffer (TS.cascade stamp smp s))
    /\ TS.bufferHolds k' (TS.minBuffer (TS.cascade stamp smp s)).
Proof.
  intros Hn Hn59 Hk Hk59. unfold TS.cascade.
  set (s0 := TS.withLast stamp s).
  destruct (stageSeconds_fields smp s0) as (S1 & S2 & _).
  set (s1 := TS.stageSeconds smp s0) in *.
  change (TS.secBuffer s0) with (TS.secBuffer s) in S1.
  change (TS.minBuffer s0) with (TS.minBuffer s) in S2.
  pose proof (pushBuffer_holds n (TS.secBuffer s) (simPower smp)
                (simVoltage smp) (simCurrent smp) Hn) as Hsec.
  rewrite <- S1 in Hsec.
  assert (Hempty : TS.bufferHolds 0 TS.emptyBuffer)
    by (unfold TS.bufferHolds; simpl; auto).
  destruct (Nat.eq_dec n 59) as [En | En].
  - assert (Hfull : (60 <= List.length (TS.buf_power (TS.secBuffer s1)))%nat)
      by (destruct Hsec as (H & _); rewrite H; lia).
    destruct (stageMinutes_open s1 Hfull) as (M1 & M2 & _).
    set (s2 := TS.stageMinutes s1) in *.
    rewrite S2 in M2.
    pose proof (pushBuffer_holds k (TS.minBuffer s)
                  (TS.avg60 (TS.buf_power (TS.secBuffer s1)))
                  (TS.avg60 (TS.buf_voltage (TS.secBuffer s1)))
                  (TS.avg60 (TS.buf_current (TS.secBuffer s1))) Hk) as Hmins.
    rewrite <- M2 in Hmins.
    destruct (Nat.eq_dec k 59) as [Ek | Ek].
    + assert (Hf2 : (60 <= List.length (TS.buf_power (TS.minBuffer s2)))%nat)
        by (destruct Hmins as (H & _); rewrite H; lia).
      destruct (stageHours_open s2 Hf2) as (H1 & H2 & _).
      exists 0%nat, 0%nat. rewrite H1, H2, M1.
      splits; try lia; exact Hempty.
    + rewrite stageHours_closed
        by (destruct Hmins as (H & _); rewrite H; lia).
      exists 0%nat, (S k). rewrite M1.
      splits; try lia; assumption.
  - rewrite (stageMinutes_closed s1)
      by (destruct Hsec as (H & _); rewrite H; lia).
    rewrite stageHours_closed
      by (rewrite S2; destruct Hk as (H & _); rewrite H; lia).
    exists (S n), k. rewrite S2.
    splits; try lia; assumption.
Qed.

(** On every page reached from the initial one by ticks, each buffer holds
    at most 59 entries in each of its arrays: the hypotheses under which
    the aggregation is described are those of every tick. *)
Lemma TS_run_buffers (Math_sin : Q -> Q) (g : Rng.t) (envs : list TS.Env) :
  exists n k,
    (n <= 59)%nat /\ (k <= 59)%nat
    /\ TS.bufferHolds n
         (TS.secBuffer (TS.run Math_sin envs (TS.initialState g)))
    /\ TS.bufferHolds k
         (TS.minBuffer (TS.run Math_sin envs (TS.initialState g))).
Proof.
  unfold TS.run.
  apply (fold_left_invariant
           (fun s env => final (TS.updateTime Math_sin env s))
           (fun s => exists n k,
                (n <= 59)%nat /\ (k <= 59)%nat
                /\ TS.bufferHolds n (TS.secBuffer s)
                /\ TS.bufferHolds k (TS.minBuffer s))).
  - intros s env (n & k & Hn59 & Hk59 & Hn & Hk).
    destruct (TS_updateTime_sameData Math_sin env s) as (_ & Es & Em & _).
    rewrite Es, Em.
    destruct (TS_body_final Math_sin env s) as [-> | [_ ->]].
    + exists n, k. splits; assumption.
    + apply (cascade_buffers _ _ s n k); assumption.
  - exists 0%nat, 0%nat. unfold TS.bufferHolds. simpl.
    splits; try lia; auto.
Qed.

(* ------------------------------------------------------------------ *)
(** * The tick of the first [main.js] *)


Lemma JsA_body_final (Math_sin : Q -> Q) (env : JsA.Env) (s : JsA.State) :
  final (JsA.body Math_sin env s) = s
  \/ (exists ref,
        JsA.datasets s = [ref]
        /\ final (JsA.body Math_sin env s)
           = JsA.withChart
               (JsA.pushShiftRef ref
                  (JsA.newVal (JsA.currentMode s) (JsA.sampleOf Math_sin env))
                  (JsA.chartData s)) s).
Proof.
  unfold JsA.body, JsA.graphUpdate, bind, ext, get, modify, ret, throw.
  destruct (JsA.faults env DomClock); [now left|].
  destruct (JsA.faults env DomStatus); [now left|].
  destruct (JsA.faults env DomElectrical); [now left|].
  destruct (JsA.faults env DomWheels); [now left|].
  destruct (JsA.faults env DomDirection); [now left|].
  destruct (JsA.datasets s) as [|ref [|ref' rest]] eqn:D; [now left | | now left].
  right. exists ref. split; [reflexivity|].
  destruct (JsA.faults env ChartUpdate); reflexivity.
Qed.

(** The [catch] block logs to the console first; then it either completes,
    with the line in the log panel when the page has one, or one of its
    own calls throws and nothing more is written. *)
Lemma JsA_handler_outcome (env : JsA.Env) (e : Exn) (st : JsA.State) :
  (JsA.catchQuiet env ->
   JsA.handler env e st
   = Normal tt
       (let s1 := JsA.console_error "Simulation Error:" e st in
        if JsA.has_terminal env then JsA.terminal_append e s1 else s1))
  /\ (~ JsA.catchQuiet env ->
      exists e',
        JsA.handler env e st
        = Throw e' (JsA.console_error "Simulation Error:" e st)).
Proof.
  unfold JsA.catchQuiet, JsA.handler, JsA.ext_catch, bind, modify, ret,
    throw.
  cbv zeta.
  destruct (JsA.catch_faults env JsA.PanelQuery) as [e1|].
  { split; [intros [H _]; discriminate H | intros _; eauto]. }
  destruct (JsA.has_terminal env).
  - destruct (JsA.catch_faults env JsA.PanelRead) as [e2|].
    { split; [intros [_ H]; destruct (H eq_refl) as (H2 & _); discriminate H2
             | intros _; eauto]. }
    destruct (JsA.catch_faults env JsA.ErrMessage) as [e3|].
    { split; [intros [_ H]; destruct (H eq_refl) as (_ & H3 & _);
              discriminate H3
             | intros _; eauto]. }
    destruct (JsA.catch_faults env JsA.PanelWrite) as [e4|].
    { split; [intros [_ H]; destruct (H eq_refl) as (_ & _ & H4);
              discriminate H4
             | intros _; eauto]. }
    split; [reflexivity|].
    intros Hn. exfalso. apply Hn. split; [reflexivity|].
    intros _. splits; reflexivity.
  - split; [reflexivity|].
    intros Hn. exfalso. apply Hn. split; [reflexivity|].
    intros H; discriminate H.
Qed.

(** Whether the [catch] block completes is decided by its calls. *)
Lemma JsA_catchQuiet_dec (env : JsA.Env) :
  JsA.catchQuiet env \/ ~ JsA.catchQuiet env.
Proof.
  unfold JsA.catchQuiet.
  destruct (JsA.catch_faults env JsA.PanelQuery) as [e1|];
    [right; intros [H _]; discriminate H|].
  destruct (JsA.has_terminal env);
    [|left; split; [reflexivity | intros H; discriminate H]].
  destruct (JsA.catch_faults env JsA.PanelRead) as [e2|];
    [right; intros [_ H]; destruct (H eq_refl) as (H2 & _); discriminate H2|].
  destruct (JsA.catch_faults env JsA.ErrMessage) as [e3|];
    [right; intros [_ H]; destruct (H eq_refl) as (_ & H3 & _);
     discriminate H3|].
  destruct (JsA.catch_faults env JsA.PanelWrite) as [e4|];
    [right; intros [_ H]; destruct (H eq_refl) as (_ & _ & H4);
     discriminate H4|].
  left. split; [reflexivity|]. intros _. splits; reflexivity.
Qed.

Lemma JsA_updateTime_fields (Math_sin : Q -> Q) (env : JsA.Env)
    (s : JsA.State) :
  let s' := final (JsA.updateTime Math_sin env s) in
  let b := final (JsA.body Math_sin env s) in
  JsA.chartData s' = JsA.chartData b
  /\ JsA.currentMode s' = JsA.currentMode b
  /\ JsA.currentTimeRange s' = JsA.currentTimeRange b
  /\ JsA.datasets s' = JsA.datasets b.
Proof.
  cbv zeta. unfold JsA.updateTime, try_catch.
  destruct (JsA.body Math_sin env s) as [[] s'|e s']; cbn [final].
  - splits; reflexivity.
  - destruct (JsA_handler_outcome env e s') as [Hq Hn].
    destruct (JsA_catchQuiet_dec env) as [H | H].
    + rewrite (Hq H). cbv zeta.
      destruct (JsA.has_terminal env); cbn; splits; reflexivity.
    + destruct (Hn H) as [e' ->]. cbn. splits; reflexivity.
Qed.

Lemma updateNth_length {A : Type} (i : nat) (f : A -> A) (l : list A) :
  List.length (JsA.updateNth i f l) = List.length l.
Proof.
  revert i. induction l as [|x l IH]; intros [|i]; simpl; auto.
Qed.

Lemma pushShiftRef_lengths (ref : JsA.DataRef) (v : Q) (cd : ChartDataConfig)
    (m : Mode) (r : Range) :
  List.length (series m r (JsA.pushShiftRef ref v cd))
  = List.length (series m r cd).
Proof.
  destruct ref as [m' r'|r' i].
  - destruct m, m', r, r'; cbn; try reflexivity; apply shift_push_length.
  - destruct m; reflexivity.
Qed.

Lemma pushShiftSingle_torque (m : Mode) (r : Range) (v : Q)
    (cd : ChartDataConfig) :
  torque (pushShiftSingle m r v cd) = torque cd.
Proof. destruct m; reflexivity. Qed.

Lemma JsA_updateTime_lengths (Math_sin : Q -> Q) (env : JsA.Env)
    (s : JsA.State) (m : Mode) (r : Range) :
  List.length
    (series m r (JsA.chartData (final (JsA.updateTime Math_sin env s))))
  = List.length (series m r (JsA.chartData s)).
Proof.
  destruct (JsA_updateTime_fields Math_sin env s) as (-> & _).
  destruct (JsA_body_final Math_sin env s) as [-> | (ref & _ & ->)];
    [reflexivity|].
  cbn [JsA.chartData JsA.withChart]. apply pushShiftRef_lengths.
Qed.

(** With four torque datasets, a chart that shows exactly one dataset shows
    a single-line series. *)
Lemma wellFormed_single_ref (s : JsA.State) (ref : JsA.DataRef) :
  JsA.wellFormed s -> JsA.datasets s = [ref] ->
  ref = JsA.RefSingle (JsA.currentMode s) (JsA.currentTimeRange s)
  /\ JsA.currentMode s <> Torque.
Proof.
  intros [Hs H4] D. unfold JsA.synced in Hs. rewrite D in Hs.
  unfold JsA.getDatasetForMode in Hs.
  destruct (JsA.currentMode s) eqn:M;
    try (split; [congruence | discriminate]).
  rewrite H4 in Hs. discriminate Hs.
Qed.

Lemma getDatasetForMode_torque_only (m : Mode) (r : Range)
    (cd cd' : ChartDataConfig) :
  torque cd' = torque cd ->
  JsA.getDatasetForMode m r cd' = JsA.getDatasetForMode m r cd.
Proof. intros H. unfold JsA.getDatasetForMode. now rewrite H. Qed.

(** A tick keeps a well-formed page well formed and its torque datasets as
    they are. *)
Lemma JsA_updateTime_wellFormed (Math_sin : Q -> Q) (env : JsA.Env)
    (s : JsA.State) :
  JsA.wellFormed s ->
  JsA.wellFormed (final (JsA.updateTime Math_sin env s))
  /\ torque (JsA.chartData (final (JsA.updateTime Math_sin env s)))
     = torque (JsA.chartData s).
Proof.
  intros W.
  destruct (JsA_updateTime_fields Math_sin env s) as (Ec & Em & Er & Ed).
  assert (Ht : torque (JsA.chartData (final (JsA.body Math_sin env s)))
               = torque (JsA.chartData s)
               /\ JsA.currentMode (final (JsA.body Math_sin env s))
                  = JsA.currentMode s
               /\ JsA.currentTimeRange (final (JsA.body Math_sin env s))
                  = JsA.currentTimeRange s
               /\ JsA.datasets (final (JsA.body Math_sin env s))
                  = JsA.datasets s).
  { destruct (JsA_body_final Math_sin env s) as [-> | (ref & D & ->)];
      [auto|].
    destruct (wellFormed_single_ref s ref W D) as [-> _].
    cbn. rewrite pushShiftSingle_torque. auto. }
  destruct Ht as (Ht & Hm & Hr & Hd).
  rewrite <- Ec in Ht. rewrite <- Em in Hm. rewrite <- Er in Hr.
  rewrite <- Ed in Hd.
  split; [|exact Ht].
  destruct W as [Hs H4]. split.
  - unfold JsA.synced. rewrite Hd, Hm, Hr.
    rewrite (getDatasetForMode_torque_only _ _ _ _ Ht). exact Hs.
  - intros r. rewrite Ht. apply H4.
Qed.

Lemma JsA_step_wellFormed (Math_sin : Q -> Q) (s : JsA.State)
    (ev : JsA.Event) :
  JsA.wellFormed s ->
  JsA.wellFormed (JsA.step Math_sin s ev)
  /\ torque (JsA.chartData (JsA.step Math_sin s ev))
     = torque (JsA.chartData s).
Proof.
  intros W. destruct ev as [env|m|r]; simpl.
  - apply JsA_updateTime_wellFormed, W.
  - destruct W as [_ H4]. split; [split|]; [reflexivity | exact H4 | reflexivity].
  - destruct W as [_ H4]. split; [split|]; [reflexivity | exact H4 | reflexivity].
Qed.

Lemma JsA_step_lengths (Math_sin : Q -> Q) (s : JsA.State) (ev : JsA.Event)
    (m : Mode) (r : Range) :
  List.length (series m r (JsA.chartData (JsA.step Math_sin s ev)))
  = List.length (series m r (JsA.chartData s)).
Proof.
  destruct ev as [env|m'|r']; simpl;
    [apply JsA_updateTime_lengths | reflexivity | reflexivity].
Qed.

(* ------------------------------------------------------------------ *)
(** * The initial chart data *)

Lemma generateDenseData_length (points : Z) (min max : Q)
    (initialValue : option Q) (g : Rng.t) :
  List.length (fst (generateDenseData points min max initialValue g))
  = Z.to_nat points.
Proof. unfold generateDenseData. apply walk_length. Qed.

Lemma createModeData_lengths (min max : Q) (a b c : ValueRange) (g : Rng.t)
    (r : Range) :
  List.length (getRange r (s_ranges (fst (createModeData min max a b c g))))
  = capacity r.
Proof.
  unfold createModeData.
  pose proof (generateDenseData_length 60 (vr_min a) (vr_max a)
                (Some (vr_init a)) g) as H1.
  destruct (generateDenseData 60 (vr_min a) _ _ g) as [sec g1].
  pose proof (generateDenseData_length 60 (vr_min b) (vr_max b)
                (Some (vr_init b)) g1) as H2.
  destruct (generateDenseData 60 (vr_min b) _ _ g1) as [mi g2].
  pose proof (generateDenseData_length 25 (vr_min c) (vr_max c)
                (Some (vr_init c)) g2) as H3.
  destruct (generateDenseData 25 (vr_min c) _ _ g2) as [ho g3].
  destruct r; assumption.
Qed.

Lemma torqueDatasets_four (points : Z) (a b c d : ValueRange) (g : Rng.t) :
  List.length (fst (torqueDatasets points a b c d g)) = 4%nat.
Proof.
  unfold torqueDatasets.
  destruct (generateDenseData points (vr_min a) _ _ g) as [x1 g1].
  destruct (generateDenseData points (vr_min b) _ _ g1) as [x2 g2].
  destruct (generateDenseData points (vr_min c) _ _ g2) as [x3 g3].
  destruct (generateDenseData points (vr_min d) _ _ g3) as [x4 g4].
  reflexivity.
Qed.

(** The initial series have the capacity of their range, and the torque
    mode has four datasets at every range. *)
Lemma initialChartData_shape (g : Rng.t) :
  let cd := fst (initialChartData g) in
  (forall m r, m <> Torque -> List.length (series m r cd) = capacity r)
  /\ (forall r, List.length (getRange r (m_ranges (torque cd))) = 4%nat).
Proof.
  cbv zeta. unfold initialChartData.
  pose proof (createModeData_lengths 0 400 (mkVR 240 290 264)
                (mkVR 255 275 260) (mkVR 240 290 265) g) as Hp.
  destruct (createModeData 0 400 _ _ _ g) as [p g1].
  pose proof (createModeData_lengths 20 24 (mkVR 21.5 22.5 22.0)
                (mkVR 21.8 22.4 22.1) (mkVR 21.0 23.0 21.5) g1) as Hv.
  destruct (createModeData 20 24 _ _ _ g1) as [v g2].
  pose proof (createModeData_lengths 10 15 (mkVR 11 13 11.5)
                (mkVR 11.5 12.5 12.0) (mkVR 11.0 13.0 11.2) g2) as Hc.
  destruct (createModeData 10 15 _ _ _ g2) as [c g3].
  pose proof (torqueDatasets_four 60 (mkVR 0.1 0.2 0.13) (mkVR 0.3 0.4 0.35)
                (mkVR (-0.3) (-0.2) (-0.28)) (mkVR 0.15 0.25 0.18) g3) as H1.
  destruct (torqueDatasets 60 _ _ _ _ g3) as [t1 g4].
  pose proof (torqueDatasets_four 60 (mkVR 0.12 0.16 0.14)
                (mkVR 0.32 0.38 0.35) (mkVR (-0.32) (-0.25) (-0.29))
                (mkVR 0.18 0.23 0.20) g4) as H2.
  destruct (torqueDatasets 60 _ _ _ _ g4) as [t2 g5].
  pose proof (torqueDatasets_four 25 (mkVR 0.1 0.18 0.15) (mkVR 0.3 0.4 0.32)
                (mkVR (-0.35) (-0.22) (-0.25)) (mkVR 0.15 0.25 0.17) g5) as H3.
  destruct (torqueDatasets 25 _ _ _ _ g5) as [t3 g6].
  simpl fst in *. split.
  - intros m r Hm. destruct m; [apply Hp | apply Hv | apply Hc | congruence].
  - intros r. destruct r; assumption.
Qed.

Lemma JsA_initial_wellFormed (g : Rng.t) : JsA.wellFormed (JsA.initialState g).
Proof.
  unfold JsA.wellFormed, JsA.synced, JsA.initialState. cbv zeta.
  cbn [JsA.datasets JsA.currentMode JsA.currentTimeRange JsA.chartData].
  split; [reflexivity|]. apply (initialChartData_shape g).
Qed.

(** The second [main.js] assigns nothing: whatever its outcome, a tick
    leaves the page state as it found it. *)
Lemma JsB_updateTime_final (env : JsB.Env) (s : JsB.State) :
  final (JsB.updateTime env s) = s.
Proof.
  unfold JsB.updateTime, bind, ext, ret, throw.
  repeat match goal with
         | |- context [JsB.faults env ?c] => destruct (JsB.faults env c)
         end; reflexivity.
Qed.

Lemma JsB_run_id (envs : list JsB.Env) (s : JsB.State) : JsB.run envs s = s.
Proof.
  unfold JsB.run. revert s. induction envs as [|e es IH]; intros s; simpl.
  - reflexivity.
  - rewrite JsB_updateTime_final. apply IH.
Qed.

(* ------------------------------------------------------------------ *)
(** * Series over the lifetime of the page *)


(** C2.  A tick leaves the length of every single-line series as it found
    it, in each variant; the series start at the capacity of their range
    (60, 60, 25), so they have that capacity after any number of ticks,
    and in the first [main.js] after any clicks on the controls as well. *)
Theorem series_capacity_invariant (Math_sin : Q -> Q) :
  (forall env s m r,
     List.length
       (series m r (TS.chartData (final (TS.updateTime Math_sin env s))))
     = List.length (series m r (TS.chartData s)))
  /\ (forall env s m r,
        List.length
          (series m r (JsA.chartData (final (JsA.updateTime Math_sin env s))))
        = List.length (series m r (JsA.chartData s)))
  /\ (forall env s m r,
        List.length (series m r (JsB.chartData (final (JsB.updateTime env s))))
        = List.length (series m r (JsB.chartData s)))
  /\ (forall g envs m r, m <> Torque ->
        List.length
          (series m r (TS.chartData (TS.run Math_sin envs (TS.initialState g))))
        = capacity r)
  /\ (forall g evs m r, m <> Torque ->
        List.length
          (series m r
             (JsA.chartData (JsA.run Math_sin evs (JsA.initialState g))))
        = capacity r)
  /\ (forall g envs m r, m <> Torque ->
        List.length
          (series m r (JsB.chartData (JsB.run envs (JsB.initialState g))))
        = capacity r).
Proof.
  splits.
  - intros. apply TS_updateTime_lengths.
  - intros. apply JsA_updateTime_lengths.
  - intros. now rewrite JsB_updateTime_final.
  - intros g envs m r Hm. unfold TS.run.
    apply (fold_left_invariant
             (fun s env => final (TS.updateTime Math_sin env s))
             (fun s => List.length (series m r (TS.chartData s)) = capacity r)).
    + intros s e H. now rewrite TS_updateTime_lengths.
    + apply (initialChartData_shape g); exact Hm.
  - intros g evs m r Hm. unfold JsA.run.
    apply (fold_left_invariant (JsA.step Math_sin)
             (fun s => List.length (series m r (JsA.chartData s)) = capacity r)).
    + intros s e H. now rewrite JsA_step_lengths.
    + apply (initialChartData_shape g); exact Hm.
  - intros g envs m r Hm. rewrite JsB_run_id.
    apply (initialChartData_shape g); exact Hm.
Qed.

Lemma series_capacity_invariant_witness :
  Voltage <> Torque
  /\ List.length
       (series Voltage Hours
          (TS.chartData
             (TS.run Examples.flat [Examples.tsEnv; Examples.tsEnv]
                     (TS.initialState Examples.steady))))
     = capacity Hours
  /\ List.length
       (series Voltage Hours
          (JsA.chartData
             (JsA.run Examples.flat
                [JsA.Tick Examples.jsaEnv; JsA.ClickMode Torque;
                 JsA.Tick Examples.jsaEnv]
                (JsA.initialState Examples.steady))))
     = capacity Hours.
Proof.
  assert (H : Voltage <> Torque) by discriminate.
  destruct (series_capacity_invariant Examples.flat)
    as (_ & _ & _ & HT & HA & _).
  split; [exact H|]. split; [apply HT; exact H | apply HA; exact H].
Defined.

(** C9.  No tick modifies a torque dataset.  In [main.ts] the per-tick
    series update returns at once for the multi-line mode; in the first
    [main.js] a tick pushes only when the chart shows exactly one dataset,
    which on a page reached from the initial one is a single-line series;
    the second [main.js] pushes nothing.  So the torque datasets of every
    range keep their initially generated values. *)
Theorem torque_series_untouched (Math_sin : Q -> Q) :
  (forall r v cd, TS.updateModeData Torque r v cd = cd)
  /\ (forall env s,
        torque (TS.chartData (final (TS.updateTime Math_sin env s)))
        = torque (TS.chartData s))
  /\ (forall g envs,
        torque (TS.chartData (TS.run Math_sin envs (TS.initialState g)))
        = torque (fst (initialChartData g)))
  /\ (forall env s,
        List.length (JsA.datasets s) <> 1%nat ->
        JsA.chartData (final (JsA.updateTime Math_sin env s))
        = JsA.chartData s)
  /\ (forall g evs,
        torque (JsA.chartData (JsA.run Math_sin evs (JsA.initialState g)))
        = torque (fst (initialChartData g)))
  /\ (forall g envs,
        torque (JsB.chartData (JsB.run envs (JsB.initialState g)))
        = torque (fst (initialChartData g))).
Proof.
  splits.
  - reflexivity.
  - intros. apply TS_updateTime_torque.
  - intros g envs. unfold TS.run.
    apply (fold_left_invariant
             (fun s env => final (TS.updateTime Math_sin env s))
             (fun s => torque (TS.chartData s)
                       = torque (fst (initialChartData g)))).
    + intros s e H. now rewrite TS_updateTime_torque.
    + reflexivity.
  - intros env s Hlen.
    destruct (JsA_updateTime_fields Math_sin env s) as (-> & _).
    destruct (JsA_body_final Math_sin env s) as [-> | (ref & D & _)];
      [reflexivity|].
    rewrite D in Hlen. simpl in Hlen. congruence.
  - intros g evs. unfold JsA.run.
    apply (fold_left_invariant (JsA.step Math_sin)
             (fun s => JsA.wellFormed s
                       /\ torque (JsA.chartData s)
                          = torque (fst (initialChartData g)))).
    + intros s e [W H].
      destruct (JsA_step_wellFormed Math_sin s e W) as [W' H'].
      split; [exact W' | now rewrite H'].
    + split; [apply JsA_initial_wellFormed | reflexivity].
  - intros g envs. now rewrite JsB_run_id.
Qed.

Lemma torque_series_untouched_witness :
  List.length
    (JsA.datasets (JsA.selectMode Torque (JsA.initialState Examples.steady)))
  <> 1%nat
  /\ JsA.chartData
       (final (JsA.updateTime Examples.flat Examples.jsaEnv
                 (JsA.selectMode Torque (JsA.initialState Examples.steady))))
     = JsA.chartData
         (JsA.selectMode Torque (JsA.initialState Examples.steady)).
Proof.
  assert (H : List.length
                (JsA.datasets
                   (JsA.selectMode Torque (JsA.initialState Examples.steady)))
              <> 1%nat).
  { unfold JsA.selectMode, JsA.updateChart, JsA.initialState.
    cbn [JsA.datasets JsA.currentMode JsA.currentTimeRange JsA.chartData].
    unfold JsA.getDatasetForMode. rewrite length_map, length_seq.
    destruct (initialChartData_shape Examples.steady) as [_ H4].
    rewrite H4. discriminate. }
  destruct (torque_series_untouched Examples.flat) as (_ & _ & _ & HA & _).
  split; [exact H | apply HA; exact H].
Defined.

(* ------------------------------------------------------------------ *)
(** * Exceptions during a tick *)

Lemma TS_updateTime_normal (Math_sin : Q -> Q) (env : TS.Env) (s : TS.State) :
  exists s', TS.updateTime Math_sin env s = Normal tt s'.
Proof.
  destruct (TS_updateTime_outcome Math_sin env s)
    as [(s' & _ & E) | (e & s' & _ & E)]; rewrite E; eauto.
Qed.

(** C7 (as amended).  In [main.ts] the work of a tick is inside [try] and
    the [catch] block only calls [console.error]: whatever an external
    call throws, [updateTime] returns normally and the error is appended
    to the console.  In the first [main.js] the work is inside [try] as
    well and the error is appended to the console; the [catch] block then
    looks for the log panel and appends the message to it when the page
    has one: when these calls succeed [updateTime] returns normally, and
    when one of them throws, that exception leaves [updateTime], the
    console written and the panel not.  The second [main.js] has no
    [try]: what a call throws leaves [updateTime], and nothing is
    logged. *)
Theorem tick_exceptions_contained (Math_sin : Q -> Q) :
  (forall env s, exists s', TS.updateTime Math_sin env s = Normal tt s')
  /\ (forall env s e st,
        TS.body Math_sin env s = Throw e st ->
        TS.updateTime Math_sin env s
        = Normal tt (TS.console_error "Simulation Error:" e st))
  /\ (forall env s st,
        JsA.body Math_sin env s = Normal tt st ->
        JsA.updateTime Math_sin env s = Normal tt st)
  /\ (forall env s e st,
        JsA.body Math_sin env s = Throw e st ->
        JsA.catchQuiet env ->
        exists s',
          JsA.updateTime Math_sin env s = Normal tt s'
          /\ JsA.console s' = JsA.console st ++ [("Simulation Error:"%string, e)]
          /\ JsA.terminal s'
             = (if JsA.has_terminal env
                then JsA.terminal st ++ [("ERROR: " ++ e)%string]
                else JsA.terminal st)
          /\ JsA.chartData s' = JsA.chartData st)
  /\ (forall env s e st,
        JsA.body Math_sin env s = Throw e st ->
        ~ JsA.catchQuiet env ->
        exists e' s',
          JsA.updateTime Math_sin env s = Throw e' s'
          /\ JsA.console s' = JsA.console st ++ [("Simulation Error:"%string, e)]
          /\ JsA.terminal s' = JsA.terminal st
          /\ JsA.chartData s' = JsA.chartData st)
  /\ (forall env s c e,
        c <> ChartUpdate -> JsB.faults env c = Some e ->
        exists e', JsB.updateTime env s = Throw e' s).
Proof.
  splits.
  - apply TS_updateTime_normal.
  - intros env s e st H. unfold TS.updateTime, try_catch. rewrite H.
    reflexivity.
  - intros env s st H. unfold JsA.updateTime, try_catch. rewrite H.
    reflexivity.
  - intros env s e st H Hq. unfold JsA.updateTime, try_catch. rewrite H.
    destruct (JsA_handler_outcome env e st) as [Hn _].
    rewrite (Hn Hq). cbv zeta.
    destruct (JsA.has_terminal env); eexists; (split; [reflexivity|]);
      cbn; splits; reflexivity.
  - intros env s e st H Hq. unfold JsA.updateTime, try_catch. rewrite H.
    destruct (JsA_handler_outcome env e st) as [_ Ht].
    destruct (Ht Hq) as [e' E]. rewrite E.
    exists e', (JsA.console_error "Simulation Error:" e st).
    split; [reflexivity|]. cbn. splits; reflexivity.
  - intros env s c e Hc H. unfold JsB.updateTime, bind, ext, ret, throw.
    destruct (JsB.faults env DomClock) as [e1|] eqn:E1; [eauto|].
    destruct (JsB.faults env DomStatus) as [e2|] eqn:E2; [eauto|].
    destruct (JsB.faults env DomSystem) as [e3|] eqn:E3; [eauto|].
    destruct (JsB.faults env DomWheels) as [e4|] eqn:E4; [eauto|].
    destruct (JsB.faults env DomDirection) as [e5|] eqn:E5; [eauto|].
    destruct (JsB.faults env DomElectrical) as [e6|] eqn:E6; [eauto|].
    destruct c; congruence.
Qed.

Lemma jsaBroken_catchQuiet : JsA.catchQuiet Examples.jsaBroken.
Proof. split; [reflexivity | intros _; splits; reflexivity]. Qed.

Lemma jsaBrokenCatch_not_quiet : ~ JsA.catchQuiet Examples.jsaBrokenCatch.
Proof. intros [_ H]. destruct (H eq_refl) as (_ & _ & H4). discriminate H4. Qed.

Lemma tick_exceptions_contained_witness :
  TS.body Examples.flat Examples.tsBroken Examples.tsState
  = Throw "TypeError"%string Examples.tsState
  /\ TS.updateTime Examples.flat Examples.tsBroken Examples.tsState
     = Normal tt (TS.console_error "Simulation Error:" "TypeError"%string
                    Examples.tsState)
  /\ JsA.body Examples.flat Examples.jsaBroken Examples.jsaState
     = Throw "TypeError"%string Examples.jsaState
  /\ JsA.catchQuiet Examples.jsaBroken
  /\ (exists s',
        JsA.updateTime Examples.flat Examples.jsaBroken Examples.jsaState
        = Normal tt s'
        /\ JsA.console s' = [("Simulation Error:"%string, "TypeError"%string)]
        /\ JsA.terminal s' = ["ERROR: TypeError"%string])
  /\ ~ JsA.catchQuiet Examples.jsaBrokenCatch
  /\ (exists e' s',
        JsA.updateTime Examples.flat Examples.jsaBrokenCatch Examples.jsaState
        = Throw e' s'
        /\ JsA.console s' = [("Simulation Error:"%string, "TypeError"%string)]
        /\ JsA.terminal s' = [])
  /\ DomClock <> ChartUpdate
  /\ JsB.faults Examples.jsbBroken DomClock = Some "TypeError"%string
  /\ exists e', JsB.updateTime Examples.jsbBroken Examples.jsbState
                = Throw e' Examples.jsbState.
Proof.
  assert (H : TS.body Examples.flat Examples.tsBroken Examples.tsState
              = Throw "TypeError"%string Examples.tsState) by reflexivity.
  assert (HA : JsA.body Examples.flat Examples.jsaBroken Examples.jsaState
               = Throw "TypeError"%string Examples.jsaState) by reflexivity.
  assert (HA' : JsA.body Examples.flat Examples.jsaBrokenCatch
                  Examples.jsaState
                = Throw "TypeError"%string Examples.jsaState) by reflexivity.
  assert (Hc : DomClock <> ChartUpdate) by discriminate.
  assert (Hf : JsB.faults Examples.jsbBroken DomClock
               = Some "TypeError"%string) by reflexivity.
  destruct (tick_exceptions_contained Examples.flat)
    as (_ & HT & _ & HQ & HN & HB).
  split; [exact H|]. split; [exact (HT _ _ _ _ H)|].
  split; [exact HA|]. split; [exact jsaBroken_catchQuiet|].
  split.
  { destruct (HQ _ _ _ _ HA jsaBroken_catchQuiet) as (s' & E & C & T & _).
    exists s'. split; [exact E|]. split; [exact C | exact T]. }
  split; [exact jsaBrokenCatch_not_quiet|].
  split.
  { destruct (HN _ _ _ _ HA' jsaBrokenCatch_not_quiet)
      as (e' & s' & E & C & T & _).
    exists e', s'. split; [exact E|]. split; [exact C | exact T]. }
  split; [exact Hc|]. split; [exact Hf|].
  exact (HB Examples.jsbBroken Examples.jsbState DomClock _ Hc Hf).
Defined.

(** C7 as stated fails on the second [main.js]: a call that throws during
    the tick ends [updateTime] with that exception, and nothing is
    logged. *)
Lemma JsB_tick_exception_escapes :
  JsB.updateTime Examples.jsbBroken Examples.jsbState
  = Throw "TypeError"%string Examples.jsbState
  /\ JsB.console
       (final (JsB.updateTime Examples.jsbBroken
                 Examples.jsbState))
     = [].
Proof. splits; reflexivity. Qed.

(* ================================================================== *)
(** * Further properties of the code *)

(* ------------------------------------------------------------------ *)
(** * The running-time display *)

(** X1.  For an elapsed time [diff >= 0] the displayed hours, minutes and
    seconds are the elapsed time cut to whole seconds: minutes and seconds
    are below 60, the hours are not wrapped at 24, and the three recombine
    to [diff] minus its milliseconds.  For a negative [diff] (a clock set
    back) the hours are negative and minutes and seconds lie in -60 .. 0. *)
Theorem runningTime_decomposes (diff : Z) :
  ((0 <= diff)%Z ->
     let t := Clock.runningTime diff in
     (0 <= Clock.hours t)%Z
     /\ (0 <= Clock.minutes t < 60)%Z /\ (0 <= Clock.seconds t < 60)%Z
     /\ (Clock.hours t * 3600000 + Clock.minutes t * 60000
         + Clock.seconds t * 1000 = diff - diff mod 1000)%Z)
  /\
  ((diff < 0)%Z ->
     let t := Clock.runningTime diff in
     (Clock.hours t < 0)%Z
     /\ (-60 <= Clock.minutes t <= 0)%Z /\ (-60 <= Clock.seconds t <= 0)%Z).
Proof.
  unfold Clock.runningTime. cbn [Clock.hours Clock.minutes Clock.seconds].
  split; intros H; cbv zeta.
  - rewrite !Z.rem_mod_nonneg by lia.
    Z.to_euclidean_division_equations. lia.
  - Z.to_euclidean_division_equations. lia.
Qed.

Lemma runningTime_decomposes_witness :
  (0 <= 3723456)%Z /\ (-1 < 0)%Z
  /\ Clock.runningTime 3723456 = Clock.mkRunning 1 2 3
  /\ (Clock.hours (Clock.runningTime (-1)) < 0)%Z.
Proof.
  assert (H1 : (0 <= 3723456)%Z) by lia.
  assert (H2 : (-1 < 0)%Z) by lia.
  destruct (runningTime_decomposes (-1)) as [_ Hn].
  destruct (runningTime_decomposes 3723456) as [Hp _].
  split; [exact H1|]. split; [exact H2|]. split; [reflexivity|].
  apply (Hn H2).
Defined.

Lemma padStart2_twoDigits (n : Z) :
  (0 <= n < 100)%Z ->
  Clock.padStart2 (Clock.String_of n) = Clock.twoDigits n.
Proof.
  intros H.
  assert (Hall :
    forallb (fun k => String.eqb
                        (Clock.padStart2 (Clock.String_of (Z.of_nat k)))
                        (Clock.twoDigits (Z.of_nat k)))
            (seq 0 100) = true) by (vm_compute; reflexivity).
  rewrite forallb_forall in Hall.
  specialize (Hall (Z.to_nat n)).
  rewrite Z2Nat.id in Hall by lia.
  apply String.eqb_eq, Hall, in_seq. lia.
Qed.

(** X2.  Below 100 hours the running-time text is exactly
    [HH:MM:SS]: two decimal digits for each of hours, minutes and seconds,
    eight characters in all. *)
Theorem runningText_format (diff : Z) :
  (0 <= diff < 360000000)%Z ->
  let t := Clock.runningTime diff in
  Clock.runningText diff
  = (Clock.twoDigits (Clock.hours t) ++ ":"
     ++ Clock.twoDigits (Clock.minutes t) ++ ":"
     ++ Clock.twoDigits (Clock.seconds t))%string
  /\ String.length (Clock.runningText diff) = 8%nat.
Proof.
  intros H t.
  assert (Hh : (0 <= Clock.hours t < 100)%Z
               /\ (0 <= Clock.minutes t < 100)%Z
               /\ (0 <= Clock.seconds t < 100)%Z).
  { subst t. unfold Clock.runningTime.
    cbn [Clock.hours Clock.minutes Clock.seconds].
    rewrite !Z.rem_mod_nonneg by lia.
    Z.to_euclidean_division_equations. lia. }
  destruct Hh as (Hh & Hm & Hs).
  assert (E : Clock.runningText diff
              = (Clock.twoDigits (Clock.hours t) ++ ":"
                 ++ Clock.twoDigits (Clock.minutes t) ++ ":"
                 ++ Clock.twoDigits (Clock.seconds t))%string).
  { unfold Clock.runningText. fold t.
    now rewrite !padStart2_twoDigits by assumption. }
  split; [exact E|]. rewrite E. reflexivity.
Qed.

Lemma runningText_format_witness :
  (0 <= 3723456 < 360000000)%Z
  /\ Clock.runningText 3723456 = "01:02:03"%string
  /\ String.length (Clock.runningText 3723456) = 8%nat.
Proof.
  assert (H : (0 <= 3723456 < 360000000)%Z) by lia.
  destruct (runningText_format 3723456 H) as [E L].
  split; [exact H|]. split; [rewrite E; reflexivity | exact L].
Defined.

(* ------------------------------------------------------------------ *)
(** * Status widgets *)

(** The floor of [r * span + base] for a draw [r] of [[0, 1)]. *)
Lemma scaled_draw_floor (r : Q) (span base : Z) :
  Rng.valid_draw r -> (0 < span)%Z ->
  (base <= Qfloor (r * inject_Z span + inject_Z base) <= base + span - 1)%Z.
Proof.
  intros [H0 H1] Hs.
  assert (Hq : 0 < inject_Z span)
    by (change 0 with (inject_Z 0); rewrite <- Zlt_Qlt; exact Hs).
  split.
  - apply floor_ge_int. nra.
  - apply floor_le_int. unfold Z.sub. rewrite !inject_Z_plus, inject_Z_opp.
    change (inject_Z 1) with 1. nra.
Qed.

(** The floor of [fl (fl (r * span) + base)] for a draw [r] of [[0, 1)]:
    the product may round up to [span], so the upper end is
    [base + span]. *)
Lemma rounded_draw_floor (fl : Q -> Q) (r : Q) (span base : Z) :
  Widgets.rounding fl -> Rng.valid_draw r ->
  (0 < span <= 1000)%Z -> (0 <= base <= 1000)%Z ->
  (base <= Qfloor (fl (fl (r * inject_Z span)%Q + inject_Z base)%Q)
   <= base + span)%Z.
Proof.
  intros [Hmono Hfix] [H0 H1] Hs Hb.
  assert (Hq : 0 < inject_Z span)
    by (change 0 with (inject_Z 0); rewrite <- Zlt_Qlt; lia).
  assert (Hsmall : forall n : Z, (0 <= n <= 2000)%Z -> (Z.abs n <= 2 ^ 53)%Z).
  { intros n Hn. rewrite Z.abs_eq by lia.
    change (2 ^ 53)%Z with 9007199254740992%Z. lia. }
  pose proof (Hfix 0%Z (Hsmall 0%Z ltac:(lia))) as F0.
  pose proof (Hfix span (Hsmall span ltac:(lia))) as Fs.
  pose proof (Hfix base (Hsmall base ltac:(lia))) as Fb.
  pose proof (Hfix (base + span)%Z (Hsmall (base + span)%Z ltac:(lia)))
    as Fbs.
  rewrite inject_Z_plus in Fbs.
  change (inject_Z 0) with 0 in F0.
  assert (P1 : 0 <= fl (r * inject_Z span) <= inject_Z span).
  { split.
    - rewrite <- F0. apply Hmono. nra.
    - rewrite <- Fs at 2. apply Hmono. nra. }
  assert (P2 : inject_Z base
               <= fl (fl (r * inject_Z span) + inject_Z base)
               <= inject_Z base + inject_Z span).
  { split.
    - rewrite <- Fb at 1. apply Hmono. lra.
    - rewrite <- Fbs. apply Hmono. lra. }
  split.
  - apply floor_ge_int. apply P2.
  - apply floor_le_int. rewrite inject_Z_plus. lra.
Qed.

(** X3.  Computed on doubles, a refreshed ping is between 15 and 41 ms
    (41 when the product rounds up to 26), so its colour is always the
    green one: the yellow and red branches are never taken.  The simulated
    CPU, memory and temperature figures of the second [main.js] lie in
    5..30, 20..40 and 35..55. *)
Theorem ping_always_green (fl : Q -> Q) (r : Q) :
  Widgets.rounding fl -> Rng.valid_draw r ->
  (15 <= Widgets.ping fl r <= 41)%Z
  /\ Widgets.pingColor (Widgets.ping fl r) = "#4ADE80"%string
  /\ (forall has_ping r_gate p c,
        Widgets.pingUpdate fl has_ping r_gate r = Some (p, c) ->
        (15 <= p <= 41)%Z /\ c = "#4ADE80"%string)
  /\ (forall has_ping p c,
        Widgets.pingUpdateB fl has_ping r = Some (p, c) ->
        (15 <= p <= 41)%Z /\ c = "#4ADE80"%string)
  /\ (5 <= Widgets.sysCpu fl r <= 30)%Z
  /\ (20 <= Widgets.sysMem fl r <= 40)%Z
  /\ (35 <= Widgets.sysTemp fl r <= 55)%Z.
Proof.
  intros Hfl Hr.
  assert (Hp : (15 <= Widgets.ping fl r <= 41)%Z).
  { pose proof (rounded_draw_floor fl r 26 15 Hfl Hr ltac:(lia) ltac:(lia))
      as H.
    unfold Widgets.ping. exact H. }
  assert (Hc : Widgets.pingColor (Widgets.ping fl r) = "#4ADE80"%string).
  { unfold Widgets.pingColor.
    destruct (Z.ltb_spec (Widgets.ping fl r) 50); [reflexivity | lia]. }
  split; [exact Hp|]. split; [exact Hc|]. split; [|split; [|split; [|split]]].
  - intros has_ping r_gate p c. unfold Widgets.pingUpdate.
    destruct (has_ping && Js.ltb 0.8 r_gate); [|discriminate].
    intros E. injection E as <- <-. split; assumption.
  - intros has_ping p c. unfold Widgets.pingUpdateB.
    destruct has_ping; [|discriminate].
    intros E. injection E as <- <-. split; assumption.
  - exact (rounded_draw_floor fl r 25 5 Hfl Hr ltac:(lia) ltac:(lia)).
  - exact (rounded_draw_floor fl r 20 20 Hfl Hr ltac:(lia) ltac:(lia)).
  - exact (rounded_draw_floor fl r 20 35 Hfl Hr ltac:(lia) ltac:(lia)).
Qed.

(** Rounding to a grid of step 2^-47 is a rounding in the sense used. *)
Lemma toGrid_rounding : Widgets.rounding MoreExamples.toGrid.
Proof.
  unfold Widgets.rounding, MoreExamples.toGrid.
  change (2 ^ 47)%Z with 140737488355328%Z.
  set (K := 140737488355328%Z).
  assert (HK : 0 < inject_Z K)
    by (change 0 with (inject_Z 0); rewrite <- Zlt_Qlt; subst K; lia).
  split.
  - intros x y Hxy.
    assert (Hf : (Qfloor (x * inject_Z K + 1 / 2)
                  <= Qfloor (y * inject_Z K + 1 / 2))%Z).
    { apply Qfloor_resp_le. qconst. nra. }
    rewrite Zle_Qle in Hf.
    apply Qmult_le_compat_r; [exact Hf|].
    apply Qlt_le_weak, Qinv_lt_0_compat, HK.
  - intros n _.
    assert (Hf : Qfloor (inject_Z n * inject_Z K + 1 / 2) = (n * K)%Z).
    { apply Z.le_antisymm.
      - apply floor_le_int. rewrite inject_Z_mult. qlra.
      - apply floor_ge_int. rewrite inject_Z_mult. qlra. }
    rewrite Hf, inject_Z_mult. field. lra.
Qed.

Lemma lastDraw_valid : Rng.valid_draw MoreExamples.lastDraw.
Proof.
  unfold Rng.valid_draw, MoreExamples.lastDraw.
  split; [apply Qle_bool_imp_le; reflexivity | reflexivity].
Qed.

Lemma ping_always_green_witness :
  Widgets.rounding MoreExamples.toGrid
  /\ Rng.valid_draw MoreExamples.lastDraw
  /\ Widgets.ping MoreExamples.toGrid MoreExamples.lastDraw = 41%Z
  /\ Widgets.pingColor (Widgets.ping MoreExamples.toGrid MoreExamples.lastDraw)
     = "#4ADE80"%string.
Proof.
  destruct (ping_always_green MoreExamples.toGrid MoreExamples.lastDraw
              toGrid_rounding lastDraw_valid) as (_ & Hc & _).
  split; [exact toGrid_rounding|]. split; [exact lastDraw_valid|].
  split; [vm_compute; reflexivity | exact Hc].
Defined.

Lemma setWheel_range (present : bool) (val r : Q) :
  Qabs val <= 1 -> Rng.valid_draw r ->
  (0 <= Widgets.setWheel present val r <= 4049)%Z.
Proof.
  intros Hv Hr. unfold Widgets.setWheel, Js.Math_abs.
  destruct present; [|lia].
  pose proof (Qabs_nonneg val) as Ha.
  assert (H1 : (0 <= Qfloor (Qabs val * 4000) <= 4000)%Z).
  { split; [apply floor_ge_int | apply floor_le_int];
      change (inject_Z 0) with 0; change (inject_Z 4000) with 4000; lra. }
  destruct (Js.ltb 0 (Qabs val)); [|lia].
  pose proof (scaled_draw_floor r 50 0 Hr ltac:(lia)) as H2.
  assert (E : r * inject_Z 50 + inject_Z 0 == r * 50)
    by (change (inject_Z 50) with 50; change (inject_Z 0) with 0; ring).
  rewrite (Qfloor_comp _ _ E) in H2. lia.
Qed.

(** The normalised wheel values of [main.ts] have magnitude at most 1. *)
Lemma TS_wheels_unit (m : Motion) : unitWheels (TS.wheels m).
Proof.
  unfold unitWheels, TS.wheels, TS.maxVel, Js.Math_abs. cbv zeta.
  cbn [fl fr rl rr].
  destruct (normalized_by_max5 (TS.w1_FR m) (TS.w2_FL m) (TS.w3_RL m)
              (TS.w4_RR m) 10.0) as (H1 & H2 & H3 & H4); [lra|].
  splits; assumption.
Qed.

(** X4.  Whatever the motion command and whichever wheel elements the page
    has, each RPM written by a tick of [main.ts] lies in 0..4049 and so
    does their average; a wheel whose elements are missing counts as 0.
    The progress bar is between 0 and 100 percent and is full from 250 RPM
    on. *)
Theorem wheel_rpm_range
    (dom : Widgets.WheelDom) (m : Motion) (d : Widgets.WheelDraws) :
  Widgets.validWheelDraws d ->
  (let '(rpm1, rpm2, rpm3, rpm4) := Widgets.wheelRPMs dom m d in
   (0 <= rpm1 <= 4049)%Z /\ (0 <= rpm2 <= 4049)%Z
   /\ (0 <= rpm3 <= 4049)%Z /\ (0 <= rpm4 <= 4049)%Z)
  /\ (0 <= Widgets.tickAvgRPM dom m d <= 4049)%Z
  /\ (forall val r, Widgets.setWheel false val r = 0%Z)
  /\ (forall rpm, (0 <= rpm)%Z ->
        0 <= Widgets.progress rpm <= 100
        /\ ((250 <= rpm)%Z -> Widgets.progress rpm == 100)
        /\ ((rpm < 250)%Z -> Widgets.progress rpm == inject_Z rpm * 0.4)).
Proof.
  intros (H1 & H2 & H3 & H4).
  destruct (TS_wheels_unit m) as (U1 & U2 & U3 & U4).
  pose proof (setWheel_range (Widgets.el_FL dom) _ _ U1 H1) as R1.
  pose proof (setWheel_range (Widgets.el_FR dom) _ _ U2 H2) as R2.
  pose proof (setWheel_range (Widgets.el_RL dom) _ _ U3 H3) as R3.
  pose proof (setWheel_range (Widgets.el_RR dom) _ _ U4 H4) as R4.
  split; [|split; [|split]].
  - unfold Widgets.wheelRPMs. cbv zeta.
    split; [exact R1|]. split; [exact R2|]. split; [exact R3 | exact R4].
  - unfold Widgets.tickAvgRPM, Widgets.wheelRPMs, Widgets.avgRPM. cbv zeta.
    Z.to_euclidean_division_equations. lia.
  - reflexivity.
  - intros rpm Hrpm. unfold Widgets.progress, Js.Math_min.
    assert (Hq : 0 <= inject_Z rpm)
      by (change 0 with (inject_Z 0); rewrite <- Zle_Qle; exact Hrpm).
    split; [split|split].
    + apply Q.min_glb; qlra.
    + apply Q.le_min_r.
    + intros Hb. apply Q.min_r.
      assert (250 <= inject_Z rpm)
        by (change 250 with (inject_Z 250); rewrite <- Zle_Qle; exact Hb).
      qlra.
    + intros Hb. rewrite Q.min_l.
      * unfold Qdiv. change (/ 250) with (1 # 250). ring.
      * assert (inject_Z rpm <= 250)
          by (change 250 with (inject_Z 250); rewrite <- Zle_Qle; lia).
        qlra.
Qed.

Lemma wheel_rpm_range_witness :
  Widgets.validWheelDraws MoreExamples.wheelDraws
  /\ (0 <= Widgets.tickAvgRPM MoreExamples.allWheels (mkMotion 0.8 0 0)
            MoreExamples.wheelDraws <= 4049)%Z.
Proof.
  assert (H : Widgets.validWheelDraws MoreExamples.wheelDraws)
    by (unfold Widgets.validWheelDraws, Rng.valid_draw; simpl; lra).
  destruct (wheel_rpm_range MoreExamples.allWheels (mkMotion 0.8 0 0)
              MoreExamples.wheelDraws H) as (_ & Ha & _).
  split; [exact H | exact Ha].
Defined.

(* ------------------------------------------------------------------ *)
(** * The electrical model *)

(** The setpoint of every state, for a sine of magnitude at most 1. *)
Lemma setpoint_magnitudes (Math_sin : Q -> Q) (now : Z) :
  (forall x, Qabs (Math_sin x) <= 1) ->
  let sp := Sim.setpoint Math_sin now in
  Qabs (drive sp) + Qabs (strafe sp) + Qabs (turn sp) <= 0.8.
Proof.
  intros Hs. cbv zeta. unfold Sim.setpoint.
  pose proof (Hs (inject_Z now / 500)) as Hb.
  apply Qabs_Qle_condition in Hb.
  assert (H0 : Qabs 0 == 0) by reflexivity.
  assert (Ht : Qabs (Math_sin (inject_Z now / 500) * 0.8) <= 0.8)
    by (apply abs_le; lra).
  destruct (Sim.cycleIndex now) as [|p|p]; cbn [drive strafe turn];
    [rewrite !H0; lra | | rewrite !H0; lra].
  repeat (destruct p as [p|p|]; cbn [drive strafe turn];
          try (rewrite !H0; lra));
    rewrite ?H0;
    try (assert (Qabs 0.8 == 0.8) by reflexivity; lra);
    try (assert (Qabs (-0.5) == 0.5) by reflexivity; lra);
    try (assert (Qabs (-0.7) == 0.7) by reflexivity; lra).
Qed.

Lemma noisy_axis (x r b : Q) :
  Rng.valid_draw r -> Qabs x <= b ->
  Qabs (x + (r - 0.5) * 0.05) <= b + 0.025.
Proof.
  intros [H0 H1] Hx. apply Qabs_Qle_condition in Hx.
  apply abs_le; lra.
Qed.

(** The load term of the current, over all states and draws. *)
Lemma total_load_bounds (Math_sin : Q -> Q) (now : Z) (d : Draws) :
  (forall x, Qabs (Math_sin x) <= 1) -> validDraws d ->
  let m := Sim.motion Math_sin now d in
  0 <= Qabs (drive m) + Qabs (strafe m) + Qabs (turn m) <= 0.875.
Proof.
  intros Hs (Hd & Hst & Ht & _) m. subst m.
  unfold Sim.motion, Sim.addNoise. cbn [drive strafe turn].
  pose proof (setpoint_magnitudes Math_sin now Hs) as Hm. cbv zeta in Hm.
  set (sp := Sim.setpoint Math_sin now) in *.
  pose proof (Qabs_nonneg (drive sp)) as A1.
  pose proof (Qabs_nonneg (strafe sp)) as A2.
  pose proof (Qabs_nonneg (turn sp)) as A3.
  pose proof (Qabs_triangle (drive sp) ((rnd_drive d - 0.5) * 0.05)) as T1.
  pose proof (Qabs_triangle (strafe sp) ((rnd_strafe d - 0.5) * 0.05)) as T2.
  pose proof (Qabs_triangle (turn sp) ((rnd_turn d - 0.5) * 0.05)) as T3.
  pose proof (noise_small (rnd_drive d) 0.05 Hd ltac:(lra)) as N1.
  pose proof (noise_small (rnd_strafe d) 0.05 Hst ltac:(lra)) as N2.
  pose proof (noise_small (rnd_turn d) 0.05 Ht ltac:(lra)) as N3.
  pose proof (Qabs_nonneg (drive sp + (rnd_drive d - 0.5) * 0.05)).
  pose proof (Qabs_nonneg (strafe sp + (rnd_strafe d - 0.5) * 0.05)).
  pose proof (Qabs_nonneg (turn sp + (rnd_turn d - 0.5) * 0.05)).
  lra.
Qed.

(** X5.  In [main.ts] and the first [main.js], for a sine of magnitude at
    most 1, the simulated current lies between 0.95 and 18.95 A whatever
    the state and the draws: its colour is green or yellow and the red
    (20 A and more) branch is never taken; in the IDLE state it is green.
    The power, voltage times current, is positive and below 471 W. *)
Theorem current_never_red (Math_sin : Q -> Q) (now : Z) (d : Draws) :
  (forall x, Qabs (Math_sin x) <= 1) -> validDraws d ->
  let smp := Sim.sample (Sim.motion Math_sin now d) d in
  0.95 <= simCurrent smp <= 18.95
  /\ Widgets.currentColor (simCurrent smp) <> "#EF4444"%string
  /\ (Sim.cycleIndex now = 0%Z ->
      Widgets.currentColor (simCurrent smp) = "#4ADE80"%string)
  /\ simPower smp == simVoltage smp * simCurrent smp
  /\ 0 < simPower smp <= 471.
Proof.
  intros Hs Hd smp.
  pose proof (total_load_bounds Math_sin now d Hs Hd) as Hl.
  pose proof (load_bounds Math_sin now d Hd) as Hv.
  cbv zeta in Hl, Hv.
  set (m := Sim.motion Math_sin now d) in *.
  assert (Hc : 0.95 <= simCurrent smp <= 18.95).
  { subst smp. unfold Sim.sample, Sim.currentOf, Sim.currentLoad,
      Sim.baseCurrent, Js.Math_abs. cbn [simCurrent].
    destruct Hd as (_ & _ & _ & _ & [C0 C1]). lra. }
  assert (Hvolt : 23.475 <= simVoltage smp <= 24.85).
  { subst smp. unfold Sim.sample, Sim.voltageOf, Sim.voltageLoad,
      Sim.voltageNoise, Sim.baseVoltage, Js.Math_abs. cbn [simVoltage].
    destruct Hd as (_ & _ & _ & [V0 V1] & _). lra. }
  split; [exact Hc|]. split; [|split; [|split]].
  - unfold Widgets.currentColor.
    destruct (Js.ltb (simCurrent smp) 10); [discriminate|].
    destruct (Js.ltb (simCurrent smp) 20) eqn:E; [discriminate|].
    apply ltb_false_iff in E. lra.
  - intros Hidle.
    assert (Hsp : Sim.setpoint Math_sin now = mkMotion 0 0 0)
      by (unfold Sim.setpoint; rewrite Hidle; reflexivity).
    assert (Hsmall : simCurrent smp < 10).
    { subst smp m. unfold Sim.sample, Sim.currentOf, Sim.currentLoad,
        Sim.baseCurrent, Js.Math_abs, Sim.motion, Sim.addNoise.
      rewrite Hsp. cbn [simCurrent drive strafe turn].
      destruct Hd as (D & S & T & _ & [C0 C1]).
      pose proof (noisy_axis 0 (rnd_drive d) 0 D ltac:(apply abs_le; lra)).
      pose proof (noisy_axis 0 (rnd_strafe d) 0 S ltac:(apply abs_le; lra)).
      pose proof (noisy_axis 0 (rnd_turn d) 0 T ltac:(apply abs_le; lra)).
      lra. }
    unfold Widgets.currentColor.
    destruct (Js.ltb (simCurrent smp) 10) eqn:E; [reflexivity|].
    apply ltb_false_iff in E. lra.
  - subst smp. reflexivity.
  - assert (E : simPower smp == simVoltage smp * simCurrent smp)
      by (subst smp; reflexivity).
    rewrite E. split; nra.
Qed.

Lemma unitSine_bounded : forall x, Qabs (MoreExamples.unitSine x) <= 1.
Proof. intros x. unfold MoreExamples.unitSine. apply abs_le; lra. Qed.

Lemma current_never_red_witness :
  (forall x, Qabs (MoreExamples.unitSine x) <= 1)
  /\ validDraws Examples.calm
  /\ Widgets.currentColor
       (simCurrent (Sim.sample
          (Sim.motion MoreExamples.unitSine 16000 Examples.calm)
          Examples.calm)) <> "#EF4444"%string.
Proof.
  destruct (current_never_red MoreExamples.unitSine 16000 Examples.calm
              unitSine_bounded calm_valid) as (_ & Hc & _).
  split; [exact unitSine_bounded|]. split; [exact calm_valid | exact Hc].
Defined.

(* ------------------------------------------------------------------ *)
(** * Kinematics: what the wheel values say about the command *)

Lemma Math_max5_cases (a b c d e : Q) :
  let M := Math_max5 a b c d e in
  M == a \/ M == b \/ M == c \/ M == d \/ M == e.
Proof.
  cbv zeta. unfold Math_max5, Js.Math_max.
  destruct (Q.max_dec (Qmax (Qmax (Qmax a b) c) d) e) as [E4|E4];
    [rewrite E4 | right; right; right; right; exact E4].
  destruct (Q.max_dec (Qmax (Qmax a b) c) d) as [E3|E3];
    [rewrite E3 | right; right; right; left; exact E3].
  destruct (Q.max_dec (Qmax a b) c) as [E2|E2];
    [rewrite E2 | right; right; left; exact E2].
  destruct (Q.max_dec a b) as [E1|E1];
    [left; exact E1 | right; left; exact E1].
Qed.

(** X6.  The mixing of the two [main.js] is invertible: drive, strafe and
    turn are recovered from the four mixed wheel values, so two commands
    with the same mix are the same command.  The same holds for the
    inverse kinematics of [main.ts]. *)
Theorem mix_determines_motion (m : Motion) :
  (let w := JsA.mix m in
   drive m == (fl w + fr w + rl w + rr w) / 4
   /\ strafe m == (fl w - fr w - rl w + rr w) / 4
   /\ turn m == (fl w - fr w + rl w - rr w) / 4)
  /\ JsB.mix m = JsA.mix m
  /\ (drive m
      == (TS.w1_FR m - TS.w2_FL m - TS.w3_RL m + TS.w4_RR m)
         * TS.r_wheel / (4 * TS.sin_a)
      /\ strafe m
         == (- TS.w1_FR m - TS.w2_FL m + TS.w3_RL m + TS.w4_RR m)
            * TS.r_wheel / (4 * TS.cos_a)
      /\ turn m
         == (TS.w1_FR m + TS.w2_FL m + TS.w3_RL m + TS.w4_RR m)
            * TS.r_wheel / (4 * TS.L)).
Proof.
  split; [|split].
  - unfold JsA.mix. cbn [fl fr rl rr]. splits; field.
  - reflexivity.
  - unfold TS.w1_FR, TS.w2_FL, TS.w3_RL, TS.w4_RR, TS.r_wheel, TS.sin_a,
      TS.cos_a, TS.L.
    splits; field.
Qed.

(** Dividing four values by the maximum of their magnitudes and a positive
    floor. *)
Lemma scaled_by_max5 (a b c d e : Q) :
  0 < e ->
  let k := Math_max5 (Qabs a) (Qabs b) (Qabs c) (Qabs d) e in
  e <= k
  /\ a / k * k == a /\ b / k * k == b /\ c / k * k == c /\ d / k * k == d
  /\ (Qabs a <= e -> Qabs b <= e -> Qabs c <= e -> Qabs d <= e -> k == e)
  /\ (e < k ->
      Qabs (a / k) == 1 \/ Qabs (b / k) == 1
      \/ Qabs (c / k) == 1 \/ Qabs (d / k) == 1).
Proof.
  intros He k.
  destruct (Math_max5_bounds (Qabs a) (Qabs b) (Qabs c) (Qabs d) e)
    as (B1 & B2 & B3 & B4 & B5).
  pose proof (Math_max5_cases (Qabs a) (Qabs b) (Qabs c) (Qabs d) e) as Hc.
  cbv zeta in Hc. fold k in B1, B2, B3, B4, B5, Hc.
  assert (Hub : Qabs a <= e -> Qabs b <= e -> Qabs c <= e -> Qabs d <= e ->
                k <= e)
    by (intros; unfold k, Math_max5, Js.Math_max;
        repeat apply Q.max_lub; lra).
  clearbody k.
  assert (Hk0 : ~ k == 0) by lra.
  split; [exact B5|].
  split; [field; exact Hk0|]. split; [field; exact Hk0|].
  split; [field; exact Hk0|]. split; [field; exact Hk0|].
  split.
  - intros H1 H2 H3 H4. pose proof (Hub H1 H2 H3 H4). lra.
  - intros Hgt.
    assert (Hn : forall x, Qabs x == k -> Qabs (x / k) == 1).
    { intros x Hx. unfold Qdiv. rewrite Qabs_Qmult, Hx.
      rewrite (Qabs_pos (/ k))
        by (apply Qlt_le_weak, Qinv_lt_0_compat; lra).
      field. exact Hk0. }
    destruct Hc as [E|[E|[E|[E|E]]]].
    + left. apply Hn. symmetry. exact E.
    + right. left. apply Hn. symmetry. exact E.
    + right. right. left. apply Hn. symmetry. exact E.
    + right. right. right. apply Hn. symmetry. exact E.
    + lra.
Qed.

(** X7.  The normalisation divides the four wheel values by one common
    factor, at least 1 in the two [main.js] and at least 10 in [main.ts]:
    signs and ratios are kept.  When no mixed value exceeds the floor the
    factor is the floor itself, and otherwise the largest wheel value is
    scaled to magnitude exactly 1. *)
Theorem normalisation_is_a_common_scaling (m : Motion) :
  (let w := JsA.mix m in
   let k := JsA.maxM w in
   1 <= k
   /\ fl (JsA.wheels m) * k == fl w /\ fr (JsA.wheels m) * k == fr w
   /\ rl (JsA.wheels m) * k == rl w /\ rr (JsA.wheels m) * k == rr w
   /\ (Qabs (fl w) <= 1 -> Qabs (fr w) <= 1 -> Qabs (rl w) <= 1 ->
       Qabs (rr w) <= 1 -> k == 1)
   /\ (1 < k ->
       Qabs (fl (JsA.wheels m)) == 1 \/ Qabs (fr (JsA.wheels m)) == 1
       \/ Qabs (rl (JsA.wheels m)) == 1 \/ Qabs (rr (JsA.wheels m)) == 1))
  /\ JsB.wheels m = JsA.wheels m
  /\
  (let k := TS.maxVel m in
   10 <= k
   /\ fr (TS.wheels m) * k == TS.w1_FR m /\ fl (TS.wheels m) * k == TS.w2_FL m
   /\ rl (TS.wheels m) * k == TS.w3_RL m /\ rr (TS.wheels m) * k == TS.w4_RR m
   /\ (Qabs (TS.w1_FR m) <= 10 -> Qabs (TS.w2_FL m) <= 10 ->
       Qabs (TS.w3_RL m) <= 10 -> Qabs (TS.w4_RR m) <= 10 -> k == 10)
   /\ (10 < k ->
       Qabs (fr (TS.wheels m)) == 1 \/ Qabs (fl (TS.wheels m)) == 1
       \/ Qabs (rl (TS.wheels m)) == 1 \/ Qabs (rr (TS.wheels m)) == 1)).
Proof.
  split; [|split].
  - destruct (scaled_by_max5 (fl (JsA.mix m)) (fr (JsA.mix m))
                (rl (JsA.mix m)) (rr (JsA.mix m)) 1.0 ltac:(lra))
      as (Hk & H1 & H2 & H3 & H4 & Hfloor & Hsat).
    cbv zeta.
    split; [change (1.0 <= JsA.maxM (JsA.mix m)) in Hk; lra|].
    split; [exact H1|]. split; [exact H2|]. split; [exact H3|].
    split; [exact H4|]. split.
    + intros A1 A2 A3 A4.
      assert (E : JsA.maxM (JsA.mix m) == 1.0) by (apply Hfloor; lra).
      lra.
    + intros Hgt. apply Hsat. change (1.0 < JsA.maxM (JsA.mix m)). lra.
  - unfold JsB.wheels, JsA.wheels, JsB.maxVal, JsA.maxM, JsB.mix, JsA.mix.
    reflexivity.
  - destruct (scaled_by_max5 (TS.w1_FR m) (TS.w2_FL m) (TS.w3_RL m)
                (TS.w4_RR m) 10.0 ltac:(lra))
      as (Hk & H1 & H2 & H3 & H4 & Hfloor & Hsat).
    cbv zeta.
    split; [change (10.0 <= TS.maxVel m) in Hk; lra|].
    split; [exact H1|]. split; [exact H2|]. split; [exact H3|].
    split; [exact H4|]. split.
    + intros A1 A2 A3 A4.
      assert (E : TS.maxVel m == 10.0) by (apply Hfloor; lra).
      lra.
    + intros Hgt. apply Hsat. change (10.0 < TS.maxVel m). lra.
Qed.

Lemma normalisation_is_a_common_scaling_witness :
  Qabs (fl (JsA.mix (mkMotion 0.8 0 0))) <= 1
  /\ JsA.maxM (JsA.mix (mkMotion 0.8 0 0)) == 1.
Proof.
  assert (H : forall x, x == 0.8 + 0 + 0 \/ x == 0.8 - 0 - 0
                        \/ x == 0.8 - 0 + 0 \/ x == 0.8 + 0 - 0 ->
                        Qabs x <= 1)
    by (intros x Hx; apply abs_le; lra).
  destruct (normalisation_is_a_common_scaling (mkMotion 0.8 0 0))
    as [(_ & _ & _ & _ & _ & Hone & _) _].
  split.
  - apply H. left. reflexivity.
  - apply Hone; apply H; cbn; auto using Qeq_refl.
Defined.

(* ------------------------------------------------------------------ *)
(** * The rotation display of the second [main.js] *)

Lemma JsB_yaw_times_scale (m : Motion) :
  Direction.yawMoment (JsB.wheels m) * JsB.maxVal (JsB.mix m) == 4 * turn m
  /\ 1 <= JsB.maxVal (JsB.mix m).
Proof.
  pose proof (scaled_by_max5 (fl (JsB.mix m)) (fr (JsB.mix m))
                (rl (JsB.mix m)) (rr (JsB.mix m)) 1.0 ltac:(lra)) as H.
  unfold Direction.yawMoment, JsB.wheels, JsB.maxVal, Js.Math_abs.
  cbv zeta in *. cbn [fl fr rl rr].
  set (k := Math_max5 _ _ _ _ _) in *.
  destruct H as (Hk & H1 & H2 & H3 & H4 & _).
  split; [|lra].
  assert (E : forall a b c d,
             (a / k + c / k - (b / k + d / k)) * k
             == a / k * k + c / k * k - (b / k * k + d / k * k))
    by (intros; ring).
  rewrite E, H1, H2, H3, H4. unfold JsB.mix. cbn [fl fr rl rr]. ring.
Qed.

(** X8.  In the second [main.js] the yaw moment is [4 * turn / maxVal]: it
    has the sign of the turn command.  When the central icon is in
    rotation mode, [rotate-left] goes with a positive turn and with the
    CW indicator lit, [rotate-right] with a negative turn and the CCW
    indicator lit; the two indicators are never lit together. *)
Theorem rotation_icon_and_indicators (Math_sqrt : Q -> Q) (m : Motion) :
  Direction.yawMoment (JsB.wheels m) * JsB.maxVal (JsB.mix m) == 4 * turn m
  /\ (Direction.resIcon Math_sqrt m = "bx bx-rotate-left"%string ->
      0 < turn m
      /\ Direction.rotIndicators m = Direction.mkIndicators true false)
  /\ (Direction.resIcon Math_sqrt m = "bx bx-rotate-right"%string ->
      turn m < 0
      /\ Direction.rotIndicators m = Direction.mkIndicators false true)
  /\ (Direction.active_cw (Direction.rotIndicators m) = true -> 0 < turn m)
  /\ (Direction.active_ccw (Direction.rotIndicators m) = true -> turn m < 0)
  /\ Direction.active_cw (Direction.rotIndicators m)
     && Direction.active_ccw (Direction.rotIndicators m) = false.
Proof.
  destruct (JsB_yaw_times_scale m) as [Hy Hk].
  set (ym := Direction.yawMoment (JsB.wheels m)) in *.
  set (k := JsB.maxVal (JsB.mix m)) in *.
  assert (Hpos : 0 < ym -> 0 < turn m) by (intros; nra).
  assert (Hneg : ym < 0 -> turn m < 0) by (intros; nra).
  assert (Hind : (0.5 < ym ->
                  Direction.rotIndicators m
                  = Direction.mkIndicators true false)
                 /\ (ym < - 0.5 ->
                     Direction.rotIndicators m
                     = Direction.mkIndicators false true)
                 /\ (Direction.active_cw (Direction.rotIndicators m) = true ->
                     0.5 < ym)
                 /\ (Direction.active_ccw (Direction.rotIndicators m) = true ->
                     ym < - 0.5)
                 /\ Direction.active_cw (Direction.rotIndicators m)
                    && Direction.active_ccw (Direction.rotIndicators m)
                    = false).
  { unfold Direction.rotIndicators, Direction.turnThreshold. cbv zeta.
    fold ym.
    destruct (Js.ltb 0.5 ym) eqn:Ecw;
      [apply ltb_true_iff in Ecw | apply ltb_false_iff in Ecw].
    - splits; cbn [Direction.active_cw Direction.active_ccw andb]; intros;
        first [reflexivity | congruence | lra | (exfalso; lra)].
    - destruct (Js.ltb ym (- (0.5))) eqn:Eccw;
        [apply ltb_true_iff in Eccw | apply ltb_false_iff in Eccw];
        splits; cbn [Direction.active_cw Direction.active_ccw andb]; intros;
        first [reflexivity | congruence | lra | (exfalso; lra)]. }
  destruct Hind as (I1 & I2 & I3 & I4 & I5).
  assert (Hicon : (Direction.resIcon Math_sqrt m = "bx bx-rotate-left"%string
                   -> 0.5 < ym)
                  /\ (Direction.resIcon Math_sqrt m
                      = "bx bx-rotate-right"%string -> ym < - 0.5)).
  { unfold Direction.resIcon, Direction.turnThreshold, Js.Math_abs.
    cbv zeta. fold ym.
    destruct (Js.ltb 0.5 (Qabs ym)) eqn:Ea;
      [apply ltb_true_iff in Ea | split; discriminate].
    destruct (Js.ltb (Direction.magnitude Math_sqrt m) 0.3);
      [|split; discriminate].
    cbn [andb].
    destruct (Js.ltb 0 ym) eqn:E0;
      [apply ltb_true_iff in E0 | apply ltb_false_iff in E0].
    - split; [|discriminate]. intros _.
      rewrite Qabs_pos in Ea by lra. exact Ea.
    - split; [discriminate|]. intros _.
      rewrite Qabs_neg in Ea by exact E0. lra. }
  destruct Hicon as [L R].
  split; [exact Hy|].
  split; [intros Hi; pose proof (L Hi); split; [apply Hpos; lra | auto]|].
  split; [intros Hi; pose proof (R Hi); split; [apply Hneg; lra | auto]|].
  split; [intros Hi; pose proof (I3 Hi); apply Hpos; lra|].
  split; [intros Hi; pose proof (I4 Hi); apply Hneg; lra|].
  exact I5.
Qed.

Lemma rotation_icon_and_indicators_witness :
  Direction.resIcon Examples.flat (mkMotion 0 0 0.9)
  = "bx bx-rotate-left"%string
  /\ Direction.rotIndicators (mkMotion 0 0 0.9)
     = Direction.mkIndicators true false.
Proof.
  assert (H : Direction.resIcon Examples.flat (mkMotion 0 0 0.9)
              = "bx bx-rotate-left"%string) by (vm_compute; reflexivity).
  destruct (rotation_icon_and_indicators Examples.flat (mkMotion 0 0 0.9))
    as (_ & Hl & _).
  split; [exact H | apply Hl; exact H].
Defined.

(* ------------------------------------------------------------------ *)
(** * Colour parsing *)

Lemma hexDigit_chars (c : ascii) (v : Z) :
  Colour.hexDigit c = Some v -> In c Colour.hexChars /\ (0 <= v < 16)%Z.
Proof.
  destruct c as [[] [] [] [] [] [] [] []]; intros H; vm_compute in H;
    try discriminate H; injection H as <-;
    (split; [simpl; repeat (first [left; reflexivity | right]) | lia]).
Qed.

(** [parseInt] of two hexadecimal digits. *)
Lemma parseInt16_two_digits (a b : ascii) (va vb : Z) :
  Colour.hexDigit a = Some va -> Colour.hexDigit b = Some vb ->
  Colour.parseInt16 (String a (String b EmptyString))
  = Some (16 * va + vb)%Z.
Proof.
  intros Ha Hb.
  assert (Hall :
    forallb (fun x =>
      forallb (fun y =>
        match Colour.hexDigit x, Colour.hexDigit y with
        | Some vx, Some vy =>
            match Colour.parseInt16 (String x (String y EmptyString)) with
            | Some n => (n =? 16 * vx + vy)%Z
            | None => false
            end
        | _, _ => true
        end) Colour.hexChars) Colour.hexChars = true)
    by (vm_compute; reflexivity).
  rewrite forallb_forall in Hall.
  specialize (Hall a (proj1 (hexDigit_chars a va Ha))).
  rewrite forallb_forall in Hall.
  specialize (Hall b (proj1 (hexDigit_chars b vb Hb))).
  rewrite Ha, Hb in Hall.
  destruct (Colour.parseInt16 _) as [n|]; [|discriminate].
  apply Z.eqb_eq in Hall. now subst.
Qed.

(** X9.  [createGradient] reads a three-digit colour as its six-digit
    expansion: for hexadecimal digits [a], [b], [c] the components of
    [#abc] are those of [#aabbcc], namely 17 times each digit, and a
    six-digit colour gives [16 * high + low] per pair; every component is
    in 0..255.  A string of any other length gives black, and the first
    character is never looked at. *)
Theorem createGradient_components
    (a b c d e f : ascii) (va vb vc vd ve vf : Z) :
  Colour.hexDigit a = Some va -> Colour.hexDigit b = Some vb ->
  Colour.hexDigit c = Some vc -> Colour.hexDigit d = Some vd ->
  Colour.hexDigit e = Some ve -> Colour.hexDigit f = Some vf ->
  let short := String "#" (String a (String b (String c EmptyString))) in
  let doubled :=
    String "#" (String a (String a (String b (String b
      (String c (String c EmptyString)))))) in
  let long :=
    String "#" (String a (String b (String c (String d
      (String e (String f EmptyString)))))) in
  Colour.rgbOf short
  = Colour.mkRgb (Some (17 * va)%Z) (Some (17 * vb)%Z) (Some (17 * vc)%Z)
  /\ Colour.rgbOf doubled = Colour.rgbOf short
  /\ Colour.rgbOf long
     = Colour.mkRgb (Some (16 * va + vb)%Z) (Some (16 * vc + vd)%Z)
                    (Some (16 * ve + vf)%Z)
  /\ (0 <= 16 * va + vb <= 255)%Z /\ (0 <= 16 * vc + vd <= 255)%Z
  /\ (0 <= 16 * ve + vf <= 255)%Z
  /\ (forall s, String.length s <> 4%nat -> String.length s <> 7%nat ->
        Colour.rgbOf s = Colour.mkRgb (Some 0%Z) (Some 0%Z) (Some 0%Z))
  /\ (forall c0 c1 rest,
        Colour.rgbOf (String c0 rest) = Colour.rgbOf (String c1 rest)).
Proof.
  intros Ha Hb Hc Hd He Hf short doubled long.
  destruct (hexDigit_chars a va Ha) as [_ Ba].
  destruct (hexDigit_chars b vb Hb) as [_ Bb].
  destruct (hexDigit_chars c vc Hc) as [_ Bc].
  destruct (hexDigit_chars d vd Hd) as [_ Bd].
  destruct (hexDigit_chars e ve He) as [_ Be].
  destruct (hexDigit_chars f vf Hf) as [_ Bf].
  assert (Es : Colour.rgbOf short
               = Colour.mkRgb (Some (17 * va)%Z) (Some (17 * vb)%Z)
                              (Some (17 * vc)%Z)).
  { transitivity
      (Colour.mkRgb (Colour.parseInt16 (String a (String a EmptyString)))
                    (Colour.parseInt16 (String b (String b EmptyString)))
                    (Colour.parseInt16 (String c (String c EmptyString))));
      [reflexivity|].
    rewrite (parseInt16_two_digits a a va va Ha Ha),
      (parseInt16_two_digits b b vb vb Hb Hb),
      (parseInt16_two_digits c c vc vc Hc Hc).
    f_equal; (f_equal; lia). }
  split; [exact Es|]. split; [|split; [|split; [|split; [|split; [|split]]]]].
  - rewrite Es.
    transitivity
      (Colour.mkRgb (Colour.parseInt16 (String a (String a EmptyString)))
                    (Colour.parseInt16 (String b (String b EmptyString)))
                    (Colour.parseInt16 (String c (String c EmptyString))));
      [reflexivity|].
    rewrite (parseInt16_two_digits a a va va Ha Ha),
      (parseInt16_two_digits b b vb vb Hb Hb),
      (parseInt16_two_digits c c vc vc Hc Hc).
    f_equal; (f_equal; lia).
  - transitivity
      (Colour.mkRgb (Colour.parseInt16 (String a (String b EmptyString)))
                    (Colour.parseInt16 (String c (String d EmptyString)))
                    (Colour.parseInt16 (String e (String f EmptyString))));
      [reflexivity|].
    rewrite (parseInt16_two_digits a b va vb Ha Hb),
      (parseInt16_two_digits c d vc vd Hc Hd),
      (parseInt16_two_digits e f ve vf He Hf).
    reflexivity.
  - lia.
  - lia.
  - lia.
  - intros s H4 H7. unfold Colour.rgbOf.
    destruct (Nat.eqb_spec (String.length s) 4); [contradiction|].
    destruct (Nat.eqb_spec (String.length s) 7); [contradiction|].
    reflexivity.
  - intros c0 c1 rest. unfold Colour.rgbOf. reflexivity.
Qed.

Lemma createGradient_components_witness :
  Colour.hexDigit "F" = Some 15%Z /\ Colour.hexDigit "6" = Some 6%Z
  /\ Colour.rgbOf "#FF6B9C"
     = Colour.mkRgb (Some 255%Z) (Some 107%Z) (Some 156%Z).
Proof.
  assert (HF : Colour.hexDigit "F" = Some 15%Z) by reflexivity.
  assert (H6 : Colour.hexDigit "6" = Some 6%Z) by reflexivity.
  assert (HB : Colour.hexDigit "B" = Some 11%Z) by reflexivity.
  assert (H9 : Colour.hexDigit "9" = Some 9%Z) by reflexivity.
  assert (HC : Colour.hexDigit "C" = Some 12%Z) by reflexivity.
  destruct (createGradient_components "F" "F" "6" "B" "9" "C" 15 15 6 11 9 12
              HF HF H6 HB H9 HC) as (_ & _ & Hl & _).
  split; [exact HF|]. split; [exact H6|]. exact Hl.
Defined.

Lemma isHexDigit_value (c : ascii) :
  Colour.isHexDigit c = true -> exists v, Colour.hexDigit c = Some v.
Proof.
  unfold Colour.isHexDigit. destruct (Colour.hexDigit c) as [v|];
    [eauto | discriminate].
Qed.

Lemma hexValue_six (a b c d e f : ascii) (va vb vc vd ve vf : Z) :
  Colour.hexDigit a = Some va -> Colour.hexDigit b = Some vb ->
  Colour.hexDigit c = Some vc -> Colour.hexDigit d = Some vd ->
  Colour.hexDigit e = Some ve -> Colour.hexDigit f = Some vf ->
  Colour.ToNumber0x [a; b; c; d; e; f]
  = Some (16 * (16 * (16 * (16 * (16 * (16 * 0 + va) + vb) + vc) + vd) + ve)
          + vf)%Z.
Proof.
  intros Ha Hb Hc Hd He Hf. unfold Colour.ToNumber0x.
  cbn [Colour.hexValue]. rewrite Ha. cbn [Colour.hexValue]. rewrite Hb.
  cbn [Colour.hexValue]. rewrite Hc. cbn [Colour.hexValue]. rewrite Hd.
  cbn [Colour.hexValue]. rewrite He. cbn [Colour.hexValue]. rewrite Hf.
  reflexivity.
Qed.

(** The three bytes of a six-digit number, by shift and mask. *)
Lemma hex_bytes (va vb vc vd ve vf : Z) :
  (0 <= va < 16)%Z -> (0 <= vb < 16)%Z -> (0 <= vc < 16)%Z ->
  (0 <= vd < 16)%Z -> (0 <= ve < 16)%Z -> (0 <= vf < 16)%Z ->
  let n :=
    Colour.ToInt32
      (Some (16 * (16 * (16 * (16 * (16 * (16 * 0 + va) + vb) + vc) + vd)
             + ve) + vf)%Z) in
  Z.land (Z.shiftr n 16) 255 = (16 * va + vb)%Z
  /\ Z.land (Z.shiftr n 8) 255 = (16 * vc + vd)%Z
  /\ Z.land n 255 = (16 * ve + vf)%Z.
Proof.
  intros Ba Bb Bc Bd Be Bf n.
  assert (En : n = (1048576 * va + 65536 * vb + 4096 * vc + 256 * vd
                    + 16 * ve + vf)%Z).
  { subst n. unfold Colour.ToInt32.
    change (2 ^ 31)%Z with 2147483648%Z.
    change (2 ^ 32)%Z with 4294967296%Z.
    rewrite Z.mod_small by lia. lia. }
  rewrite En. clear En n.
  change 255%Z with (Z.ones 8).
  rewrite !Z.land_ones by lia. rewrite !Z.shiftr_div_pow2 by lia.
  change (2 ^ 16)%Z with 65536%Z. change (2 ^ 8)%Z with 256%Z.
  splits; Z.to_euclidean_division_equations; lia.
Qed.

(** X10.  On a colour the pattern accepts ([#] and three or six
    hexadecimal digits) [hexToRgba] yields the very components that
    [createGradient] computes, each in 0..255, with the given alpha; any
    other string is returned as it is. *)
Theorem hexToRgba_agrees_with_createGradient (hex : string) (alpha : Q) :
  (Colour.isHexColor hex = true ->
     exists r g b,
       Colour.hexToRgba hex alpha = Colour.Rgba r g b alpha
       /\ Colour.rgbOf hex = Colour.mkRgb (Some r) (Some g) (Some b)
       /\ (0 <= r <= 255)%Z /\ (0 <= g <= 255)%Z /\ (0 <= b <= 255)%Z)
  /\ (Colour.isHexColor hex = false ->
      Colour.hexToRgba hex alpha = Colour.Literal hex).
Proof.
  split.
  - intros H. unfold Colour.hexToRgba. rewrite H.
    destruct hex as [|c0 rest]; [discriminate|].
    unfold Colour.isHexColor in H.
    apply andb_true_iff in H. destruct H as [H Hd].
    apply andb_true_iff in H. destruct H as [H0 Hl].
    apply Ascii.eqb_eq in H0. subst c0.
    destruct rest as [|a [|b [|c [|d [|e [|f [|g rest]]]]]]];
      try discriminate Hl.
    + (* three digits *)
      cbn in Hd.
      repeat (apply andb_true_iff in Hd; destruct Hd as [? Hd]).
      destruct (isHexDigit_value a) as [va Ha]; [assumption|].
      destruct (isHexDigit_value b) as [vb Hb]; [assumption|].
      destruct (isHexDigit_value c) as [vc Hc]; [assumption|].
      destruct (hexDigit_chars a va Ha) as [_ Ba].
      destruct (hexDigit_chars b vb Hb) as [_ Bb].
      destruct (hexDigit_chars c vc Hc) as [_ Bc].
      change (list_ascii_of_string
                (substring 1
                   (String.length
                      (String "#" (String a (String b (String c EmptyString))))
                    - 1)
                   (String "#" (String a (String b (String c EmptyString))))))
        with [a; b; c].
      cbv iota. rewrite (hexValue_six a a b b c c va va vb vb vc vc)
        by assumption.
      destruct (hex_bytes va va vb vb vc vc Ba Ba Bb Bb Bc Bc)
        as (E1 & E2 & E3).
      cbv zeta in E1, E2, E3. rewrite E1, E2, E3.
      exists (16 * va + va)%Z, (16 * vb + vb)%Z, (16 * vc + vc)%Z.
      split; [reflexivity|]. split; [|lia].
      transitivity
        (Colour.mkRgb (Colour.parseInt16 (String a (String a EmptyString)))
                      (Colour.parseInt16 (String b (String b EmptyString)))
                      (Colour.parseInt16 (String c (String c EmptyString))));
        [reflexivity|].
      now rewrite (parseInt16_two_digits a a va va Ha Ha),
        (parseInt16_two_digits b b vb vb Hb Hb),
        (parseInt16_two_digits c c vc vc Hc Hc).
    + (* six digits *)
      cbn in Hd.
      repeat (apply andb_true_iff in Hd; destruct Hd as [? Hd]).
      destruct (isHexDigit_value a) as [va Ha]; [assumption|].
      destruct (isHexDigit_value b) as [vb Hb]; [assumption|].
      destruct (isHexDigit_value c) as [vc Hc]; [assumption|].
      destruct (isHexDigit_value d) as [vd Hd']; [assumption|].
      destruct (isHexDigit_value e) as [ve He]; [assumption|].
      destruct (isHexDigit_value f) as [vf Hf]; [assumption|].
      destruct (hexDigit_chars a va Ha) as [_ Ba].
      destruct (hexDigit_chars b vb Hb) as [_ Bb].
      destruct (hexDigit_chars c vc Hc) as [_ Bc].
      destruct (hexDigit_chars d vd Hd') as [_ Bd].
      destruct (hexDigit_chars e ve He) as [_ Be].
      destruct (hexDigit_chars f vf Hf) as [_ Bf].
      change (list_ascii_of_string
                (substring 1
                   (String.length
                      (String "#" (String a (String b (String c (String d
                         (String e (String f EmptyString)))))))
                    - 1)
                   (String "#" (String a (String b (String c (String d
                      (String e (String f EmptyString)))))))))
        with [a; b; c; d; e; f].
      cbv iota. rewrite (hexValue_six a b c d e f va vb vc vd ve vf)
        by assumption.
      destruct (hex_bytes va vb vc vd ve vf Ba Bb Bc Bd Be Bf)
        as (E1 & E2 & E3).
      cbv zeta in E1, E2, E3. rewrite E1, E2, E3.
      exists (16 * va + vb)%Z, (16 * vc + vd)%Z, (16 * ve + vf)%Z.
      split; [reflexivity|]. split; [|lia].
      transitivity
        (Colour.mkRgb (Colour.parseInt16 (String a (String b EmptyString)))
                      (Colour.parseInt16 (String c (String d EmptyString)))
                      (Colour.parseInt16 (String e (String f EmptyString))));
        [reflexivity|].
      now rewrite (parseInt16_two_digits a b va vb Ha Hb),
        (parseInt16_two_digits c d vc vd Hc Hd'),
        (parseInt16_two_digits e f ve vf He Hf).
  - intros H. unfold Colour.hexToRgba. rewrite H. reflexivity.
Qed.

Lemma hexToRgba_agrees_with_createGradient_witness :
  Colour.isHexColor "#4ADE80" = true
  /\ Colour.isHexColor "rgba(255, 107, 156, 0.1)" = false
  /\ Colour.hexToRgba "#4ADE80" 0.4 = Colour.Rgba 74 222 128 0.4
  /\ Colour.hexToRgba "rgba(255, 107, 156, 0.1)" 0.4
     = Colour.Literal "rgba(255, 107, 156, 0.1)".
Proof.
  assert (H1 : Colour.isHexColor "#4ADE80" = true) by reflexivity.
  assert (H2 : Colour.isHexColor "rgba(255, 107, 156, 0.1)" = false)
    by reflexivity.
  destruct (hexToRgba_agrees_with_createGradient "#4ADE80" 0.4) as [Hy _].
  destruct (hexToRgba_agrees_with_createGradient
              "rgba(255, 107, 156, 0.1)" 0.4) as [_ Hn].
  destruct (Hy H1) as (r & g & b & E & _).
  split; [exact H1|]. split; [exact H2|].
  split; [reflexivity | exact (Hn H2)].
Defined.

(* ------------------------------------------------------------------ *)
(** ** The confirmation dialog and the Start and Reset buttons *)

Lemma click_consistent (dom : Dialog.Dom) (u : Dialog.Ui) (c : Dialog.Click) :
  Dialog.consistent u ->
  (Dialog.has_modal dom = false -> Dialog.pendingAction u = None) ->
  Dialog.consistent (Dialog.click dom u c)
  /\ (Dialog.has_modal dom = false ->
      Dialog.pendingAction (Dialog.click dom u c) = None).
Proof.
  intros (Hs & Ht & Hp) Hm.
  destruct u as [run pend shown title msg text stopped lg].
  cbn [Dialog.isRunning Dialog.pendingAction Dialog.btnStartText
       Dialog.btnStartStopped] in *.
  destruct dom as [m t g].
  cbn [Dialog.has_modal] in *.
  unfold Dialog.consistent.
  destruct c; cbn [Dialog.click];
    unfold Dialog.showConfirmation, Dialog.closeConfirmation, Dialog.runAction;
    cbn [Dialog.has_modal Dialog.has_title Dialog.has_message
         Dialog.isRunning Dialog.pendingAction Dialog.btnStartText
         Dialog.btnStartStopped Dialog.modalShown Dialog.modalTitle
         Dialog.modalMessage Dialog.log];
    destruct m; [| rewrite (Hm eq_refl) in * | | rewrite (Hm eq_refl) in *
                 | | rewrite (Hm eq_refl) in * | | rewrite (Hm eq_refl) in *];
    destruct run, t, g;
    try (destruct pend as [[| |]|]);
    cbn [andb Dialog.isRunning Dialog.pendingAction Dialog.btnStartText
         Dialog.btnStartStopped];
    subst; (split; [splits|]);
    first [reflexivity | exact I | assumption | discriminate
          | (intros; reflexivity) | (intros; discriminate) | congruence].
Qed.

(** X11.  Whatever is clicked, in whatever order, the Start button keeps
    telling the truth: its label is [Stop Program] and it carries the
    [stopped] class exactly while the program runs, and a pending closure
    that would start (stop) the program only waits while the program is
    stopped (running). *)
Theorem dialog_keeps_button_consistent
    (dom : Dialog.Dom) (cs : list Dialog.Click) (u : Dialog.Ui) :
  Dialog.consistent u ->
  (Dialog.has_modal dom = false -> Dialog.pendingAction u = None) ->
  Dialog.consistent (Dialog.clicks dom cs u).
Proof.
  unfold Dialog.clicks. revert u.
  induction cs as [|c cs IH]; intros u Hc Hm; [exact Hc|].
  cbn [fold_left].
  destruct (click_consistent dom u c Hc Hm) as [Hc' Hm'].
  exact (IH _ Hc' Hm').
Qed.

Lemma dialog_keeps_button_consistent_witness :
  Dialog.consistent
    (Dialog.clicks Dialog.fullDom
       [Dialog.ClickStart; Dialog.ClickConfirm; Dialog.ClickReset;
        Dialog.ClickStart; Dialog.ClickConfirm]
       MoreExamples.stopped).
Proof.
  apply dialog_keeps_button_consistent.
  - unfold Dialog.consistent. splits; [reflexivity | reflexivity | exact I].
  - intros _. reflexivity.
Defined.

(** X12.  Only the Confirm button acts: a sequence of clicks without a
    Confirm leaves the running flag, the Start button and the console log
    as they were, however often Start, Reset and Cancel are clicked. *)
Theorem only_confirm_acts
    (dom : Dialog.Dom) (cs : list Dialog.Click) (u : Dialog.Ui) :
  ~ In Dialog.ClickConfirm cs ->
  let u' := Dialog.clicks dom cs u in
  Dialog.isRunning u' = Dialog.isRunning u
  /\ Dialog.btnStartText u' = Dialog.btnStartText u
  /\ Dialog.btnStartStopped u' = Dialog.btnStartStopped u
  /\ Dialog.log u' = Dialog.log u.
Proof.
  unfold Dialog.clicks. revert u.
  induction cs as [|c cs IH]; intros u Hn; cbn [fold_left].
  - splits; reflexivity.
  - assert (Hc : c <> Dialog.ClickConfirm)
      by (intros E; apply Hn; left; exact E).
    assert (Hn' : ~ In Dialog.ClickConfirm cs)
      by (intros E; apply Hn; right; exact E).
    specialize (IH (Dialog.click dom u c) Hn').
    cbv zeta in IH. destruct IH as (I1 & I2 & I3 & I4).
    cbv zeta. rewrite I1, I2, I3, I4. clear I1 I2 I3 I4.
    destruct u as [run pend shown title msg text stopped lg].
    destruct c; [| | | congruence]; cbn [Dialog.click];
      unfold Dialog.showConfirmation, Dialog.closeConfirmation;
      cbn [Dialog.isRunning];
      repeat match goal with
             | |- context [if ?b then _ else _] => destruct b
             end;
      splits; reflexivity.
Qed.

Lemma only_confirm_acts_witness :
  Dialog.isRunning
    (Dialog.clicks Dialog.fullDom
       [Dialog.ClickStart; Dialog.ClickCancel; Dialog.ClickReset]
       MoreExamples.stopped) = false.
Proof.
  refine (proj1 (only_confirm_acts Dialog.fullDom
                   [Dialog.ClickStart; Dialog.ClickCancel; Dialog.ClickReset]
                   MoreExamples.stopped _)).
  intros [E | [E | [E | []]]]; discriminate E.
Defined.

(** X13.  On a page that has the dialog, Start followed by Confirm
    toggles the program, whatever was clicked or pending before: the
    running flag flips, the button takes the opposite label, one line is
    logged, and the dialog is closed with nothing pending. *)
Theorem start_then_confirm_toggles
    (dom : Dialog.Dom) (u : Dialog.Ui) :
  Dialog.has_modal dom = true -> Dialog.has_title dom = true ->
  Dialog.has_message dom = true ->
  let u' := Dialog.clicks dom [Dialog.ClickStart; Dialog.ClickConfirm] u in
  Dialog.isRunning u' = negb (Dialog.isRunning u)
  /\ Dialog.btnStartStopped u' = negb (Dialog.isRunning u)
  /\ Dialog.btnStartText u'
     = (if Dialog.isRunning u then "Start Program" else "Stop Program")%string
  /\ Dialog.log u'
     = Dialog.log u
       ++ [(if Dialog.isRunning u then "Program Stopped"
            else "Program Started")%string]
  /\ Dialog.pendingAction u' = None
  /\ Dialog.modalShown u' = false.
Proof.
  intros Hm Ht Hg.
  unfold Dialog.clicks. cbn [fold_left Dialog.click].
  unfold Dialog.showConfirmation. rewrite Hm, Ht, Hg. cbn [andb].
  destruct (Dialog.isRunning u) eqn:Hr;
    cbn [Dialog.pendingAction Dialog.runAction];
    unfold Dialog.closeConfirmation; rewrite Hm;
    cbn [Dialog.isRunning Dialog.pendingAction Dialog.btnStartText
         Dialog.btnStartStopped Dialog.modalShown Dialog.log negb];
    splits; reflexivity.
Qed.

Lemma start_then_confirm_toggles_witness :
  Dialog.isRunning
    (Dialog.clicks Dialog.fullDom [Dialog.ClickStart; Dialog.ClickConfirm]
       MoreExamples.stopped) = true.
Proof.
  exact (proj1 (start_then_confirm_toggles Dialog.fullDom MoreExamples.stopped
                  eq_refl eq_refl eq_refl)).
Defined.

(** X14.  In [main.ts], whose [showConfirmation] tests the modal, the
    title and the message element, a page that lacks one of the three
    never opens the dialog, so from a state with nothing pending no
    sequence of clicks changes anything: the program can be neither
    started nor stopped.  (The two [main.js] test the modal alone and are
    not covered.) *)
Theorem incomplete_dialog_is_inert
    (dom : Dialog.Dom) (cs : list Dialog.Click) (u : Dialog.Ui) :
  Dialog.has_modal dom && Dialog.has_title dom && Dialog.has_message dom
  = false ->
  Dialog.pendingAction u = None -> Dialog.modalShown u = false ->
  Dialog.clicks dom cs u = u.
Proof.
  intros Hd Hp Hs. unfold Dialog.clicks.
  induction cs as [|c cs IH]; cbn [fold_left]; [reflexivity|].
  assert (E : Dialog.click dom u c = u).
  { destruct c; cbn [Dialog.click]; unfold Dialog.showConfirmation;
      rewrite ?Hd, ?Hp; try (destruct (Dialog.isRunning u); reflexivity);
      try reflexivity;
      unfold Dialog.closeConfirmation;
      destruct (Dialog.has_modal dom); try reflexivity;
      destruct u; cbn in Hp, Hs |- *; now subst. }
  rewrite E. exact IH.
Qed.

Lemma incomplete_dialog_is_inert_witness :
  Dialog.clicks (Dialog.mkDom true false true)
    [Dialog.ClickStart; Dialog.ClickConfirm] MoreExamples.stopped
  = MoreExamples.stopped.
Proof.
  exact (incomplete_dialog_is_inert (Dialog.mkDom true false true)
           [Dialog.ClickStart; Dialog.ClickConfirm] MoreExamples.stopped
           eq_refl eq_refl eq_refl).
Defined.

(* ------------------------------------------------------------------ *)
(** ** The dense-series generator and the initial chart data *)

Lemma walk_draws (n : nat) (min max val : Q) (g : Rng.t) :
  snd (walk n min max val g) = Rng.mk (Rng.tape g) (Rng.pos g + 2 * n).
Proof.
  revert val g. induction n as [|n IH]; intros val g.
  - cbn [walk snd]. destruct g as [tp ps]. cbn [Rng.tape Rng.pos].
    f_equal. lia.
  - cbn [walk]. unfold Rng.Math_random. cbn [Rng.tape Rng.pos].
    set (val' := walkStep min max val _ _).
    set (g2 := Rng.mk _ _).
    specialize (IH val' g2).
    destruct (walk n min max val' g2) as [rest g'].
    cbn [snd] in *. rewrite IH. subst g2. cbn [Rng.tape Rng.pos].
    f_equal. lia.
Qed.

Lemma generateDenseData_snd (points : Z) (min max : Q)
    (initialValue : option Q) (g : Rng.t) :
  snd (generateDenseData points min max initialValue g)
  = Rng.mk (Rng.tape g) (Rng.pos g + 2 * Z.to_nat points).
Proof. unfold generateDenseData. apply walk_draws. Qed.

Lemma createModeData_snd (min max : Q) (a b c : ValueRange) (g : Rng.t) :
  snd (createModeData min max a b c g)
  = Rng.mk (Rng.tape g) (Rng.pos g + 290).
Proof.
  unfold createModeData.
  pose proof (generateDenseData_snd 60 (vr_min a) (vr_max a)
                (Some (vr_init a)) g) as H1.
  destruct (generateDenseData 60 (vr_min a) _ _ g) as [sec g1].
  cbn [snd] in H1. subst g1.
  pose proof (generateDenseData_snd 60 (vr_min b) (vr_max b)
                (Some (vr_init b))
                (Rng.mk (Rng.tape g) (Rng.pos g + 2 * Z.to_nat 60))) as H2.
  destruct (generateDenseData 60 (vr_min b) _ _ _) as [mi g2].
  cbn [snd Rng.tape Rng.pos] in H2. subst g2.
  pose proof (generateDenseData_snd 25 (vr_min c) (vr_max c)
                (Some (vr_init c))
                (Rng.mk (Rng.tape g)
                   (Rng.pos g + 2 * Z.to_nat 60 + 2 * Z.to_nat 60))) as H3.
  destruct (generateDenseData 25 (vr_min c) _ _ _) as [ho g3].
  cbn [snd Rng.tape Rng.pos] in H3. subst g3.
  cbn [snd]. f_equal.
  change (Z.to_nat 60) with 60%nat. change (Z.to_nat 25) with 25%nat. lia.
Qed.

Lemma torqueDatasets_snd (points : Z) (a b c d : ValueRange) (g : Rng.t) :
  snd (torqueDatasets points a b c d g)
  = Rng.mk (Rng.tape g) (Rng.pos g + 8 * Z.to_nat points).
Proof.
  unfold torqueDatasets.
  pose proof (generateDenseData_snd points (vr_min a) (vr_max a)
                (Some (vr_init a)) g) as H1.
  destruct (generateDenseData points (vr_min a) _ _ g) as [x1 g1].
  cbn [snd] in H1. subst g1.
  pose proof (generateDenseData_snd points (vr_min b) (vr_max b)
                (Some (vr_init b))
                (Rng.mk (Rng.tape g) (Rng.pos g + 2 * Z.to_nat points)))
    as H2.
  destruct (generateDenseData points (vr_min b) _ _ _) as [x2 g2].
  cbn [snd Rng.tape Rng.pos] in H2. subst g2.
  pose proof (generateDenseData_snd points (vr_min c) (vr_max c)
                (Some (vr_init c))
                (Rng.mk (Rng.tape g)
                   (Rng.pos g + 2 * Z.to_nat points + 2 * Z.to_nat points)))
    as H3.
  destruct (generateDenseData points (vr_min c) _ _ _) as [x3 g3].
  cbn [snd Rng.tape Rng.pos] in H3. subst g3.
  pose proof (generateDenseData_snd points (vr_min d) (vr_max d)
                (Some (vr_init d))
                (Rng.mk (Rng.tape g)
                   (Rng.pos g + 2 * Z.to_nat points + 2 * Z.to_nat points
                    + 2 * Z.to_nat points)))
    as H4.
  destruct (generateDenseData points (vr_min d) _ _ _) as [x4 g4].
  cbn [snd Rng.tape Rng.pos] in H4. subst g4.
  cbn [snd]. f_equal. lia.
Qed.

(** X15.  The generator calls [Math.random()] exactly twice per point,
    whatever the bounds and the values drawn, and building [chartData]
    (nine single-line series and twelve wheel series, 1015 points) makes
    exactly 2030 calls. *)
Theorem generator_draw_count (g : Rng.t) :
  (forall points min max initialValue,
     snd (generateDenseData points min max initialValue g)
     = Rng.mk (Rng.tape g) (Rng.pos g + 2 * Z.to_nat points))
  /\ snd (initialChartData g) = Rng.mk (Rng.tape g) (Rng.pos g + 2030).
Proof.
  split; [intros; apply generateDenseData_snd|].
  unfold initialChartData.
  pose proof (createModeData_snd 0 400 (mkVR 240 290 264)
                (mkVR 255 275 260) (mkVR 240 290 265) g) as Hp.
  destruct (createModeData 0 400 _ _ _ g) as [p g1].
  cbn [snd] in Hp. subst g1.
  match goal with |- context [createModeData 20 24 ?a ?b ?c ?h] =>
    pose proof (createModeData_snd 20 24 a b c h) as Hv;
    destruct (createModeData 20 24 a b c h) as [v g2] end.
  cbn [snd Rng.tape Rng.pos] in Hv. subst g2.
  match goal with |- context [createModeData 10 15 ?a ?b ?c ?h] =>
    pose proof (createModeData_snd 10 15 a b c h) as Hc;
    destruct (createModeData 10 15 a b c h) as [c' g3] end.
  cbn [snd Rng.tape Rng.pos] in Hc. subst g3.
  match goal with |- context [torqueDatasets 60 ?a ?b ?c ?d ?h] =>
    pose proof (torqueDatasets_snd 60 a b c d h) as H1;
    destruct (torqueDatasets 60 a b c d h) as [t1 g4] end.
  cbn [snd Rng.tape Rng.pos] in H1. subst g4.
  match goal with |- context [torqueDatasets 60 ?a ?b ?c ?d ?h] =>
    pose proof (torqueDatasets_snd 60 a b c d h) as H2;
    destruct (torqueDatasets 60 a b c d h) as [t2 g5] end.
  cbn [snd Rng.tape Rng.pos] in H2. subst g5.
  match goal with |- context [torqueDatasets 25 ?a ?b ?c ?d ?h] =>
    pose proof (torqueDatasets_snd 25 a b c d h) as H3;
    destruct (torqueDatasets 25 a b c d h) as [t3 g6] end.
  cbn [snd Rng.tape Rng.pos] in H3. subst g6.
  cbn [snd]. f_equal.
  change (Z.to_nat 60) with 60%nat. change (Z.to_nat 25) with 25%nat. lia.
Qed.

(** One step of the walk moves a value of the interval by at most 7.5%
    of the range. *)
Lemma walkStep_step (min max val r1 r2 : Q) :
  min <= val <= max -> Rng.valid_draw r1 -> Rng.valid_draw r2 ->
  Qabs (walkStep min max val r1 r2 - val) <= 0.075 * (max - min).
Proof.
  intros [Hlo Hhi] [A0 A1] [B0 B1]. unfold walkStep. cbv zeta.
  unfold Js.Math_max, Js.Math_min.
  set (d := max - min).
  assert (Hd : 0 <= d) by (subst d; lra).
  clearbody d.
  set (p1 := (r1 - 0.5) * d).
  set (p2 := (r2 - 0.5) * d).
  assert (P1 : - (0.5 * d) <= p1 <= 0.5 * d) by (subst p1; split; nra).
  assert (P2 : - (0.5 * d) <= p2 <= 0.5 * d) by (subst p2; split; nra).
  clearbody p1 p2.
  set (raw := val + p1 * 0.1 + p2 * 0.05).
  assert (R : val - 0.075 * d <= raw <= val + 0.075 * d)
    by (subst raw; lra).
  clearbody raw.
  apply abs_le;
    destruct (Q.min_spec max raw) as [[? E1] | [? E1]];
    destruct (Q.max_spec min (Qmin max raw)) as [[? E2] | [? E2]];
    set (w := Qmax min (Qmin max raw)) in *;
    set (m := Qmin max raw) in *; clearbody w m; lra.
Qed.

Lemma stepsWithin_cons (b x : Q) (rest : list Q) :
  Runs.stepsWithin b rest ->
  (forall y, nth_error rest 0 = Some y -> Qabs (y - x) <= b) ->
  Runs.stepsWithin b (x :: rest).
Proof.
  intros Hr Hh i u v Hu Hv. destruct i as [|i].
  - cbn in Hu. injection Hu as <-. cbn in Hv. exact (Hh v Hv).
  - cbn in Hu, Hv. exact (Hr i u v Hu Hv).
Qed.

Lemma walk_steps (n : nat) (min max val : Q) (g : Rng.t) :
  min <= max -> Rng.valid g -> min <= val <= max ->
  let l := fst (walk n min max val g) in
  Runs.stepsWithin (0.075 * (max - min) + 0.01) l
  /\ (forall y, nth_error l 0 = Some y ->
        Qabs (y - val) <= 0.075 * (max - min) + 0.005).
Proof.
  intros Hm Hg. revert val g Hg.
  induction n as [|n IH]; intros val g Hg Hv; cbv zeta.
  - cbn [walk fst]. split.
    + intros i x y Hx. destruct i; discriminate Hx.
    + intros y Hy. discriminate Hy.
  - cbn [walk]. unfold Rng.Math_random. cbn [Rng.tape Rng.pos].
    pose proof (walkStep_step min max val
                  (Rng.tape g (Rng.pos g)) (Rng.tape g (S (Rng.pos g)))
                  Hv (Hg _) (Hg _)) as Hs.
    pose proof (walkStep_clamped min max val
                  (Rng.tape g (Rng.pos g)) (Rng.tape g (S (Rng.pos g)))
                  Hm) as Hc.
    set (val' := walkStep min max val _ _) in *.
    set (g2 := Rng.mk _ _).
    assert (Hg2 : Rng.valid g2) by (intros i; apply Hg).
    specialize (IH val' g2 Hg2 Hc). cbv zeta in IH.
    destruct (walk n min max val' g2) as [rest g'].
    cbn [fst] in *. destruct IH as [IH1 IH2].
    unfold Js.parseFloat.
    pose proof (toFixed2_close val') as Hr.
    apply Qabs_Qle_condition in Hs.
    split.
    + apply stepsWithin_cons; [exact IH1|].
      intros y Hy. specialize (IH2 y Hy).
      apply Qabs_Qle_condition in IH2.
      apply abs_le; qlra.
    + intros y Hy. cbn in Hy. injection Hy as <-.
      apply abs_le; qlra.
Qed.

(** X16.  A generated series is smooth: with draws in [[0, 1)] and
    [min <= max], two neighbouring values differ by at most 7.5% of the
    range (5% from the walk term, 2.5% from the jitter term) plus 0.01
    for the two roundings, wherever the walk starts. *)
Theorem generateDenseData_smooth (points : Z) (min max : Q)
    (initialValue : option Q) (g : Rng.t) :
  min <= max -> Rng.valid g ->
  Runs.stepsWithin (0.075 * (max - min) + 0.01)
    (fst (generateDenseData points min max initialValue g)).
Proof.
  intros Hm Hg. unfold generateDenseData.
  destruct (Z.to_nat points) as [|n].
  - cbn [walk fst]. intros i x y Hx. destruct i; discriminate Hx.
  - cbn [walk]. unfold Rng.Math_random. cbn [Rng.tape Rng.pos].
    pose proof (walkStep_clamped min max (startValue min max initialValue)
                  (Rng.tape g (Rng.pos g)) (Rng.tape g (S (Rng.pos g)))
                  Hm) as Hc.
    set (val' := walkStep min max _ _ _) in *.
    set (g2 := Rng.mk _ _).
    assert (Hg2 : Rng.valid g2) by (intros i; apply Hg).
    destruct (walk_steps n min max val' g2 Hm Hg2 Hc) as [H1 H2].
    destruct (walk n min max val' g2) as [rest g'].
    cbn [fst] in *. unfold Js.parseFloat.
    pose proof (toFixed2_close val') as Hr.
    apply stepsWithin_cons; [exact H1|].
    intros y Hy. specialize (H2 y Hy).
    apply Qabs_Qle_condition in H2.
    apply abs_le; qlra.
Qed.

Lemma steady_valid : Rng.valid Examples.steady.
Proof. intros i. unfold Rng.valid_draw. cbn. lra. Qed.

Lemma generateDenseData_smooth_witness :
  Runs.stepsWithin (0.075 * (290 - 240) + 0.01)
    (fst (generateDenseData 60 240 290 (Some 264) Examples.steady)).
Proof.
  apply generateDenseData_smooth; [lra | exact steady_valid].
Defined.

(** Bounds that are multiples of 0.01 survive the rounding. *)
Lemma generateDenseData_within (points : Z) (min max : Q)
    (initialValue : option Q) (g : Rng.t) (a b : Z) (lo hi : Q) :
  min <= max ->
  lo <= inject_Z a / 100 -> inject_Z a / 100 <= min ->
  max <= inject_Z b / 100 -> inject_Z b / 100 <= hi ->
  Forall (fun v => lo <= v <= hi)
         (fst (generateDenseData points min max initialValue g)).
Proof.
  intros Hm Ha Ha' Hb Hb'. unfold generateDenseData.
  refine (Forall_impl _ _ (walk_rounded_clamped _ min max _ g Hm)).
  intros v (x & [Hx1 Hx2] & ->).
  pose proof (toFixed2_le_grid x b (Qle_trans _ _ _ Hx2 Hb)).
  pose proof (toFixed2_ge_grid x a (Qle_trans _ _ _ Ha' Hx1)).
  split; eapply Qle_trans; eassumption.
Qed.

Lemma createModeData_within (lo hi : Q) (a b c : ValueRange) (g : Rng.t)
    (r : Range) :
  Runs.onGrid lo hi a -> Runs.onGrid lo hi b -> Runs.onGrid lo hi c ->
  Forall (fun v => lo <= v <= hi)
         (getRange r (s_ranges (fst (createModeData lo hi a b c g)))).
Proof.
  intros (a1 & a2 & A0 & A1 & A2 & A3 & A4) (b1 & b2 & B0 & B1 & B2 & B3 & B4)
         (c1 & c2 & C0 & C1 & C2 & C3 & C4).
  unfold createModeData.
  pose proof (generateDenseData_within 60 (vr_min a) (vr_max a)
                (Some (vr_init a)) g a1 a2 lo hi A0 A1 A2 A3 A4) as H1.
  destruct (generateDenseData 60 (vr_min a) _ _ g) as [sec g1].
  pose proof (generateDenseData_within 60 (vr_min b) (vr_max b)
                (Some (vr_init b)) g1 b1 b2 lo hi B0 B1 B2 B3 B4) as H2.
  destruct (generateDenseData 60 (vr_min b) _ _ g1) as [mi g2].
  pose proof (generateDenseData_within 25 (vr_min c) (vr_max c)
                (Some (vr_init c)) g2 c1 c2 lo hi C0 C1 C2 C3 C4) as H3.
  destruct (generateDenseData 25 (vr_min c) _ _ g2) as [ho g3].
  destruct r; assumption.
Qed.

Lemma torqueDatasets_within (lo hi : Q) (points : Z) (a b c d : ValueRange)
    (g : Rng.t) :
  Runs.onGrid lo hi a -> Runs.onGrid lo hi b -> Runs.onGrid lo hi c -> Runs.onGrid lo hi d ->
  Forall (fun ds => Forall (fun v => lo <= v <= hi) (ds_data ds))
         (fst (torqueDatasets points a b c d g)).
Proof.
  intros (a1 & a2 & A0 & A1 & A2 & A3 & A4) (b1 & b2 & B0 & B1 & B2 & B3 & B4)
         (c1 & c2 & C0 & C1 & C2 & C3 & C4)
         (d1 & d2 & D0 & D1 & D2 & D3 & D4).
  unfold torqueDatasets.
  pose proof (generateDenseData_within points (vr_min a) (vr_max a)
                (Some (vr_init a)) g a1 a2 lo hi A0 A1 A2 A3 A4) as H1.
  destruct (generateDenseData points (vr_min a) _ _ g) as [x1 g1].
  pose proof (generateDenseData_within points (vr_min b) (vr_max b)
                (Some (vr_init b)) g1 b1 b2 lo hi B0 B1 B2 B3 B4) as H2.
  destruct (generateDenseData points (vr_min b) _ _ g1) as [x2 g2].
  pose proof (generateDenseData_within points (vr_min c) (vr_max c)
                (Some (vr_init c)) g2 c1 c2 lo hi C0 C1 C2 C3 C4) as H3.
  destruct (generateDenseData points (vr_min c) _ _ g2) as [x3 g3].
  pose proof (generateDenseData_within points (vr_min d) (vr_max d)
                (Some (vr_init d)) g3 d1 d2 lo hi D0 D1 D2 D3 D4) as H4.
  destruct (generateDenseData points (vr_min d) _ _ g3) as [x4 g4].
  cbn [fst] in *. repeat constructor; assumption.
Qed.

(** The band of a mode, given in hundredths, covers a value range. *)
Ltac on_grid a b :=
  exists a, b; cbn [vr_min vr_max]; splits;
  apply Qle_bool_imp_le; vm_compute; reflexivity.

(** X17.  Whatever [Math.random()] returns, every value of the initial
    chart data lies inside the band of its mode: power in 0..400, voltage
    in 20..24, current in 10..15 and each wheel torque in -0.5..0.5, at
    every time range. *)
Theorem initial_data_within_band (g : Rng.t) :
  let cd := fst (initialChartData g) in
  (forall r,
     Forall (fun v => s_min (power cd) <= v <= s_max (power cd))
            (getRange r (s_ranges (power cd)))
     /\ Forall (fun v => s_min (voltage cd) <= v <= s_max (voltage cd))
               (getRange r (s_ranges (voltage cd)))
     /\ Forall (fun v => s_min (current cd) <= v <= s_max (current cd))
               (getRange r (s_ranges (current cd))))
  /\ (forall r,
        Forall (fun ds =>
                  Forall (fun v => m_min (torque cd) <= v <= m_max (torque cd))
                         (ds_data ds))
               (getRange r (m_ranges (torque cd)))).
Proof.
  cbv zeta. unfold initialChartData.
  assert (Hp : forall r h,
    Forall (fun v => 0 <= v <= 400)
      (getRange r (s_ranges (fst (createModeData 0 400 (mkVR 240 290 264)
         (mkVR 255 275 260) (mkVR 240 290 265) h))))).
  { intros r h. apply createModeData_within;
      [on_grid 24000%Z 29000%Z | on_grid 25500%Z 27500%Z
       | on_grid 24000%Z 29000%Z]. }
  assert (Hv : forall r h,
    Forall (fun v => 20 <= v <= 24)
      (getRange r (s_ranges (fst (createModeData 20 24 (mkVR 21.5 22.5 22.0)
         (mkVR 21.8 22.4 22.1) (mkVR 21.0 23.0 21.5) h))))).
  { intros r h. apply createModeData_within;
      [on_grid 2150%Z 2250%Z | on_grid 2180%Z 2240%Z
       | on_grid 2100%Z 2300%Z]. }
  assert (Hc : forall r h,
    Forall (fun v => 10 <= v <= 15)
      (getRange r (s_ranges (fst (createModeData 10 15 (mkVR 11 13 11.5)
         (mkVR 11.5 12.5 12.0) (mkVR 11.0 13.0 11.2) h))))).
  { intros r h. apply createModeData_within;
      [on_grid 1100%Z 1300%Z | on_grid 1150%Z 1250%Z
       | on_grid 1100%Z 1300%Z]. }
  assert (H1 : forall h,
    Forall (fun ds => Forall (fun v => -0.5 <= v <= 0.5) (ds_data ds))
      (fst (torqueDatasets 60 (mkVR 0.1 0.2 0.13) (mkVR 0.3 0.4 0.35)
              (mkVR (-0.3) (-0.2) (-0.28)) (mkVR 0.15 0.25 0.18) h))).
  { intros h. apply torqueDatasets_within;
      [on_grid 10%Z 20%Z | on_grid 30%Z 40%Z | on_grid (-30)%Z (-20)%Z
       | on_grid 15%Z 25%Z]. }
  assert (H2 : forall h,
    Forall (fun ds => Forall (fun v => -0.5 <= v <= 0.5) (ds_data ds))
      (fst (torqueDatasets 60 (mkVR 0.12 0.16 0.14) (mkVR 0.32 0.38 0.35)
              (mkVR (-0.32) (-0.25) (-0.29)) (mkVR 0.18 0.23 0.20) h))).
  { intros h. apply torqueDatasets_within;
      [on_grid 12%Z 16%Z | on_grid 32%Z 38%Z | on_grid (-32)%Z (-25)%Z
       | on_grid 18%Z 23%Z]. }
  assert (H3 : forall h,
    Forall (fun ds => Forall (fun v => -0.5 <= v <= 0.5) (ds_data ds))
      (fst (torqueDatasets 25 (mkVR 0.1 0.18 0.15) (mkVR 0.3 0.4 0.32)
              (mkVR (-0.35) (-0.22) (-0.25)) (mkVR 0.15 0.25 0.17) h))).
  { intros h. apply torqueDatasets_within;
      [on_grid 10%Z 18%Z | on_grid 30%Z 40%Z | on_grid (-35)%Z (-22)%Z
       | on_grid 15%Z 25%Z]. }
  pose proof (createModeData_band 0 400 (mkVR 240 290 264)
                (mkVR 255 275 260) (mkVR 240 290 265) g) as [Bp1 Bp2].
  specialize (fun r => Hp r g).
  destruct (createModeData 0 400 _ _ _ g) as [p g1].
  match goal with |- context [createModeData 20 24 ?a ?b ?c ?h] =>
    pose proof (createModeData_band 20 24 a b c h) as [Bv1 Bv2] end.
  specialize (fun r => Hv r g1).
  destruct (createModeData 20 24 _ _ _ g1) as [v g2].
  match goal with |- context [createModeData 10 15 ?a ?b ?c ?h] =>
    pose proof (createModeData_band 10 15 a b c h) as [Bc1 Bc2] end.
  specialize (fun r => Hc r g2).
  destruct (createModeData 10 15 _ _ _ g2) as [c g3].
  specialize (H1 g3).
  destruct (torqueDatasets 60 _ _ _ _ g3) as [t1 g4].
  specialize (H2 g4).
  destruct (torqueDatasets 60 _ _ _ _ g4) as [t2 g5].
  specialize (H3 g5).
  destruct (torqueDatasets 25 _ _ _ _ g5) as [t3 g6].
  cbn [fst] in *. split.
  - intros r. cbn [power voltage current].
    rewrite Bp1, Bp2, Bv1, Bv2, Bc1, Bc2.
    split; [apply Hp | split; [apply Hv | apply Hc]].
  - intros r. cbn [torque m_min m_max m_ranges].
    destruct r; cbn [getRange seconds minutes hours]; assumption.
Qed.

(* ------------------------------------------------------------------ *)
(** ** Runs of ticks of [main.ts] *)

Lemma TS_updateTime_accepted (Math_sin : Q -> Q) (env : TS.Env)
    (s : TS.State) :
  Runs.silent (TS.faults env) ->
  TS.gate (TS.now_gate env) s = true ->
  TS.updateTime Math_sin env s
  = Normal tt (TS.cascade (TS.now_stamp env) (TS.sampleOf Math_sin env) s).
Proof.
  intros Hq Hg.
  unfold TS.updateTime, try_catch, TS.body, bind, ext, get, modify, ret.
  rewrite !Hq. rewrite Hg. rewrite ?Hq. reflexivity.
Qed.

Lemma TS_body_closed (Math_sin : Q -> Q) (env : TS.Env) (s : TS.State) :
  TS.gate (TS.now_gate env) s = false ->
  final (TS.body Math_sin env s) = s.
Proof.
  intros Hg.
  destruct (TS_body_final Math_sin env s) as [E | [Hg' _]];
    [exact E | congruence].
Qed.

Lemma sameData_trans (s1 s2 s3 : TS.State) :
  TS.sameData s1 s2 -> TS.sameData s2 s3 -> TS.sameData s1 s3.
Proof.
  unfold TS.sameData. intros (A1 & A2 & A3 & A4) (B1 & B2 & B3 & B4).
  splits; congruence.
Qed.

(** X18.  The one-second gate: ticks that come less than 1000 ms after
    the last accepted one change neither the chart data nor the buffers
    nor the stamp, however many they are and whatever their external
    calls do; at most the console grows. *)
Theorem early_ticks_change_no_data (Math_sin : Q -> Q)
    (envs : list TS.Env) (s : TS.State) :
  Forall (fun env => (TS.now_gate env - TS.lastSecondUpdate s < 1000)%Z)
         envs ->
  TS.sameData (TS.run Math_sin envs s) s.
Proof.
  unfold TS.run. revert s.
  induction envs as [|env envs IH]; intros s H; cbn [fold_left].
  - unfold TS.sameData. splits; reflexivity.
  - inversion H as [|? ? Hh Ht]; subst.
    assert (Hg : TS.gate (TS.now_gate env) s = false)
      by (unfold TS.gate; apply Z.leb_gt; lia).
    pose proof (TS_updateTime_sameData Math_sin env s) as Hs.
    rewrite (TS_body_closed Math_sin env s Hg) in Hs.
    apply sameData_trans with (s2 := final (TS.updateTime Math_sin env s));
      [|exact Hs].
    apply IH.
    destruct Hs as (_ & _ & _ & Hl). rewrite Hl. exact Ht.
Qed.

Lemma early_ticks_change_no_data_witness :
  TS.sameData
    (TS.run Examples.flat [MoreExamples.closedEnv; Examples.tsBroken]
       (TS.withLast 400 Examples.tsState))
    (TS.withLast 400 Examples.tsState).
Proof.
  apply early_ticks_change_no_data.
  repeat constructor; cbn; lia.
Defined.

Lemma stageSeconds_series (smp : Sample) (s : TS.State) (m : Mode) :
  series m Seconds (TS.chartData (TS.stageSeconds smp s))
  = Js.shift (Js.push (series m Seconds (TS.chartData s))
                      (Runs.component m smp)).
Proof.
  destruct s as [[p v c t] sb mb l cs].
  destruct p as [pmin pmax [ps pm ph]], v as [vmin vmax [vs vm vh]],
           c as [cmin cmax [cs' cm ch]].
  destruct m; reflexivity.
Qed.

Lemma cascade_fields (stamp : Z) (smp : Sample) (s : TS.State) :
  TS.lastSecondUpdate (TS.cascade stamp smp s) = stamp
  /\ TS.console (TS.cascade stamp smp s) = TS.console s
  /\ (forall m,
        series m Seconds (TS.chartData (TS.cascade stamp smp s))
        = Js.shift (Js.push (series m Seconds (TS.chartData s))
                            (Runs.component m smp))).
Proof.
  unfold TS.cascade.
  set (s0 := TS.withLast stamp s).
  pose proof (stageSeconds_fields smp s0) as F1. cbv zeta in F1.
  destruct F1 as (_ & _ & L1 & C1 & _).
  pose proof (stageSeconds_series smp s0) as S1.
  set (s1 := TS.stageSeconds smp s0) in *.
  assert (F2 : TS.lastSecondUpdate (TS.stageMinutes s1)
               = TS.lastSecondUpdate s1
               /\ TS.console (TS.stageMinutes s1) = TS.console s1
               /\ (forall m, series m Seconds
                               (TS.chartData (TS.stageMinutes s1))
                             = series m Seconds (TS.chartData s1))).
  { destruct (Nat.ltb_spec (List.length (TS.buf_power (TS.secBuffer s1))) 60)
      as [Hlt | Hge].
    - rewrite (stageMinutes_closed s1 Hlt). splits; reflexivity.
    - pose proof (stageMinutes_open s1 Hge) as O. cbv zeta in O.
      destruct O as (_ & _ & O1 & O2 & _ & _ & _ & _ & O3 & _).
      splits; assumption. }
  destruct F2 as (L2 & C2 & S2).
  set (s2 := TS.stageMinutes s1) in *.
  assert (F3 : TS.lastSecondUpdate (TS.stageHours s2)
               = TS.lastSecondUpdate s2
               /\ TS.console (TS.stageHours s2) = TS.console s2
               /\ (forall m, series m Seconds
                               (TS.chartData (TS.stageHours s2))
                             = series m Seconds (TS.chartData s2))).
  { destruct (Nat.ltb_spec (List.length (TS.buf_power (TS.minBuffer s2))) 60)
      as [Hlt | Hge].
    - rewrite (stageHours_closed s2 Hlt). splits; reflexivity.
    - pose proof (stageHours_open s2 Hge) as O. cbv zeta in O.
      destruct O as (_ & _ & O1 & O2 & _ & _ & _ & _ & O3 & _).
      splits; assumption. }
  destruct F3 as (L3 & C3 & S3).
  splits.
  - rewrite L3, L2, L1. reflexivity.
  - rewrite C3, C2, C1. reflexivity.
  - intros m. rewrite S3, S2, S1. reflexivity.
Qed.

Lemma shift_push_skipn (l rest : list Q) (v : Q) (n : nat) :
  skipn n (Js.shift (Js.push l v) ++ rest) = skipn (S n) (l ++ v :: rest).
Proof.
  unfold Js.shift, Js.push. destruct l as [|x l]; cbn [app tl skipn].
  - destruct n, rest; reflexivity.
  - rewrite <- app_assoc. reflexivity.
Qed.

(** X19.  The seconds series is a sliding window: after [n] accepted
    ticks (gate open, no external call throwing) each seconds series of
    [main.ts] is the old series followed by the [n] new samples, without
    its first [n] values; the console is untouched. *)
Theorem seconds_series_slides (Math_sin : Q -> Q) (envs : list TS.Env)
    (s : TS.State) (m : Mode) :
  Runs.accepted (TS.lastSecondUpdate s) envs ->
  let s' := TS.run Math_sin envs s in
  series m Seconds (TS.chartData s')
  = skipn (List.length envs)
      (series m Seconds (TS.chartData s)
       ++ map (fun env => Runs.component m (TS.sampleOf Math_sin env)) envs)
  /\ TS.console s' = TS.console s.
Proof.
  cbv zeta. unfold TS.run. revert s.
  induction envs as [|env envs IH]; intros s Ha; cbn [fold_left].
  - cbn [map List.length skipn]. rewrite app_nil_r. split; reflexivity.
  - cbn [Runs.accepted] in Ha. destruct Ha as (Hq & Hg & Hr).
    assert (Hgate : TS.gate (TS.now_gate env) s = true)
      by (unfold TS.gate; apply Z.leb_le; exact Hg).
    rewrite (TS_updateTime_accepted Math_sin env s Hq Hgate).
    cbn [final].
    destruct (cascade_fields (TS.now_stamp env) (TS.sampleOf Math_sin env) s)
      as (L & C & S).
    set (s1 := TS.cascade _ _ s) in *.
    rewrite <- L in Hr.
    destruct (IH s1 Hr) as [I1 I2].
    rewrite I1, I2, C, S. split; [|reflexivity].
    cbn [map List.length]. apply shift_push_skipn.
Qed.

Lemma twoTicks_accepted : Runs.accepted 0 MoreExamples.twoTicks.
Proof.
  cbn. splits; try exact I; try (intros c; reflexivity); lia.
Qed.

Lemma seconds_series_slides_witness :
  series Power Seconds
    (TS.chartData (TS.run Examples.flat MoreExamples.twoTicks
                     Examples.tsState))
  = skipn 2
      (series Power Seconds (TS.chartData Examples.tsState)
       ++ map (fun env => Runs.component Power
                            (TS.sampleOf Examples.flat env))
              MoreExamples.twoTicks).
Proof.
  exact (proj1 (seconds_series_slides Examples.flat MoreExamples.twoTicks
                  Examples.tsState Power twoTicks_accepted)).
Defined.

Lemma pushBuffer_bufferOf (pre : list Sample) (smp : Sample) :
  TS.pushBuffer (Runs.bufferOf pre) (simPower smp) (simVoltage smp)
                (simCurrent smp)
  = Runs.bufferOf (pre ++ [smp]).
Proof.
  unfold TS.pushBuffer, Runs.bufferOf, Js.push.
  cbn [TS.buf_power TS.buf_voltage TS.buf_current].
  rewrite !map_app. reflexivity.
Qed.

(** A tick that finds fewer than 59 buffered seconds only collects. *)
Lemma cascade_collect (stamp : Z) (smp : Sample) (s : TS.State)
    (pre : list Sample) :
  TS.secBuffer s = Runs.bufferOf pre -> (List.length pre < 59)%nat ->
  TS.secBuffer (TS.cascade stamp smp s) = Runs.bufferOf (pre ++ [smp])
  /\ (forall m, series m Minutes (TS.chartData (TS.cascade stamp smp s))
                = series m Minutes (TS.chartData s)).
Proof.
  intros Hb Hn. unfold TS.cascade.
  set (s0 := TS.withLast stamp s).
  pose proof (stageSeconds_fields smp s0) as F1. cbv zeta in F1.
  destruct F1 as (B1 & _ & _ & _ & _ & M1 & _).
  change (TS.secBuffer s0) with (TS.secBuffer s) in B1.
  rewrite Hb, pushBuffer_bufferOf in B1.
  set (s1 := TS.stageSeconds smp s0) in *.
  assert (Hlt : (List.length (TS.buf_power (TS.secBuffer s1)) < 60)%nat).
  { rewrite B1. unfold Runs.bufferOf. cbn [TS.buf_power].
    rewrite length_map, length_app. cbn [List.length]. lia. }
  rewrite (stageMinutes_closed s1 Hlt).
  destruct (Nat.ltb_spec (List.length (TS.buf_power (TS.minBuffer s1))) 60)
    as [Hm | Hm].
  - rewrite (stageHours_closed s1 Hm). split; [exact B1|].
    intros m. apply M1.
  - pose proof (stageHours_open s1 Hm) as O. cbv zeta in O.
    destruct O as (O1 & _ & _ & _ & _ & _ & _ & _ & _ & O2).
    split; [rewrite O1; exact B1|].
    intros m. rewrite O2. apply M1.
Qed.

(** The tick that finds 59 buffered seconds aggregates the 60. *)
Lemma cascade_aggregate (stamp : Z) (smp : Sample) (s : TS.State)
    (pre : list Sample) (m : Mode) :
  TS.secBuffer s = Runs.bufferOf pre -> List.length pre = 59%nat ->
  TS.secBuffer (TS.cascade stamp smp s) = TS.emptyBuffer
  /\ series m Minutes (TS.chartData (TS.cascade stamp smp s))
     = Js.shift
         (Js.push (series m Minutes (TS.chartData s))
            (TS.avg60 (map (Runs.component m) (pre ++ [smp])))).
Proof.
  intros Hb Hn. unfold TS.cascade.
  set (s0 := TS.withLast stamp s).
  pose proof (stageSeconds_fields smp s0) as F1. cbv zeta in F1.
  destruct F1 as (B1 & _ & _ & _ & _ & M1 & _).
  change (TS.secBuffer s0) with (TS.secBuffer s) in B1.
  rewrite Hb, pushBuffer_bufferOf in B1.
  set (s1 := TS.stageSeconds smp s0) in *.
  assert (Hge : (60 <= List.length (TS.buf_power (TS.secBuffer s1)))%nat).
  { rewrite B1. unfold Runs.bufferOf. cbn [TS.buf_power].
    rewrite length_map, length_app. cbn [List.length]. lia. }
  pose proof (stageMinutes_open s1 Hge) as O. cbv zeta in O.
  destruct O as (E2 & _ & _ & _ & _ & P2 & V2 & C2 & _ & _).
  rewrite B1 in P2, V2, C2.
  unfold Runs.bufferOf in P2, V2, C2.
  cbn [TS.buf_power TS.buf_voltage TS.buf_current] in P2, V2, C2.
  rewrite (M1 Power) in P2. rewrite (M1 Voltage) in V2.
  rewrite (M1 Current) in C2.
  change (TS.chartData s0) with (TS.chartData s) in P2, V2, C2.
  set (s2 := TS.stageMinutes s1) in *.
  assert (F3 : TS.secBuffer (TS.stageHours s2) = TS.secBuffer s2
               /\ (forall m', series m' Minutes
                                (TS.chartData (TS.stageHours s2))
                              = series m' Minutes (TS.chartData s2))).
  { destruct (Nat.ltb_spec (List.length (TS.buf_power (TS.minBuffer s2))) 60)
      as [Hm | Hm].
    - rewrite (stageHours_closed s2 Hm). split; reflexivity.
    - pose proof (stageHours_open s2 Hm) as O. cbv zeta in O.
      destruct O as (O1 & _ & _ & _ & _ & _ & _ & _ & _ & O2).
      split; assumption. }
  destruct F3 as (B3 & M3).
  split; [rewrite B3; exact E2|].
  rewrite M3.
  destruct m; [exact P2 | exact V2 | exact C2 | reflexivity].
Qed.

Lemma run_minute (Math_sin : Q -> Q) (m : Mode) (envs : list TS.Env) :
  forall (s : TS.State) (pre : list Sample),
  (List.length pre + List.length envs = 60)%nat -> envs <> [] ->
  Runs.accepted (TS.lastSecondUpdate s) envs ->
  TS.secBuffer s = Runs.bufferOf pre ->
  TS.secBuffer (TS.run Math_sin envs s) = TS.emptyBuffer
  /\ series m Minutes (TS.chartData (TS.run Math_sin envs s))
     = Js.shift
         (Js.push (series m Minutes (TS.chartData s))
            (TS.avg60
               (map (Runs.component m)
                    (pre ++ map (TS.sampleOf Math_sin) envs)))).
Proof.
  unfold TS.run.
  induction envs as [|env envs IH]; intros s pre Hlen Hne Ha Hb;
    [congruence|].
  cbn [fold_left].
  cbn [Runs.accepted] in Ha. destruct Ha as (Hq & Hg & Hr).
  assert (Hgate : TS.gate (TS.now_gate env) s = true)
    by (unfold TS.gate; apply Z.leb_le; exact Hg).
  rewrite (TS_updateTime_accepted Math_sin env s Hq Hgate). cbn [final].
  destruct (cascade_fields (TS.now_stamp env) (TS.sampleOf Math_sin env) s)
    as (L & _ & _).
  cbn [List.length] in Hlen.
  destruct envs as [|env2 envs].
  - cbn [fold_left map].
    apply cascade_aggregate; [exact Hb | cbn [List.length] in Hlen; lia].
  - assert (Hpre : (List.length pre < 59)%nat)
      by (cbn [List.length] in Hlen; lia).
    destruct (cascade_collect (TS.now_stamp env) (TS.sampleOf Math_sin env)
                s pre Hb Hpre) as (B1 & M1).
    set (s1 := TS.cascade _ _ s) in *.
    rewrite <- L in Hr.
    destruct (IH s1 (pre ++ [TS.sampleOf Math_sin env])) as (I1 & I2);
      [rewrite length_app; cbn [List.length] in *; lia
      | discriminate | exact Hr | exact B1 |].
    split; [exact I1|].
    rewrite I2, M1. rewrite <- app_assoc. reflexivity.
Qed.

(** X20.  Sixty accepted ticks make one minute: from a page whose seconds
    buffer is empty, 60 ticks with the gate open and no external call
    throwing add exactly one value to each minutes series, the old series
    losing its first value, and leave the seconds buffer empty again; the
    value is the sum of the 60 samples of those ticks divided by 60, their
    arithmetic mean. *)
Theorem sixty_ticks_make_one_minute (Math_sin : Q -> Q)
    (envs : list TS.Env) (s : TS.State) (m : Mode) :
  List.length envs = 60%nat ->
  Runs.accepted (TS.lastSecondUpdate s) envs ->
  TS.secBuffer s = TS.emptyBuffer ->
  let s' := TS.run Math_sin envs s in
  let vals :=
    map (fun env => Runs.component m (TS.sampleOf Math_sin env)) envs in
  TS.secBuffer s' = TS.emptyBuffer
  /\ series m Minutes (TS.chartData s')
     = Js.shift (Js.push (series m Minutes (TS.chartData s)) (TS.avg60 vals))
  /\ TS.avg60 vals == Js.arithmeticMean vals.
Proof.
  intros Hlen Ha Hb. cbv zeta.
  assert (Hne : envs <> []) by (intros ->; discriminate Hlen).
  destruct (run_minute Math_sin m envs s [] ltac:(cbn; lia) Hne Ha Hb)
    as (E1 & E2).
  cbn [app] in E2. rewrite map_map in E2.
  split; [exact E1|]. split; [exact E2|].
  apply avg60_is_mean. rewrite length_map. exact Hlen.
Qed.

Lemma minuteOfTicks_accepted : Runs.accepted 0 MoreExamples.minuteOfTicks.
Proof.
  vm_compute.
  splits;
    first [exact I | (intros c; reflexivity) | (intros H; discriminate H)].
Qed.

Lemma sixty_ticks_make_one_minute_witness :
  TS.secBuffer
    (TS.run Examples.flat MoreExamples.minuteOfTicks
       (TS.initialState Examples.steady))
  = TS.emptyBuffer.
Proof.
  exact (proj1 (sixty_ticks_make_one_minute Examples.flat
                  MoreExamples.minuteOfTicks
                  (TS.initialState Examples.steady) Power
                  eq_refl minuteOfTicks_accepted eq_refl)).
Defined.

(** X21.  Between ticks the aggregation buffers of [main.ts] never hold a
    full minute or hour: on every page reached from the initial one, by
    ticks of any timing and with any external call throwing, the three
    arrays of the seconds buffer have one common length below 60, and so
    have those of the minutes buffer. *)
Theorem buffers_stay_below_sixty (Math_sin : Q -> Q) (g : Rng.t)
    (envs : list TS.Env) :
  let s := TS.run Math_sin envs (TS.initialState g) in
  (List.length (TS.buf_power (TS.secBuffer s)) < 60)%nat
  /\ List.length (TS.buf_voltage (TS.secBuffer s))
     = List.length (TS.buf_power (TS.secBuffer s))
  /\ List.length (TS.buf_current (TS.secBuffer s))
     = List.length (TS.buf_power (TS.secBuffer s))
  /\ (List.length (TS.buf_power (TS.minBuffer s)) < 60)%nat
  /\ List.length (TS.buf_voltage (TS.minBuffer s))
     = List.length (TS.buf_power (TS.minBuffer s))
  /\ List.length (TS.buf_current (TS.minBuffer s))
     = List.length (TS.buf_power (TS.minBuffer s)).
Proof.
  cbv zeta.
  destruct (TS_run_buffers Math_sin g envs)
    as (n & k & Hn & Hk & (A1 & A2 & A3) & (B1 & B2 & B3)).
  rewrite A1, A2, A3, B1, B2, B3. splits; lia.
Qed.

(* ------------------------------------------------------------------ *)
(** ** Runs of ticks of the first [main.js] *)

Lemma JsA_quiet_tick (Math_sin : Q -> Q) (env : JsA.Env) (s : JsA.State)
    (m : Mode) (r : Range) :
  Runs.silent (JsA.faults env) ->
  JsA.datasets s = [JsA.RefSingle m r] -> JsA.currentMode s = m ->
  JsA.updateTime Math_sin env s
  = Normal tt
      (JsA.withChart
         (pushShiftSingle m r (JsA.newVal m (JsA.sampleOf Math_sin env))
                          (JsA.chartData s)) s).
Proof.
  intros Hq Hd Hm.
  unfold JsA.updateTime, try_catch, JsA.body, JsA.graphUpdate, bind, ext,
    get, modify, ret.
  rewrite !Hq. rewrite Hd. rewrite ?Hq. cbn [JsA.pushShiftRef].
  rewrite Hm. reflexivity.
Qed.

Lemma pushShiftSingle_series (m : Mode) (r : Range) (v : Q)
    (cd : ChartDataConfig) :
  series m r (pushShiftSingle m r v cd)
  = Js.shift (Js.push (series m r cd) v)
  /\ (forall m' r', (m', r') <> (m, r) ->
        series m' r' (pushShiftSingle m r v cd) = series m' r' cd).
Proof.
  destruct cd as [p vo c t].
  destruct p as [pmin pmax [ps pm ph]], vo as [vmin vmax [vs vm vh]],
           c as [cmin cmax [cs cm ch]].
  split.
  - destruct m, r; reflexivity.
  - intros m' r' Hne.
    destruct m, r, m', r'; first [reflexivity | congruence].
Qed.

(** X22.  In the first [main.js] the displayed series is a sliding
    window fed on every tick, whatever the time range: on a page in a
    single-line mode, after [n] ticks none of whose external calls throws,
    the series of the current mode and range is the old one followed by
    the [n] raw samples, without its first [n] values (no averaging, also
    at the minutes and hours ranges), while every other series, the
    torque data and the console are as before. *)
Theorem displayed_series_slides (Math_sin : Q -> Q) (envs : list JsA.Env)
    (s : JsA.State) :
  JsA.wellFormed s -> JsA.currentMode s <> Torque -> Runs.quiet envs ->
  let m := JsA.currentMode s in
  let r := JsA.currentTimeRange s in
  let s' := JsA.run Math_sin (map JsA.Tick envs) s in
  series m r (JsA.chartData s')
  = skipn (List.length envs)
      (series m r (JsA.chartData s)
       ++ map (fun env => JsA.newVal m (JsA.sampleOf Math_sin env)) envs)
  /\ (forall m' r', (m', r') <> (m, r) ->
        series m' r' (JsA.chartData s') = series m' r' (JsA.chartData s))
  /\ torque (JsA.chartData s') = torque (JsA.chartData s)
  /\ JsA.console s' = JsA.console s.
Proof.
  intros Hwf Hm Hq. cbv zeta.
  assert (Hd : JsA.datasets s
               = [JsA.RefSingle (JsA.currentMode s) (JsA.currentTimeRange s)]).
  { destruct Hwf as [Hs _]. unfold JsA.synced in Hs. rewrite Hs.
    destruct (JsA.currentMode s); [reflexivity | reflexivity | reflexivity
                                  | congruence]. }
  clear Hwf Hm.
  set (m := JsA.currentMode s) in *. set (r := JsA.currentTimeRange s) in *.
  assert (Hcm : JsA.currentMode s = m) by reflexivity.
  clearbody m r. unfold JsA.run. revert s Hd Hcm.
  induction envs as [|env envs IH]; intros s Hd Hcm; cbn [map fold_left].
  - cbn [List.length skipn]. rewrite app_nil_r. splits; reflexivity.
  - inversion Hq as [|? ? Hh Ht]; subst.
    cbn [JsA.step].
    rewrite (JsA_quiet_tick Math_sin env s (JsA.currentMode s) r Hh Hd
               eq_refl).
    cbn [final].
    set (v := JsA.newVal (JsA.currentMode s) (JsA.sampleOf Math_sin env)).
    destruct (pushShiftSingle_series (JsA.currentMode s) r v (JsA.chartData s))
      as (P1 & P2).
    set (s1 := JsA.withChart _ s) in *.
    destruct (IH Ht s1 Hd eq_refl) as (I1 & I2 & I3 & I4).
    change (JsA.chartData s1)
      with (pushShiftSingle (JsA.currentMode s) r v (JsA.chartData s)) in *.
    change (JsA.console s1) with (JsA.console s) in I4.
    splits.
    + rewrite I1, P1. cbn [List.length]. apply shift_push_skipn.
    + intros m' r' Hne. rewrite (I2 m' r' Hne). apply (P2 m' r' Hne).
    + rewrite I3. unfold pushShiftSingle.
      destruct (getSingle (JsA.currentMode s) (JsA.chartData s)) as [d|];
        [|reflexivity].
      destruct (JsA.currentMode s); reflexivity.
    + exact I4.
Qed.

Lemma displayed_series_slides_witness :
  let s := JsA.initialState Examples.steady in
  let envs := [Examples.jsaEnv; Examples.jsaEnv] in
  series (JsA.currentMode s) (JsA.currentTimeRange s)
    (JsA.chartData (JsA.run Examples.flat (map JsA.Tick envs) s))
  = skipn (List.length envs)
      (series (JsA.currentMode s) (JsA.currentTimeRange s) (JsA.chartData s)
       ++ map (fun env => JsA.newVal (JsA.currentMode s)
                            (JsA.sampleOf Examples.flat env)) envs).
Proof.
  refine (proj1 (displayed_series_slides Examples.flat
                   [Examples.jsaEnv; Examples.jsaEnv]
                   (JsA.initialState Examples.steady)
                   (JsA_initial_wellFormed Examples.steady) _ _)).
  - unfold JsA.initialState. cbv zeta. cbn [JsA.currentMode]. discriminate.
  - repeat constructor; intros c; reflexivity.
Defined.

(* ------------------------------------------------------------------ *)
(** ** The electrical figures of the second [main.js] *)

Lemma abs_cases (x : Q) :
  (0 <= x /\ Qabs x == x) \/ (x <= 0 /\ Qabs x == - x).
Proof.
  destruct (Qlt_le_dec x 0) as [H | H].
  - right. split; [lra | apply Qabs_neg; lra].
  - left. split; [exact H | apply Qabs_pos; exact H].
Qed.

(** The load of a noisy command: at most 0.15 above the load [a] of the
    setpoint, and at most 0.05 below the magnitude [b] of any one axis. *)
Lemma JsB_totalDrive_near (sp : Motion) (d : Draws) (a b : Q) :
  validDraws d ->
  Qabs (drive sp) + Qabs (strafe sp) + Qabs (turn sp) == a ->
  (Qabs (drive sp) == b \/ Qabs (strafe sp) == b \/ Qabs (turn sp) == b) ->
  b - 0.05 <= JsB.totalDrive (JsB.addNoise sp d) <= a + 0.15.
Proof.
  intros ([D0 D1] & [S0 S1] & [T0 T1] & _) Ha Hb.
  unfold JsB.totalDrive, JsB.addNoise, Js.Math_abs. cbn [drive strafe turn].
  destruct (abs_cases (drive sp)) as [[? E1] | [? E1]];
    destruct (abs_cases (strafe sp)) as [[? E2] | [? E2]];
    destruct (abs_cases (turn sp)) as [[? E3] | [? E3]];
    destruct (abs_cases (drive sp + (rnd_drive d - 0.5) * 0.1))
      as [[? F1] | [? F1]];
    destruct (abs_cases (strafe sp + (rnd_strafe d - 0.5) * 0.1))
      as [[? F2] | [? F2]];
    destruct (abs_cases (turn sp + (rnd_turn d - 0.5) * 0.1))
      as [[? F3] | [? F3]];
    set (x1 := Qabs (drive sp)) in *;
    set (x2 := Qabs (strafe sp)) in *;
    set (x3 := Qabs (turn sp)) in *;
    set (y1 := Qabs (drive sp + _)) in *;
    set (y2 := Qabs (strafe sp + _)) in *;
    set (y3 := Qabs (turn sp + _)) in *;
    clearbody x1 x2 x3 y1 y2 y3;
    destruct Hb as [Hb | [Hb | Hb]]; lra.
Qed.

(** Each state drives one axis: the load of the setpoint is the
    magnitude of that axis. *)
Lemma JsB_setpoint_load (now : Z) :
  (0 <= now)%Z ->
  let sp := JsB.setpoint now in
  exists v,
    Qabs (drive sp) + Qabs (strafe sp) + Qabs (turn sp) == v
    /\ (Qabs (drive sp) == v \/ Qabs (strafe sp) == v \/ Qabs (turn sp) == v)
    /\ ((JsB.cycleIndex now = 0%Z /\ v = 0)
        \/ (JsB.cycleIndex now = 1%Z /\ v = 0.8)
        \/ (JsB.cycleIndex now = 2%Z /\ v = 0.6)
        \/ (JsB.cycleIndex now = 3%Z /\ v = 0.8)
        \/ (JsB.cycleIndex now = 4%Z /\ v = 0.8)
        \/ (JsB.cycleIndex now = 5%Z /\ v = 0.9)).
Proof.
  intros Hn. cbv zeta.
  destruct (JsB_cycleIndex_nonneg now Hn) as [_ Hr].
  unfold JsB.stateCount in Hr. unfold JsB.setpoint.
  destruct (JsB.cycleIndex now) as [|p|p]; [| |lia].
  - exists 0. split; [reflexivity|]. split; [left; reflexivity|].
    left. split; reflexivity.
  - destruct p as [[[|p|]|[|p|]|]|[[|p|]|[|p|]|]|]; try lia.
    + exists 0.9. split; [destruct (Z.rem now 3000 <? 1500)%Z; reflexivity|].
      split; [right; right;
              destruct (Z.rem now 3000 <? 1500)%Z; reflexivity|].
      do 5 right. split; reflexivity.
    + exists 0.8. split; [reflexivity|].
      split; [right; left; reflexivity|].
      do 3 right. left. split; reflexivity.
    + exists 0.8. split; [reflexivity|].
      split; [right; left; reflexivity|].
      do 4 right. left. split; reflexivity.
    + exists 0.6. split; [reflexivity|]. split; [left; reflexivity|].
      do 2 right. left. split; reflexivity.
    + exists 0.8. split; [reflexivity|]. split; [left; reflexivity|].
      right. left. split; reflexivity.
Qed.

Lemma currentColor_bands (c : Q) :
  (c < 10 -> Widgets.currentColor c = "#4ADE80"%string)
  /\ (10 <= c -> Widgets.currentColor c <> "#4ADE80"%string)
  /\ (20 <= c -> Widgets.currentColor c = "#EF4444"%string).
Proof.
  unfold Widgets.currentColor.
  destruct (Js.ltb c 10) eqn:E1;
    [apply ltb_true_iff in E1 | apply ltb_false_iff in E1];
    (destruct (Js.ltb c 20) eqn:E2;
       [apply ltb_true_iff in E2 | apply ltb_false_iff in E2]);
    splits; intros H;
    first [reflexivity | discriminate | (exfalso; lra)].
Qed.

(** X23.  The current of the second [main.js] by state, for draws in
    [[0, 1)]: always between 0.25 and 26.75 A; in the IDLE state at most
    8.75 A and shown green; in every other state at least 15.25 A and
    never green; in the ROTATE state at least 21.25 A and shown red.  The
    voltage does not depend on the motion and stays within 0.05 V of
    24.704 V. *)
Theorem JsB_current_by_state (now : Z) (d : Draws) :
  (0 <= now)%Z -> validDraws d ->
  let m := JsB.motion now d in
  let c := JsB.currentOf m d in
  0.25 <= c <= 26.75
  /\ (JsB.cycleIndex now = 0%Z ->
      c <= 8.75 /\ Widgets.currentColor c = "#4ADE80"%string)
  /\ (JsB.cycleIndex now <> 0%Z ->
      15.25 <= c /\ Widgets.currentColor c <> "#4ADE80"%string)
  /\ (JsB.cycleIndex now = 5%Z ->
      21.25 <= c /\ Widgets.currentColor c = "#EF4444"%string)
  /\ 24.654 <= JsB.voltageOf d <= 24.754.
Proof.
  intros Hn Hd. cbv zeta.
  destruct (JsB_setpoint_load now Hn) as (v & Ha & Hb & Hrow).
  cbv zeta in Ha, Hb.
  pose proof (JsB_totalDrive_near (JsB.setpoint now) d v v Hd Ha Hb) as Ht.
  assert (Hv : 24.654 <= JsB.voltageOf d <= 24.754).
  { unfold JsB.voltageOf, JsB.batteryPercent.
    destruct Hd as (_ & _ & _ & [V0 V1] & _). lra. }
  destruct Hd as (_ & _ & _ & _ & [C0 C1]).
  unfold JsB.motion.
  set (m := JsB.addNoise (JsB.setpoint now) d) in *.
  assert (Ht0 : 0 <= JsB.totalDrive m).
  { unfold JsB.totalDrive, Js.Math_abs.
    pose proof (Qabs_nonneg (drive m)).
    pose proof (Qabs_nonneg (strafe m)).
    pose proof (Qabs_nonneg (turn m)). lra. }
  destruct (currentColor_bands (JsB.currentOf m d)) as (G & NG & R).
  assert (Hc : (JsB.totalDrive m <= 0.1 ->
                  0.25 <= JsB.currentOf m d <= 1.75)
               /\ (0.1 < JsB.totalDrive m ->
                   5 + JsB.totalDrive m * 20 - 0.75 <= JsB.currentOf m d
                   <= 5 + JsB.totalDrive m * 20 + 0.75)).
  { unfold JsB.currentOf. cbv zeta.
    destruct (Js.ltb 0.1 (JsB.totalDrive m)) eqn:Eb;
      [apply ltb_true_iff in Eb | apply ltb_false_iff in Eb];
      split; intros H; lra. }
  destruct Hc as [Hlow Hhigh].
  set (t := JsB.totalDrive m) in *. set (c := JsB.currentOf m d) in *.
  clearbody t c.
  assert (Hcase : t <= 0.1 \/ 0.1 < t)
    by (destruct (Qlt_le_dec 0.1 t); [right | left]; assumption).
  assert (Hv01 : 0 <= v <= 0.9)
    by (destruct Hrow as [[_ ->] | [[_ ->] | [[_ ->] | [[_ ->]
                         | [[_ ->] | [_ ->]]]]]]; lra).
  split; [destruct Hcase as [Hc | Hc];
          [specialize (Hlow Hc) | specialize (Hhigh Hc)]; lra|].
  split; [|split; [|split; [|exact Hv]]].
  - intros Hi.
    assert (Hz : v = 0)
      by (destruct Hrow as [[_ E] | [[E' _] | [[E' _] | [[E' _]
                           | [[E' _] | [E' _]]]]]]; [exact E | congruence ..]).
    subst v.
    assert (c <= 8.75)
      by (destruct Hcase as [Hc | Hc];
          [specialize (Hlow Hc) | specialize (Hhigh Hc)]; lra).
    split; [assumption | apply G; lra].
  - intros Hi.
    assert (Hz : 0.6 <= v)
      by (destruct Hrow as [[E' _] | [[_ ->] | [[_ ->] | [[_ ->]
                           | [[_ ->] | [_ ->]]]]]]; [congruence | lra ..]).
    assert (Hm : 0.1 < t) by lra.
    specialize (Hhigh Hm).
    assert (15.25 <= c) by lra.
    split; [assumption | apply NG; lra].
  - intros Hi.
    assert (Hz : v = 0.9)
      by (destruct Hrow as [[E' _] | [[E' _] | [[E' _] | [[E' _]
                           | [[E' _] | [_ E]]]]]]; [congruence .. | exact E]).
    subst v.
    assert (Hm : 0.1 < t) by lra.
    specialize (Hhigh Hm).
    assert (21.25 <= c) by lra.
    split; [assumption | apply R; lra].
Qed.

Lemma JsB_current_by_state_witness :
  let c := JsB.currentOf (JsB.motion 0 Examples.calm) Examples.calm in
  0.25 <= c <= 26.75 /\ Widgets.currentColor c = "#4ADE80"%string.
Proof.
  cbv zeta.
  destruct (JsB_current_by_state 0 Examples.calm ltac:(lia) calm_valid)
    as (H1 & H2 & _).
  split; [exact H1 | exact (proj2 (H2 eq_refl))].
Defined.
